(** * MonoBall porycon: metatile-to-atlas compilation engine

    A shallow embedding of the map compiler of [porycon]:
    - [map_reader.py]: decoding of [map.bin], [metatile_attributes.bin] and
      [metatiles.bin];
    - [metatile_renderer.py] and [palette_loader.py]: rendering of a metatile
      half from two tile banks;
    - [metatile_processor.py]: per-cell processing and GID assignment;
    - [converter.py]: the grid pass, layer distribution, dimension fallback
      and animation building.

    Python integers are [Z]; file contents are lists of [byte]; dictionaries
    whose iteration order is never observed are [gmap]s, the others are
    association lists in insertion order; exceptions are an explicit result
    type. *)

From stdpp Require Import gmap strings list fin_maps sorting.
From Stdlib Require Import ZArith.
From Stdlib.Strings Require Import Byte.

Local Open Scope Z_scope.

(** ** Exceptions and results *)

Inductive exn : Type :=
  | FileNotFoundError
  | ValueError
  | IndexError
  | KeyError
  | StructError
  | ZeroDivisionError.

#[global] Instance exn_eq_dec : EqDecision exn.
Proof. solve_decision. Defined.

Inductive result (A : Type) : Type :=
  | Ok (a : A)
  | Raise (e : exn).

Arguments Ok {A} a.
Arguments Raise {A} e.

Definition bind {A B : Type} (c : result A) (k : A → result B) : result B :=
  match c with
  | Ok a => k a
  | Raise e => Raise e
  end.

Declare Scope result_scope.
Delimit Scope result_scope with result.
Notation "'let*' x := c 'in' k" := (bind c (λ x, k))
  (at level 10, x name, c at level 100, k at level 200) : result_scope.
Notation "'let*' ' p := c 'in' k" := (bind c (λ p, k))
  (at level 10, p pattern, c at level 100, k at level 200) : result_scope.
Local Open Scope result_scope.

(** A Python [for] loop whose body may raise. *)
Fixpoint foldlM {A B : Type} (f : A → B → result A) (a : A) (l : list B)
    : result A :=
  match l with
  | [] => Ok a
  | x :: l' => let* a' := f a x in foldlM f a' l'
  end.

(** A list comprehension whose element expression may raise. *)
Fixpoint forM {A B : Type} (f : A → result B) (l : list A) : result (list B) :=
  match l with
  | [] => Ok []
  | x :: l' => let* y := f x in let* ys := forM f l' in Ok (y :: ys)
  end.

(** [range(n)]: empty when [n <= 0]. *)
Definition range (n : Z) : list Z := Z.of_nat <$> seq 0 (Z.to_nat n).

(** [range(0, n, 2)] for a length [n]. *)
Definition range_by_2 (n : nat) : list nat :=
  (λ k, 2 * k)%nat <$> seq 0 (Nat.div2 (S n)).

(** [l[i]] with Python's negative indices and [IndexError]. *)
Definition py_index {A : Type} (l : list A) (i : Z) : result A :=
  let n := Z.of_nat (length l) in
  let j := if i <? 0 then i + n else i in
  if (0 <=? j) && (j <? n) then
    match l !! Z.to_nat j with
    | Some x => Ok x
    | None => Raise IndexError
    end
  else Raise IndexError.

(** [l[a:b]] for [0 <= a <= b]. *)
Definition slice {A : Type} (l : list A) (a b : nat) : list A :=
  take (b - a) (drop a l).

(** ** constants.py *)

Definition NUM_METATILES_IN_PRIMARY : Z := 512.
Definition NUM_TILES_IN_PRIMARY_VRAM : Z := 512.
Definition TILE_SIZE : Z := 8.
Definition METATILE_SIZE : Z := 16.
Definition NUM_TILES_PER_METATILE : Z := 8.
Definition METATILE_ID_MASK : Z := 0x03FF.
Definition FLIP_HORIZONTAL : Z := 0x01.
Definition FLIP_VERTICAL : Z := 0x02.

(** ** map_reader.py *)

(** [struct.unpack('<H', bs)[0]]: exactly two bytes, little endian. *)
Definition struct_unpack_H (bs : list byte) : result Z :=
  match bs with
  | [b0; b1] => Ok (Z.of_N (Byte.to_N b0) + 256 * Z.of_N (Byte.to_N b1))
  | _ => Raise StructError
  end.

(** The loop shared by the three readers:
    [for i in range(0, len(data), 2): if i + 1 < len(data): ...],
    collecting [(i, value)] in order. *)
Definition read_u16_step (data : list byte) (acc : list (nat * Z)) (i : nat)
    : result (list (nat * Z)) :=
  if bool_decide (i + 1 < length data)%nat then
    let* v := struct_unpack_H (slice data i (i + 2)) in
    Ok (acc ++ [(i, v)])
  else Ok acc.

Definition read_u16_records (data : list byte) : result (list (nat * Z)) :=
  foldlM (read_u16_step data) [] (range_by_2 (length data)).

(** [MapReader.read_map_bin]; [file] is the content of [map_bin_path], [None]
    when the path does not exist. *)
Definition read_map_bin (file : option (list byte)) (width height : Z)
    : result (list (list Z)) :=
  match file with
  | None => Raise FileNotFoundError
  | Some data =>
      let* records := read_u16_records data in
      let entries := snd <$> records in
      if bool_decide (Z.of_nat (length entries) ≠ width * height) then
        Raise ValueError
      else
        forM (λ y, forM (λ x, py_index entries (y * width + x)) (range width))
             (range height)
  end.

(** [MapReader.read_metatile_attributes], from the point where the file has
    been read: [attributes[i // 2] = (attr >> 12) & 0x0F]. The enclosing
    [try] turns any exception into the empty dictionary. *)
Definition read_metatile_attributes (file : option (list byte)) : gmap Z Z :=
  match file with
  | None => ∅
  | Some data =>
      match read_u16_records data with
      | Ok records =>
          foldl (λ (attributes : gmap Z Z) '(i, attr),
                   <[Z.of_nat (i / 2) := Z.land (Z.shiftr attr 12) 0x0F]> attributes)
                ∅ records
      | Raise _ => ∅
      end
  end.

(** A sub-tile reference [(tile_id, flip_flags, palette_index)]. *)
Abbreviation tile_ref := (Z * Z * Z)%type (only parsing).

(** [MapReader.read_metatiles_with_attributes], likewise. *)
Definition read_metatiles_with_attributes (file : option (list byte))
    : list tile_ref :=
  match file with
  | None => []
  | Some data =>
      match read_u16_records data with
      | Ok records =>
          (λ '(_, tile_attr),
             (Z.land tile_attr 0x3FF,
              Z.land (Z.shiftr tile_attr 10) 0x3,
              Z.land (Z.shiftr tile_attr 12) 0xF)) <$> records
      | Raise _ => []
      end
  end.

(** ** converter.py: reading the grid with the dimension fallback *)

(** Diagnostics written through [logger]. *)
Inductive log_entry : Type :=
  | LogWarning (site : string)
  | LogInfo (site : string)
  | LogError (site : string).

(** [MapConverter._read_and_validate_map_data]; returns the function's value
    ([None] is Python's [None]) and the diagnostics it logged.
    [os.path.getsize] is the length of the file. An exception raised inside
    the [except ValueError] handler is not seen by the sibling
    [except Exception] clause. *)
Definition _read_and_validate_map_data
    (file : option (list byte)) (width height : Z)
    : result (option (list (list Z) * Z * Z)) * list log_entry :=
  match read_map_bin file width height with
  | Ok map_entries => (Ok (Some (map_entries, width, height)), [])
  | Raise ValueError =>
      match file with
      | None => (Raise FileNotFoundError, [])
      | Some data =>
          let file_size := Z.of_nat (length data) in
          let expected_entries := width * height in
          let actual_entries := file_size `div` 2 in
          if bool_decide (actual_entries ≠ expected_entries) then
            let half_width := width `div` 2 in
            let half_height := height `div` 2 in
            if bool_decide (half_width > 0) && bool_decide (half_height > 0)
               && bool_decide (actual_entries = half_width * half_height)
            then
              let log := [LogWarning "dimensions don't match map.bin size";
                          LogWarning "suggesting dimensions";
                          LogInfo "using file-based dimensions"] in
              match read_map_bin file half_width half_height with
              | Ok map_entries =>
                  (Ok (Some (map_entries, half_width, half_height)), log)
              | Raise e => (Raise e, log)
              end
            else (Ok None, [LogError "cannot determine correct dimensions"])
          else (Raise ValueError, [])
      end
  | Raise _ => (Ok None, [LogError "error reading map.bin"])
  end.

(** ** PIL images *)

(** An RGBA pixel [(r, g, b, a)]. *)
Abbreviation rgba := (Z * Z * Z * Z)%type (only parsing).

Definition alpha (px : rgba) : Z := px.2.

(** A mode ['P'] image: palette indices by row, and the palette the file
    carries, with the alpha its transparency information gives each entry
    (255 where the file has none). *)
Record PImage : Type := {
  pim_width : Z;
  pim_height : Z;
  pim_rows : list (list Z);
  pim_palette : list rgba
}.

(** A mode ['RGBA'] image. *)
Record Image : Type := {
  im_width : Z;
  im_height : Z;
  im_rows : list (list rgba)
}.

#[global] Instance Image_eq_dec : EqDecision Image.
Proof. solve_decision. Defined.

(** [Image.new('RGBA', (w, h), color)]. *)
Definition Image_new (w h : Z) (color : rgba) : Image :=
  {| im_width := w; im_height := h;
     im_rows := replicate (Z.to_nat h) (replicate (Z.to_nat w) color) |}.

(** [img.tobytes()]: four bytes per pixel, row by row. *)
Definition tobytes (img : Image) : list Z :=
  concat (im_rows img) ≫= (λ '(r, g, b, a), [r; g; b; a]).

(** The pixel at [(x, y)], [d] outside the image. *)
Definition pixel_at {A : Type} (d : A) (rows : list (list A)) (x y : Z) : A :=
  if (x <? 0) || (y <? 0) then d
  else default d (rows !! Z.to_nat y ≫= (.!! Z.to_nat x)).

(** [img.crop((x0, y0, x1, y1))] on a ['P'] image; pixels outside the source
    are index 0. *)
Definition crop (img : PImage) (x0 y0 x1 y1 : Z) : PImage :=
  {| pim_width := x1 - x0; pim_height := y1 - y0;
     pim_rows := (λ y, (λ x, pixel_at 0 (pim_rows img) (x0 + x) (y0 + y))
                         <$> range (x1 - x0)) <$> range (y1 - y0);
     pim_palette := pim_palette img |}.

(** [img.convert('RGBA')] on a ['P'] image: the file's own palette. *)
Definition convert_RGBA (img : PImage) : Image :=
  {| im_width := pim_width img; im_height := pim_height img;
     im_rows := (λ row : list Z,
                   (λ i, default (0, 0, 0, 255)
                           (pim_palette img !! Z.to_nat i)) <$> row)
                <$> pim_rows img |}.

(** [img.transpose(Image.FLIP_LEFT_RIGHT)] and [FLIP_TOP_BOTTOM]. *)
Definition flip_left_right (img : Image) : Image :=
  {| im_width := im_width img; im_height := im_height img;
     im_rows := reverse <$> im_rows img |}.

Definition flip_top_bottom (img : Image) : Image :=
  {| im_width := im_width img; im_height := im_height img;
     im_rows := reverse (im_rows img) |}.

(** PIL's 8-bit blend of [in1] and [in2] under [mask]:
    [DIV255(in1 * (255 - mask) + in2 * mask)]. *)
Definition DIV255 (a : Z) : Z :=
  let tmp := a + 128 in Z.shiftr (Z.shiftr tmp 8 + tmp) 8.

Definition BLEND (mask in1 in2 : Z) : Z :=
  DIV255 (in1 * (255 - mask) + in2 * mask).

Definition blend_pixel (mask : Z) (dst src : rgba) : rgba :=
  let '(r1, g1, b1, a1) := dst in
  let '(r2, g2, b2, a2) := src in
  (BLEND mask r1 r2, BLEND mask g1 g2, BLEND mask b1 b2, BLEND mask a1 a2).

(** [dst.paste(src, (x, y), mask)]: every pixel of [dst] under the box is
    blended with [src] by the alpha band of [mask]. *)
Definition paste (dst src : Image) (x y : Z) (mask : Image) : Image :=
  {| im_width := im_width dst; im_height := im_height dst;
     im_rows :=
       imap (λ r row,
         imap (λ c px,
           let sx := Z.of_nat c - x in
           let sy := Z.of_nat r - y in
           if (0 <=? sx) && (sx <? im_width src) &&
              (0 <=? sy) && (sy <? im_height src)
           then
             match im_rows src !! Z.to_nat sy ≫= (.!! Z.to_nat sx),
                   im_rows mask !! Z.to_nat sy ≫= (.!! Z.to_nat sx) with
             | Some s, Some m => blend_pixel (alpha m) px s
             | _, _ => px
             end
           else px) row) (im_rows dst) |}.

(** ** palette_loader.py *)

(** A loaded palette: RGBA tuples, sixteen of them after [load_palette]. *)
Abbreviation palette := (list rgba) (only parsing).

(** [_make_color_0_transparent]. *)
Definition _make_color_0_transparent (rgba_image : Image)
    (original_p_image : PImage) : Image :=
  {| im_width := im_width rgba_image; im_height := im_height rgba_image;
     im_rows :=
       imap (λ y row,
         imap (λ x px,
           if pixel_at 1 (pim_rows original_p_image)
                (Z.of_nat x) (Z.of_nat y) =? 0
           then (0, 0, 0, 0) else px) row) (im_rows rgba_image) |}.

(** [apply_palette_to_tile] on a ['P'] tile. The converted pixel of index
    [i] is the [i]-th RGB triple of the new palette (zero-padded), with alpha
    0 for the transparency index 0 and 255 elsewhere; the final loop clears
    index-0 pixels and magenta ones. *)
Definition apply_palette_to_tile (tile_image : PImage) (pal : palette)
    : Image :=
  if bool_decide (length pal < 16)%nat then
    _make_color_0_transparent (convert_RGBA tile_image) tile_image
  else
    {| im_width := pim_width tile_image; im_height := pim_height tile_image;
       im_rows :=
         (λ row : list Z,
            (λ color_index : Z,
               if color_index =? 0 then (0, 0, 0, 0)
               else
                 let '(r, g, b, _) :=
                   default (0, 0, 0, 255) (pal !! Z.to_nat color_index) in
                 if (r =? 255) && (g =? 0) && (b =? 255) then (0, 0, 0, 0)
                 else (r, g, b, 255)) <$> row) <$> pim_rows tile_image |}.

(** ** metatile.py *)

(** [class MetatileLayerType(IntEnum)]. *)
Inductive MetatileLayerType : Type :=
  | NORMAL
  | COVERED
  | SPLIT.

#[global] Instance MetatileLayerType_eq_dec : EqDecision MetatileLayerType.
Proof. solve_decision. Defined.

(** The enum call [MetatileLayerType(value)]: a value that is no member
    raises [ValueError]. *)
Definition MetatileLayerType_call (value : Z) : result MetatileLayerType :=
  if value =? 0 then Ok NORMAL
  else if value =? 1 then Ok COVERED
  else if value =? 2 then Ok SPLIT
  else Raise ValueError.

(** [extract_metatile_id]. *)
Definition extract_metatile_id (entry : Z) : Z := Z.land entry METATILE_ID_MASK.

(** [unpack_metatile_data_with_attrs]. *)
Definition unpack_metatile_data_with_attrs (metatile_id : Z)
    (metatile_data : list tile_ref) : list tile_ref :=
  if (metatile_id <? 0)
     || (metatile_id * NUM_TILES_PER_METATILE
         >=? Z.of_nat (length metatile_data))
  then replicate 8 (0, 0, 0)
  else
    let start_idx := Z.to_nat (metatile_id * NUM_TILES_PER_METATILE) in
    slice metatile_data start_idx (start_idx + 8).

(** [create_tile_dict] of [convert_metatile_to_tile_layers_with_attrs]: the
    non-empty tiles of a 2x2 block by tile coordinates. *)
Definition create_tile_dict (base_tile_x base_tile_y : Z)
    (tiles_data : list tile_ref) : gmap (Z * Z) (Z * Z) :=
  foldl
    (λ (result : gmap (Z * Z) (Z * Z)) '(tile_idx, (ty, tx)),
       match tiles_data !! tile_idx with
       | Some (tile_id, _, palette_idx) =>
           if tile_id =? 0 then result
           else <[(base_tile_x + tx, base_tile_y + ty)
                    := (tile_id, palette_idx)]> result
       | None => result
       end)
    ∅ (imap (λ i c, (i, c)) [(0, 0); (0, 1); (1, 0); (1, 1)]).

(** The branch of [convert_metatile_to_tile_layers_with_attrs] on the layer
    type, an [int] there: the tile data of (BG3, BG2, BG1). *)
Definition tile_layers_data (layer_type : Z)
    (bottom_tiles top_tiles : list tile_ref)
    : list tile_ref * list tile_ref * list tile_ref :=
  if layer_type =? 0 then ([], bottom_tiles, top_tiles)
  else if layer_type =? 1 then (bottom_tiles, top_tiles, [])
  else if layer_type =? 2 then (bottom_tiles, [], top_tiles)
  else ([], bottom_tiles, top_tiles).

(** [convert_metatile_to_tile_layers_with_attrs]; [map_width] is not read. *)
Definition convert_metatile_to_tile_layers_with_attrs (metatile_id : Z)
    (metatile_data : list tile_ref) (layer_type x y : Z)
    : gmap (Z * Z) (Z * Z) * gmap (Z * Z) (Z * Z) * gmap (Z * Z) (Z * Z) :=
  let metatile_tiles :=
    unpack_metatile_data_with_attrs metatile_id metatile_data in
  let bottom_tiles := slice metatile_tiles 0 4 in
  let top_tiles := slice metatile_tiles 4 8 in
  let '(bg3_tiles_data, bg2_tiles_data, bg1_tiles_data) :=
    tile_layers_data layer_type bottom_tiles top_tiles in
  (create_tile_dict (x * 2) (y * 2) bg3_tiles_data,
   create_tile_dict (x * 2) (y * 2) bg2_tiles_data,
   create_tile_dict (x * 2) (y * 2) bg1_tiles_data).

(** ** metatile_renderer.py *)

(** What a [MetatileRenderer] reads from [input_dir]: for each tileset name
    its [tiles.png] (already in mode ['P']) when one is found, and the sixteen
    palette slots of its directory when the directory is found. The two LRU
    caches only memoise these reads. *)
Record MetatileRenderer : Type := {
  tileset_files : gmap string PImage;
  palette_files : gmap string (list (option palette))
}.

Definition load_tileset_image (self : MetatileRenderer) (tileset_name : string)
    : option PImage :=
  tileset_files self !! tileset_name.

Definition load_tileset_palettes_cached (self : MetatileRenderer)
    (tileset_name : string) : list (option palette) :=
  default [] (palette_files self !! tileset_name).

(** [MetatileRenderer.extract_tile]. *)
Definition extract_tile (tileset_image : PImage) (tile_id : Z) : result PImage :=
  let tiles_per_row := pim_width tileset_image `div` TILE_SIZE in
  if tiles_per_row =? 0 then Raise ZeroDivisionError
  else
    let tile_x := (tile_id `mod` tiles_per_row) * TILE_SIZE in
    let tile_y := (tile_id `div` tiles_per_row) * TILE_SIZE in
    Ok (crop tileset_image tile_x tile_y (tile_x + TILE_SIZE) (tile_y + TILE_SIZE)).

(** [max_tile_id] of a tileset image. *)
Definition max_tile_id (tileset_image : PImage) : Z :=
  (pim_width tileset_image `div` TILE_SIZE)
  * (pim_height tileset_image `div` TILE_SIZE) - 1.

(** [_render_tile_grid], lines 275-329 of the loop body: the tileset name,
    image and index a tile id is drawn from; [None] where the body runs
    [continue]. *)
Definition resolve_tile_raster (self : MetatileRenderer) (tile_id : Z)
    (primary_tileset_name secondary_tileset_name : string)
    : option (string * PImage * Z) :=
  let '(tileset_name, actual_tile_id, use_fallback) :=
    if tile_id <? NUM_TILES_IN_PRIMARY_VRAM
    then (primary_tileset_name, tile_id, false)
    else (secondary_tileset_name, tile_id - NUM_TILES_IN_PRIMARY_VRAM, true) in
  let loaded :=
    match load_tileset_image self tileset_name with
    | Some tileset_image =>
        Some (tileset_name, actual_tile_id, use_fallback, tileset_image)
    | None =>
        if use_fallback && bool_decide (tileset_name ≠ primary_tileset_name)
        then
          match load_tileset_image self primary_tileset_name with
          | Some tileset_image =>
              Some (primary_tileset_name,
                    tile_id - NUM_TILES_IN_PRIMARY_VRAM, false, tileset_image)
          | None => None
          end
        else None
    end in
  match loaded with
  | None => None
  | Some (tileset_name, actual_tile_id, use_fallback, tileset_image) =>
      if (actual_tile_id <? 0) || (actual_tile_id >? max_tile_id tileset_image)
      then
        if use_fallback && bool_decide (tileset_name ≠ primary_tileset_name)
        then
          match load_tileset_image self primary_tileset_name with
          | Some fallback_tileset_image =>
              if (0 <=? actual_tile_id)
                 && (actual_tile_id <=? max_tile_id fallback_tileset_image)
              then Some (primary_tileset_name, fallback_tileset_image,
                         actual_tile_id)
              else None
          | None => None
          end
        else None
      else Some (tileset_name, tileset_image, actual_tile_id)
  end.

(** Lines 347-352: whose palettes a palette index is looked up in. *)
Definition palette_source_tileset (palette_index : Z)
    (primary_tileset_name secondary_tileset_name : string) : string :=
  if (palette_index >=? 6) && bool_decide (secondary_tileset_name ≠ "")
  then secondary_tileset_name
  else primary_tileset_name.

(** Lines 355-360: the palette applied, or the plain conversion. *)
Definition colour_with (palettes : list (option palette)) (palette_index : Z)
    (tile : PImage) : Image :=
  if (0 <=? palette_index) && (palette_index <? Z.of_nat (length palettes)) then
    match palettes !! Z.to_nat palette_index with
    | Some (Some (c :: pal)) => apply_palette_to_tile tile (c :: pal)
    | _ => convert_RGBA tile
    end
  else convert_RGBA tile.

(** Lines 347-360. *)
Definition colour_tile (self : MetatileRenderer) (palette_index : Z)
    (primary_tileset_name secondary_tileset_name : string) (tile : PImage)
    : Image :=
  colour_with
    (load_tileset_palettes_cached self
       (palette_source_tileset palette_index
          primary_tileset_name secondary_tileset_name))
    palette_index tile.

(** Lines 362-366. *)
Definition apply_flips (flip_flags : Z) (tile : Image) : Image :=
  let tile :=
    if Z.land flip_flags FLIP_HORIZONTAL =? 0 then tile
    else flip_left_right tile in
  if Z.land flip_flags FLIP_VERTICAL =? 0 then tile else flip_top_bottom tile.

(** The body of the loop of [_render_tile_grid] up to the paste: the tile
    pasted for one reference, [None] where the body runs [continue]. *)
Definition render_tile (self : MetatileRenderer)
    (primary_tileset_name secondary_tileset_name : string) (t : tile_ref)
    : option Image :=
  let '(tile_id, flip_flags, palette_index) := t in
  if tile_id =? 0 then None
  else
    match resolve_tile_raster self tile_id
            primary_tileset_name secondary_tileset_name with
    | None => None
    | Some (_, tileset_image, actual_tile_id) =>
        match extract_tile tileset_image actual_tile_id with
        | Raise _ => None
        | Ok tile =>
            Some (apply_flips flip_flags
                    (colour_tile self palette_index
                       primary_tileset_name secondary_tileset_name tile))
        end
    end.

Definition positions : list (Z * Z) :=
  [(0, 0); (TILE_SIZE, 0); (0, TILE_SIZE); (TILE_SIZE, TILE_SIZE)].

(** [MetatileRenderer._render_tile_grid]. *)
Definition _render_tile_grid (self : MetatileRenderer) (tiles : list tile_ref)
    (primary_tileset_name secondary_tileset_name : string) : option Image :=
  if bool_decide (length tiles ≠ 4%nat) then None
  else
    Some (foldl
            (λ grid_image '(idx, t),
               match render_tile self
                       primary_tileset_name secondary_tileset_name t with
               | None => grid_image
               | Some tile =>
                   let '(x, y) := default (0, 0) (positions !! idx) in
                   paste grid_image tile x y tile
               end)
            (Image_new METATILE_SIZE METATILE_SIZE (0, 0, 0, 0))
            (imap (λ idx t, (idx, t)) tiles)).

(** [MetatileRenderer.render_metatile]. *)
Definition render_metatile (self : MetatileRenderer)
    (metatile_tiles : list tile_ref)
    (primary_tileset_name secondary_tileset_name : string)
    (layer_type : MetatileLayerType) : option Image * option Image :=
  if bool_decide (Z.of_nat (length metatile_tiles) ≠ NUM_TILES_PER_METATILE)
  then (None, None)
  else
    let bottom_tiles := slice metatile_tiles 0 4 in
    let top_tiles := slice metatile_tiles 4 8 in
    let bottom_image :=
      _render_tile_grid self bottom_tiles
        primary_tileset_name secondary_tileset_name in
    let top_image :=
      _render_tile_grid self top_tiles
        primary_tileset_name secondary_tileset_name in
    match layer_type with
    | NORMAL => (bottom_image, top_image)
    | COVERED => (bottom_image, top_image)
    | SPLIT =>
        let empty := Image_new METATILE_SIZE METATILE_SIZE (0, 0, 0, 0) in
        (Some (default empty bottom_image), Some (default empty top_image))
    end.

(** ** metatile_processor.py *)

(** [(metatile_id, tileset, layer_type)] and its [is_top] extension. *)
Abbreviation metatile_key := (Z * string * Z)%type (only parsing).
Abbreviation gid_key := (Z * string * Z * bool)%type (only parsing).

(** An entry [(layer_gid, metatile_key, tile_position)] of [tile_id_to_gids]. *)
Abbreviation gid_mapping := (Z * metatile_key * Z)%type (only parsing).

(** The dictionaries [process_single_metatile] mutates in place, with the
    counter it threads. *)
Record atlas_state : Type := {
  used_metatiles : gmap metatile_key (Image * Image);
  image_to_gid : gmap (list Z) Z;
  next_gid : Z
}.

(** [MetatileProcessor.determine_tileset_for_metatile]. *)
Definition determine_tileset_for_metatile (metatile_id : Z)
    (primary_tileset secondary_tileset : string) : string * Z :=
  if metatile_id <? NUM_METATILES_IN_PRIMARY
  then (primary_tileset, metatile_id)
  else (secondary_tileset, metatile_id - NUM_METATILES_IN_PRIMARY).

(** [MetatileProcessor.determine_tileset_for_tile]. *)
Definition determine_tileset_for_tile (tile_id : Z)
    (current_tileset_name primary_tileset secondary_tileset : string)
    : string * Z :=
  if bool_decide (current_tileset_name = primary_tileset)
  then (primary_tileset, tile_id)
  else if tile_id <? NUM_TILES_IN_PRIMARY_VRAM
       then (primary_tileset, tile_id)
       else (secondary_tileset, tile_id - NUM_TILES_IN_PRIMARY_VRAM).

(** [MetatileProcessor.validate_metatile_bounds]. *)
Definition validate_metatile_bounds (actual_metatile_id : Z)
    (metatiles_with_attrs : list tile_ref) : bool :=
  if actual_metatile_id <? 0 then false
  else
    let start_idx := actual_metatile_id * NUM_TILES_PER_METATILE in
    let end_idx := start_idx + NUM_TILES_PER_METATILE in
    let len := Z.of_nat (length metatiles_with_attrs) in
    if (start_idx <? 0) || (end_idx >? len) || (len <? NUM_TILES_PER_METATILE)
    then false
    else true.

(** The deduplicating GID assignment written out at each use in the source:
    [if b in image_to_gid: gid = image_to_gid[b]]
    [else: gid = next_gid; image_to_gid[b] = gid; next_gid += 1]. *)
Definition assign_gid (img_bytes : list Z) (st : atlas_state)
    : Z * atlas_state :=
  match image_to_gid st !! img_bytes with
  | Some gid => (gid, st)
  | None =>
      (next_gid st,
       {| used_metatiles := used_metatiles st;
          image_to_gid := <[img_bytes := next_gid st]> (image_to_gid st);
          next_gid := next_gid st + 1 |})
  end.

Definition set_used_metatile (key : metatile_key) (imgs : Image * Image)
    (st : atlas_state) : atlas_state :=
  {| used_metatiles := <[key := imgs]> (used_metatiles st);
     image_to_gid := image_to_gid st;
     next_gid := next_gid st |}.

(** The four values [process_single_metatile] returns besides the
    dictionaries and counter of the state. *)
Record metatile_result : Type := {
  metatile_images : option (Image * Image);
  metatile_to_gid : gmap gid_key Z;
  tile_id_to_gids : gmap (Z * string) (list gid_mapping);
  metatile_tiles : option (list tile_ref)
}.

Definition gid_pair (key : metatile_key) (bottom_gid top_gid : Z)
    : gmap gid_key Z :=
  let '(actual_metatile_id, tileset_name, layer_type_val) := key in
  <[(actual_metatile_id, tileset_name, layer_type_val, true) := top_gid]>
    {[(actual_metatile_id, tileset_name, layer_type_val, false) := bottom_gid]}.

(** The "Create empty metatile" block (lines 172-186 and 215-229). *)
Definition empty_metatile (key : metatile_key) (st : atlas_state)
    : metatile_result * atlas_state :=
  let empty_img := Image_new METATILE_SIZE METATILE_SIZE (0, 0, 0, 0) in
  let st := set_used_metatile key (empty_img, empty_img) st in
  let '(empty_gid, st) := assign_gid (tobytes empty_img) st in
  ({| metatile_images := None;
      metatile_to_gid := gid_pair key empty_gid empty_gid;
      tile_id_to_gids := ∅;
      metatile_tiles := None |}, st).

(** The loop building [tile_id_to_gids] (lines 270-280 and 313-323). *)
Definition build_tile_id_to_gids (key : metatile_key)
    (tiles : list tile_ref) (primary_tileset secondary_tileset : string)
    (bottom_gid top_gid : Z) : gmap (Z * string) (list gid_mapping) :=
  foldl
    (λ (acc : gmap (Z * string) (list gid_mapping)) '(tile_position, t),
       let tile_id := t.1.1 in
       let tile_source_tileset :=
         (determine_tileset_for_tile tile_id key.1.2
            primary_tileset secondary_tileset).1 in
       let tile_key := (tile_id, tile_source_tileset) in
       let layer_gid :=
         if Z.of_nat tile_position <? 4 then bottom_gid else top_gid in
       <[tile_key := default [] (acc !! tile_key)
                     ++ [(layer_gid, key, Z.of_nat tile_position)]]> acc)
    ∅ (imap (λ i t, (i, t)) tiles).

(** [MetatileProcessor.process_single_metatile]. *)
Definition process_single_metatile (renderer : MetatileRenderer)
    (actual_metatile_id : Z) (tileset_name : string)
    (metatiles_with_attrs : list tile_ref) (attributes : gmap Z Z)
    (primary_tileset secondary_tileset : string) (st : atlas_state)
    : result (metatile_result * atlas_state) :=
  let layer_type_val := default 0 (attributes !! actual_metatile_id) in
  let* layer_type := MetatileLayerType_call layer_type_val in
  let key : metatile_key := (actual_metatile_id, tileset_name, layer_type_val) in
  let empty_img := Image_new METATILE_SIZE METATILE_SIZE (0, 0, 0, 0) in
  if negb (validate_metatile_bounds actual_metatile_id metatiles_with_attrs)
  then
    match used_metatiles st !! key with
    | None => Ok (empty_metatile key st)
    | Some (bottom_img, top_img) =>
        let bottom_bytes := tobytes bottom_img in
        let top_bytes := tobytes top_img in
        let bottom_gid :=
          default (next_gid st) (image_to_gid st !! bottom_bytes) in
        let top_gid :=
          default (next_gid st + 1) (image_to_gid st !! top_bytes) in
        let st :=
          match image_to_gid st !! bottom_bytes with
          | Some _ => st
          | None =>
              {| used_metatiles := used_metatiles st;
                 image_to_gid := <[bottom_bytes := bottom_gid]> (image_to_gid st);
                 next_gid := next_gid st + 1 |}
          end in
        let st :=
          match image_to_gid st !! top_bytes with
          | Some _ => st
          | None =>
              {| used_metatiles := used_metatiles st;
                 image_to_gid := <[top_bytes := top_gid]> (image_to_gid st);
                 next_gid := next_gid st + 1 |}
          end in
        Ok ({| metatile_images := Some (bottom_img, top_img);
               metatile_to_gid := gid_pair key bottom_gid top_gid;
               tile_id_to_gids := ∅;
               metatile_tiles := None |}, st)
    end
  else
    let start_idx := Z.to_nat (actual_metatile_id * NUM_TILES_PER_METATILE) in
    let tiles := slice metatiles_with_attrs start_idx (start_idx + 8) in
    if bool_decide (Z.of_nat (length tiles) ≠ NUM_TILES_PER_METATILE)
       && bool_decide (used_metatiles st !! key = None)
    then Ok (empty_metatile key st)
    else
      match used_metatiles st !! key with
      | None =>
          let '(bottom_img, top_img) :=
            render_metatile renderer tiles
              primary_tileset secondary_tileset layer_type in
          let bottom_img := default empty_img bottom_img in
          let top_img := default empty_img top_img in
          let st := set_used_metatile key (bottom_img, top_img) st in
          let '(bottom_gid, st) := assign_gid (tobytes bottom_img) st in
          let '(top_gid, st) := assign_gid (tobytes top_img) st in
          Ok ({| metatile_images := Some (bottom_img, top_img);
                 metatile_to_gid := gid_pair key bottom_gid top_gid;
                 tile_id_to_gids :=
                   build_tile_id_to_gids key tiles
                     primary_tileset secondary_tileset bottom_gid top_gid;
                 metatile_tiles := Some tiles |}, st)
      | Some (bottom_img, top_img) =>
          let bottom_bytes := tobytes bottom_img in
          let top_bytes := tobytes top_img in
          let '(bottom_gid, top_gid, st) :=
            match image_to_gid st !! bottom_bytes,
                  image_to_gid st !! top_bytes with
            | Some bottom_gid, Some top_gid => (bottom_gid, top_gid, st)
            | _, _ =>
                let '(bottom_gid, st) := assign_gid bottom_bytes st in
                let '(top_gid, st) := assign_gid top_bytes st in
                (bottom_gid, top_gid, st)
            end in
          Ok ({| metatile_images := Some (bottom_img, top_img);
                 metatile_to_gid := gid_pair key bottom_gid top_gid;
                 tile_id_to_gids :=
                   build_tile_id_to_gids key tiles
                     primary_tileset secondary_tileset bottom_gid top_gid;
                 metatile_tiles := Some tiles |}, st)
      end.

(** ** converter.py: the grid pass *)

(** The dictionary [_load_tileset_data] returns. *)
Record tileset_data : Type := {
  primary_tileset : string;
  secondary_tileset : string;
  primary_metatiles_with_attrs : list tile_ref;
  secondary_metatiles_with_attrs : list tile_ref;
  primary_attributes : gmap Z Z;
  secondary_attributes : gmap Z Z
}.

(** The cells [(y, x)] in the order of [for y in range(height):] followed by
    [for x in range(width):]. *)
Definition cells (width height : Z) : list (Z * Z) :=
  y ← range height; (λ x, (y, x)) <$> range width.

(** What the loops of [_process_metatiles] and [_build_map_layers] compute
    first for a cell: [(actual_metatile_id, tileset_name, metatiles,
    attributes)] of [map_entries[y][x]]. *)
Definition cell_metatile (map_entries : list (list Z)) (td : tileset_data)
    (y x : Z) : result (Z * string * list tile_ref * gmap Z Z) :=
  let* row := py_index map_entries y in
  let* entry := py_index row x in
  let metatile_id := extract_metatile_id entry in
  let '(tileset_name, actual_metatile_id) :=
    determine_tileset_for_metatile metatile_id
      (primary_tileset td) (secondary_tileset td) in
  if bool_decide (tileset_name = primary_tileset td)
  then Ok (actual_metatile_id, tileset_name,
           primary_metatiles_with_attrs td, primary_attributes td)
  else Ok (actual_metatile_id, tileset_name,
           secondary_metatiles_with_attrs td, secondary_attributes td).

(** The dictionaries [_process_metatiles] builds. *)
Record grid_state : Type := {
  gs_atlas : atlas_state;
  gs_metatile_to_gid : gmap gid_key Z;
  gs_tile_id_to_gids : gmap (Z * string) (list gid_mapping);
  gs_metatile_composition : gmap metatile_key (list tile_ref)
}.

Definition grid_state_init : grid_state :=
  {| gs_atlas := {| used_metatiles := ∅; image_to_gid := ∅; next_gid := 1 |};
     gs_metatile_to_gid := ∅;
     gs_tile_id_to_gids := ∅;
     gs_metatile_composition := ∅ |}.

(** One iteration of the loops of [_process_metatiles]. *)
Definition process_cell (renderer : MetatileRenderer)
    (map_entries : list (list Z)) (td : tileset_data)
    (gs : grid_state) (cell : Z * Z) : result grid_state :=
  let '(y, x) := cell in
  let* '(actual_metatile_id, tileset_name, metatiles_with_attrs, attributes) :=
    cell_metatile map_entries td y x in
  let* '(res, st) :=
    process_single_metatile renderer actual_metatile_id tileset_name
      metatiles_with_attrs attributes
      (primary_tileset td) (secondary_tileset td) (gs_atlas gs) in
  let composition :=
    match metatile_tiles res with
    | Some (t :: ts) =>
        let layer_type_val := default 0 (attributes !! actual_metatile_id) in
        <[(actual_metatile_id, tileset_name, layer_type_val) := t :: ts]>
          (gs_metatile_composition gs)
    | _ => gs_metatile_composition gs
    end in
  Ok {| gs_atlas := st;
        gs_metatile_to_gid := metatile_to_gid res ∪ gs_metatile_to_gid gs;
        gs_tile_id_to_gids :=
          union_with (λ old new, Some (old ++ new))
            (gs_tile_id_to_gids gs) (tile_id_to_gids res);
        gs_metatile_composition := composition |}.

(** [MapConverter._process_metatiles]. *)
Definition _process_metatiles (renderer : MetatileRenderer)
    (map_entries : list (list Z)) (width height : Z) (td : tileset_data)
    : result grid_state :=
  foldlM (process_cell renderer map_entries td) grid_state_init
    (cells width height).

(** ** converter.py: border corners *)

Definition border_corners : list string :=
  ["top_left"; "top_right"; "bottom_left"; "bottom_right"].

(** What [_process_border_metatiles] mutates and builds. *)
Record border_state : Type := {
  bs_atlas : atlas_state;
  bs_metatile_to_gid : gmap gid_key Z;
  bs_border_gids : list (string * Z)
}.

(** One iteration of the loop over the corners. *)
Definition process_border_corner (renderer : MetatileRenderer)
    (border_data : list byte) (td : tileset_data)
    (bs : border_state) (corner : nat * string) : result border_state :=
  let '(corner_idx, corner_name) := corner in
  let i := (corner_idx * 2)%nat in
  if bool_decide (i + 1 < length border_data)%nat then
    let* border_entry := struct_unpack_H (slice border_data i (i + 2)) in
    let border_metatile_id := Z.land border_entry METATILE_ID_MASK in
    let '(border_tileset_name, border_actual_id) :=
      determine_tileset_for_metatile border_metatile_id
        (primary_tileset td) (secondary_tileset td) in
    let '(border_metatiles_with_attrs, border_attributes) :=
      if bool_decide (border_tileset_name = primary_tileset td)
      then (primary_metatiles_with_attrs td, primary_attributes td)
      else (secondary_metatiles_with_attrs td, secondary_attributes td) in
    let border_layer_type_val :=
      default 0 (border_attributes !! border_actual_id) in
    let* border_layer_type := MetatileLayerType_call border_layer_type_val in
    let border_key : metatile_key :=
      (border_actual_id, border_tileset_name, border_layer_type_val) in
    let start_idx := border_actual_id * NUM_TILES_PER_METATILE in
    let border_metatile_tiles :=
      slice border_metatiles_with_attrs
        (Z.to_nat start_idx) (Z.to_nat start_idx + 8) in
    let '(st, m2g) :=
      if bool_decide (used_metatiles (bs_atlas bs) !! border_key = None)
         && bool_decide (start_idx
                         < Z.of_nat (length border_metatiles_with_attrs))
         && bool_decide (Z.of_nat (length border_metatile_tiles)
                         = NUM_TILES_PER_METATILE)
      then
        let empty_img := Image_new METATILE_SIZE METATILE_SIZE (0, 0, 0, 0) in
        let '(border_bottom_img, border_top_img) :=
          render_metatile renderer border_metatile_tiles
            (primary_tileset td) (secondary_tileset td) border_layer_type in
        let border_bottom_img := default empty_img border_bottom_img in
        let border_top_img := default empty_img border_top_img in
        let st :=
          set_used_metatile border_key (border_bottom_img, border_top_img)
            (bs_atlas bs) in
        let '(border_bottom_gid, st) :=
          assign_gid (tobytes border_bottom_img) st in
        let '(border_top_gid, st) := assign_gid (tobytes border_top_img) st in
        (st,
         <[(border_actual_id, border_tileset_name, border_layer_type_val, true)
             := border_top_gid]>
           (<[(border_actual_id, border_tileset_name, border_layer_type_val,
               false) := border_bottom_gid]> (bs_metatile_to_gid bs)))
      else (bs_atlas bs, bs_metatile_to_gid bs) in
    let border_bottom_gid :=
      default 0 (m2g !! (border_actual_id, border_tileset_name,
                         border_layer_type_val, false)) in
    let border_top_gid :=
      default 0 (m2g !! (border_actual_id, border_tileset_name,
                         border_layer_type_val, true)) in
    Ok {| bs_atlas := st;
          bs_metatile_to_gid := m2g;
          bs_border_gids :=
            bs_border_gids bs
            ++ [(corner_name, border_bottom_gid);
                (corner_name +:+ "_top", border_top_gid)] |}
  else Ok bs.

(** A loop inside [try: ... except Exception:]: the state reached when an
    iteration raises is kept, and [true] reports that the handler ran. *)
Fixpoint fold_try {A B : Type} (f : A → B → result A) (a : A) (l : list B)
    : A * bool :=
  match l with
  | [] => (a, false)
  | x :: l' =>
      match f a x with
      | Ok a' => fold_try f a' l'
      | Raise _ => (a, true)
      end
  end.

(** [MapConverter._process_border_metatiles]; [border_file] is [None] when
    the layout names no [border_bin] or the path does not exist. Returns the
    mutated dictionaries, [border_gids] and the diagnostics. *)
Definition _process_border_metatiles (renderer : MetatileRenderer)
    (border_file : option (list byte)) (td : tileset_data)
    (st : atlas_state) (m2g : gmap gid_key Z)
    : border_state * list log_entry :=
  let bs0 :=
    {| bs_atlas := st; bs_metatile_to_gid := m2g; bs_border_gids := [] |} in
  match border_file with
  | None => (bs0, [])
  | Some border_data =>
      if bool_decide (8 ≤ length border_data)%nat then
        let '(bs, raised) :=
          fold_try (process_border_corner renderer border_data td) bs0
            (imap (λ i c, (i, c)) border_corners) in
        (bs, if raised then [LogWarning "error reading border.bin"] else [])
      else (bs0, [])
  end.

(** ** converter.py: layer distribution *)

(** [l[i] = v] with Python's negative indices and [IndexError]. *)
Definition py_setitem {A : Type} (l : list A) (i : Z) (v : A)
    : result (list A) :=
  let n := Z.of_nat (length l) in
  let j := if i <? 0 then i + n else i in
  if (0 <=? j) && (j <? n) then Ok (<[Z.to_nat j := v]> l)
  else Raise IndexError.

(** The dictionary [_build_map_layers] returns: BG3 is the ground plane, BG2
    the objects plane and BG1 the overhead plane. *)
Record map_layers : Type := {
  layer_data_bg3 : list Z;
  layer_data_bg2 : list Z;
  layer_data_bg1 : list Z;
  used_gids : gset Z
}.

Definition add_used (gid : Z) (used : gset Z) : gset Z :=
  if gid >? 0 then {[gid]} ∪ used else used.

(** One iteration of the loops of [_build_map_layers]. *)
Definition build_cell (map_entries : list (list Z)) (width : Z)
    (m2g : gmap gid_key Z) (td : tileset_data)
    (ls : map_layers) (cell : Z * Z) : result map_layers :=
  let '(y, x) := cell in
  let* '(actual_metatile_id, tileset_name, _, attributes) :=
    cell_metatile map_entries td y x in
  let layer_type_val := default 0 (attributes !! actual_metatile_id) in
  let* layer_type := MetatileLayerType_call layer_type_val in
  let bottom_gid :=
    default 0 (m2g !! (actual_metatile_id, tileset_name, layer_type_val, false)) in
  let top_gid :=
    default 0 (m2g !! (actual_metatile_id, tileset_name, layer_type_val, true)) in
  let idx := y * width + x in
  let used := add_used top_gid (add_used bottom_gid (used_gids ls)) in
  match layer_type with
  | NORMAL =>
      let* bg2 := py_setitem (layer_data_bg2 ls) idx bottom_gid in
      let* bg1 := py_setitem (layer_data_bg1 ls) idx top_gid in
      Ok {| layer_data_bg3 := layer_data_bg3 ls; layer_data_bg2 := bg2;
            layer_data_bg1 := bg1; used_gids := used |}
  | COVERED =>
      let* bg3 := py_setitem (layer_data_bg3 ls) idx bottom_gid in
      let* bg2 := py_setitem (layer_data_bg2 ls) idx top_gid in
      Ok {| layer_data_bg3 := bg3; layer_data_bg2 := bg2;
            layer_data_bg1 := layer_data_bg1 ls; used_gids := used |}
  | SPLIT =>
      let* bg3 := py_setitem (layer_data_bg3 ls) idx bottom_gid in
      let* bg1 := py_setitem (layer_data_bg1 ls) idx top_gid in
      Ok {| layer_data_bg3 := bg3; layer_data_bg2 := layer_data_bg2 ls;
            layer_data_bg1 := bg1; used_gids := used |}
  end.

(** [MapConverter._build_map_layers]. *)
Definition _build_map_layers (map_entries : list (list Z)) (width height : Z)
    (m2g : gmap gid_key Z) (td : tileset_data) (border_gids : list (string * Z))
    : result map_layers :=
  let zeros := replicate (Z.to_nat (width * height)) 0 in
  foldlM (build_cell map_entries width m2g td)
    {| layer_data_bg3 := zeros; layer_data_bg2 := zeros;
       layer_data_bg1 := zeros;
       used_gids := foldl (λ used '(_, border_gid), add_used border_gid used)
                      ∅ border_gids |}
    (cells width height).

(** [MapConverter.convert_map_with_metatiles], from "Process metatiles" to
    "Build map layers": the state of the atlas and the three planes. *)
Definition convert_map_with_metatiles (renderer : MetatileRenderer)
    (map_entries : list (list Z)) (width height : Z) (td : tileset_data)
    (border_file : option (list byte))
    : result (grid_state * border_state * map_layers) :=
  let* gs := _process_metatiles renderer map_entries width height td in
  let '(bs, _) :=
    _process_border_metatiles renderer border_file td
      (gs_atlas gs) (gs_metatile_to_gid gs) in
  let* layers :=
    _build_map_layers map_entries width height
      (bs_metatile_to_gid bs) td (bs_border_gids bs) in
  Ok (gs, bs, layers).

(** ** converter.py: animations *)

(** Insertion-ordered dictionaries, for those the source iterates. *)
Definition dict_get {K V : Type} `{EqDecision K} (d : list (K * V)) (k : K)
    : option V :=
  snd <$> head (filter (λ kv, kv.1 = k) d).

Fixpoint dict_set {K V : Type} `{EqDecision K} (d : list (K * V)) (k : K)
    (v : V) : list (K * V) :=
  match d with
  | [] => [(k, v)]
  | (k', v') :: d' =>
      if decide (k' = k) then (k, v) :: d' else (k', v') :: dict_set d' k v
  end.

(** An entry of [ANIMATION_MAPPINGS], as far as the converter reads it. *)
Record anim_def : Type := {
  base_tile_id : Z;
  num_tiles : Z;
  is_secondary : bool
}.

(** An entry of the dictionary [extract_all_animation_tiles] returns. *)
Record frames_info : Type := {
  frames : list Image;
  duration_ms : Z;
  is_metatile : bool;
  frame_sequence : option (list Z)
}.

(** The two methods of [AnimationScanner] the converter calls, as the tables
    they return for a tileset name. *)
Record AnimationScanner : Type := {
  get_animations_for_tileset : string → list (string * anim_def);
  extract_all_animation_tiles : string → gmap string frames_info
}.

(** The tuple appended to [metatile_animations[metatile_key]];
    [animated_tile_range] is the set [range(ai_base, ai_base + ai_num_tiles)]. *)
Record anim_info : Type := {
  ai_name : string;
  ai_frames : list Image;
  ai_duration_ms : Z;
  ai_frame_sequence : option (list Z);
  ai_base : Z;
  ai_num_tiles : Z;
  ai_is_metatile : bool;
  ai_layer_gid : Z;
  ai_tile_position : Z
}.

Definition in_animated_tile_range (info : anim_info) (tile_id : Z) : bool :=
  (ai_base info <=? tile_id) && (tile_id <? ai_base info + ai_num_tiles info).

(** An element of the returned list: [{"id": ..., "animation":
    [{"tileid": ..., "duration": ...}, ...]}]. *)
Abbreviation animation_entry := (Z * list (Z * Z))%type (only parsing).

(** [range(a, a + n)]. *)
Definition range_from (a n : Z) : list Z := (λ i, a + i) <$> range n.

(** PHASE 1, the head of the loop over [all_anim_defs]: the first tile id of
    the animation in VRAM numbering and [gid_mappings], the entries of
    [tile_id_to_gids] under the tile ids of its range. [set_iter] gives the
    order in which CPython iterates a set built by inserting the given
    sequence. *)
Definition actual_base_tile_id (adef : anim_def) : Z :=
  if is_secondary adef then base_tile_id adef + 512 else base_tile_id adef.

Definition animation_hits (set_iter : list Z → list Z)
    (t2g : gmap (Z * string) (list gid_mapping))
    (adef : anim_def) (base_tileset : string) : list gid_mapping :=
  tile_id ← set_iter (range_from (actual_base_tile_id adef) (num_tiles adef));
  default [] (t2g !! (tile_id, base_tileset)).

(** The tuple PHASE 1 appends for an animation found at one position. *)
Definition anim_info_of (anim_name : string) (adef : anim_def)
    (finfo : frames_info) (layer_gid tile_position : Z) : anim_info :=
  {| ai_name := anim_name;
     ai_frames := frames finfo;
     ai_duration_ms := duration_ms finfo;
     ai_frame_sequence := frame_sequence finfo;
     ai_base := actual_base_tile_id adef;
     ai_num_tiles := num_tiles adef;
     ai_is_metatile := is_metatile finfo;
     ai_layer_gid := layer_gid;
     ai_tile_position := tile_position |}.

(** PHASE 1, the inner loop over [gid_mappings]. *)
Definition record_hit (used : gset Z) (anim_name : string) (adef : anim_def)
    (finfo : frames_info)
    (acc : list (metatile_key * list anim_info) * gmap metatile_key (list Z))
    (hit : gid_mapping)
    : list (metatile_key * list anim_info) * gmap metatile_key (list Z) :=
  let '(metatile_animations, metatile_all_gids) := acc in
  let '(layer_gid, key, tile_position) := hit in
  if bool_decide (layer_gid ∉ used)
  then (metatile_animations, metatile_all_gids)
  else
    let gids := default [] (metatile_all_gids !! key) in
    let gids :=
      if bool_decide (layer_gid ∈ gids) then gids else gids ++ [layer_gid] in
    let infos := default [] (dict_get metatile_animations key) in
    let existing_anims := (λ a, (ai_name a, ai_tile_position a)) <$> infos in
    let infos :=
      if bool_decide ((anim_name, tile_position) ∈ existing_anims)
      then infos
      else infos
           ++ [anim_info_of anim_name adef finfo layer_gid tile_position] in
    (dict_set metatile_animations key infos,
     <[key := gids]> metatile_all_gids).

(** PHASE 1, the body of the loop over [all_anim_defs]. *)
Definition collect_animation (set_iter : list Z → list Z)
    (used : gset Z) (t2g : gmap (Z * string) (list gid_mapping))
    (acc : list (metatile_key * list anim_info) * gmap metatile_key (list Z))
    (entry : string * anim_def * string * gmap string frames_info)
    : list (metatile_key * list anim_info) * gmap metatile_key (list Z) :=
  let '(anim_name, adef, base_tileset, anim_data) := entry in
  let gid_mappings := animation_hits set_iter t2g adef base_tileset in
  match gid_mappings, anim_data !! anim_name with
  | [], _ => acc
  | _, None => acc
  | _, Some finfo =>
      match frames finfo with
      | [] => acc
      | _ => foldl (record_hit used anim_name adef finfo) acc gid_mappings
      end
  end.

(** What PHASE 2 threads through its loop. *)
Record anim_state : Type := {
  as_tileset_image : Image;
  as_next_gid : Z;
  as_animations : list animation_entry;
  as_animation_frames_gids : gmap (Z * string * Z) Z
}.

(** [dst.paste(src, (x, y))] without a mask. *)
Definition paste_copy (dst src : Image) (x y : Z) : Image :=
  {| im_width := im_width dst; im_height := im_height dst;
     im_rows :=
       imap (λ r row,
         imap (λ c px,
           let sx := Z.of_nat c - x in
           let sy := Z.of_nat r - y in
           if (0 <=? sx) && (sx <? im_width src) &&
              (0 <=? sy) && (sy <? im_height src)
           then default px (im_rows src !! Z.to_nat sy ≫= (.!! Z.to_nat sx))
           else px) row) (im_rows dst) |}.

(** The block that stores one 16x16 image at the next free place of the
    tileset image, growing it by a row of tiles when needed; returns the
    [tile_idx] used. *)
Definition add_frame (cols : Z) (img : Image) (st : anim_state)
    : Z * anim_state :=
  let tile_idx := as_next_gid st - 1 in
  let x := (tile_idx `mod` cols) * 16 in
  let y := (tile_idx `div` cols) * 16 in
  let tileset_image :=
    if y + 16 >? im_height (as_tileset_image st) then
      let new_height := (tile_idx `div` cols + 1) * 16 in
      paste_copy
        (Image_new (im_width (as_tileset_image st)) new_height (0, 0, 0, 0))
        (as_tileset_image st) 0 0
    else as_tileset_image st in
  (tile_idx,
   {| as_tileset_image := paste tileset_image img x y img;
      as_next_gid := as_next_gid st + 1;
      as_animations := as_animations st;
      as_animation_frames_gids := as_animation_frames_gids st |}).

(** Storing one more frame: its [tile_idx] is appended to the frame map. *)
Definition store_frame (cols : Z) (acc : list Z * anim_state) (img : Image)
    : list Z * anim_state :=
  let '(m, st) := acc in
  let '(tile_idx, st) := add_frame cols img st in
  (m ++ [tile_idx], st).

(** [animation_frames_gids[(metatile_id, tileset_name, frame_idx)] =
    frame_entry["tileid"] + 1] for every frame of a sequence. *)
Definition record_frames_gids (key : metatile_key) (frame_gids : list (Z * Z))
    (m : gmap (Z * string * Z) Z) : gmap (Z * string * Z) Z :=
  foldl (λ m '(frame_idx, (tileid, _)),
           <[(key.1.1, key.1.2, Z.of_nat frame_idx) := tileid + 1]> m)
        m (imap (λ i e, (i, e)) frame_gids).

(** Metatile-type animation: the frames are stored once each and the
    playback order indexes them. *)
Definition metatile_animation (cols : Z) (used : gset Z) (key : metatile_key)
    (info : anim_info) (st : anim_state) : anim_state :=
  let '(frame_gid_map, st) :=
    foldl (store_frame cols) ([], st) (ai_frames info) in
  let playback_order :=
    match ai_frame_sequence info with
    | Some (i :: order) => i :: order
    | _ => range (Z.of_nat (length (ai_frames info)))
    end in
  let shared_frame_gids :=
    seq_idx ← playback_order;
    if (0 <=? seq_idx) then
      match frame_gid_map !! Z.to_nat seq_idx with
      | Some tileid => [(tileid, ai_duration_ms info)]
      | None => []
      end
    else [] in
  if bool_decide (ai_layer_gid info ∈ used)
     && bool_decide (shared_frame_gids ≠ [])
  then
    {| as_tileset_image := as_tileset_image st;
       as_next_gid := as_next_gid st;
       as_animations :=
         as_animations st ++ [(ai_layer_gid info - 1, shared_frame_gids)];
       as_animation_frames_gids :=
         record_frames_gids key shared_frame_gids
           (as_animation_frames_gids st) |}
  else st.

(** An entry of [all_bottom_tiles] / [all_top_tiles]. *)
Record anim_tile : Type := {
  at_tile_id : Z;
  at_flip_flags : Z;
  at_frames : list Image;
  at_base : Z;
  at_num_tiles : Z;
  at_frame_seq : option (list Z);
  at_duration_ms : Z
}.

(** The frame of an animation shown at step [frame_num]. *)
Definition actual_frame (t : anim_tile) (frame_num : Z) : result Z :=
  match at_frame_seq t with
  | Some (i :: order) =>
      py_index (i :: order) (frame_num `mod` Z.of_nat (length (i :: order)))
  | _ =>
      let len := Z.of_nat (length (at_frames t)) in
      if (at_num_tiles t >? 0) && (len >? 0) then
        let frames_per_cycle := len `div` at_num_tiles t in
        if frames_per_cycle >? 0 then Ok (frame_num `mod` frames_per_cycle)
        else Ok 0
      else Ok 0
  end.

(** "Replace animated tiles ... from ALL animation types": the composite of
    one half at step [frame_num]. *)
Definition composite_frame (base : Image) (tiles : list (Z * anim_tile))
    (frame_num : Z) : result Image :=
  foldlM
    (λ composite '(pos, t),
       let* frame := actual_frame t frame_num in
       let tile_offset := at_tile_id t - at_base t in
       let frame_tile_idx := frame * at_num_tiles t + tile_offset in
       if (0 <=? frame_tile_idx)
          && (frame_tile_idx <? Z.of_nat (length (at_frames t)))
       then
         match at_frames t !! Z.to_nat frame_tile_idx with
         | Some frame_tile =>
             let frame_tile := apply_flips (at_flip_flags t) frame_tile in
             let px := (pos `mod` 2) * 8 in
             let py := (pos `div` 2) * 8 in
             Ok (paste composite frame_tile px py frame_tile)
         | None => Ok composite
         end
       else Ok composite)
    base tiles.

(** The number of frames an entry of [all_*_tiles] asks for. *)
Definition num_frames_of (t : anim_tile) : Z :=
  match at_frame_seq t with
  | Some (i :: order) => Z.of_nat (length (i :: order))
  | _ =>
      let len := Z.of_nat (length (at_frames t)) in
      if (at_num_tiles t >? 0) && (len >? 0) then len `div` at_num_tiles t
      else len
  end.

(** The tuple stored in [all_bottom_tiles] / [all_top_tiles] for an entry
    of [anim_info_list] and the tile reference at its position. *)
Definition anim_tile_of (tile_id flip_flags : Z) (info : anim_info)
    : anim_tile :=
  {| at_tile_id := tile_id; at_flip_flags := flip_flags;
     at_frames := ai_frames info; at_base := ai_base info;
     at_num_tiles := ai_num_tiles info;
     at_frame_seq := ai_frame_sequence info;
     at_duration_ms := ai_duration_ms info |}.

(** The loop that sorts the entries of [anim_info_list] into
    [all_bottom_tiles], [all_top_tiles] and the two GID sets (kept as their
    insertion sequences). *)
Definition split_layers (metatile_tiles : list tile_ref)
    (anim_info_list : list anim_info)
    : result (list (Z * anim_tile) * list (Z * anim_tile) * list Z * list Z) :=
  foldlM
    (λ '(all_bottom_tiles, all_top_tiles, bottom_layer_gids, top_layer_gids)
       info,
       let pos := ai_tile_position info in
       let* '(tile_id, flip_flags, _) := py_index metatile_tiles pos in
       let t := anim_tile_of tile_id flip_flags info in
       if negb (in_animated_tile_range info tile_id)
       then Ok (all_bottom_tiles, all_top_tiles,
                bottom_layer_gids, top_layer_gids)
       else if pos <? 4
       then Ok (dict_set all_bottom_tiles pos t, all_top_tiles,
                bottom_layer_gids ++ [ai_layer_gid info], top_layer_gids)
       else Ok (all_bottom_tiles, dict_set all_top_tiles (pos - 4) t,
                bottom_layer_gids, top_layer_gids ++ [ai_layer_gid info]))
    ([], [], [], []) anim_info_list.

(** "Determine number of frames and duration from actual animation data". *)
Definition frames_and_duration (tiles : list (Z * anim_tile)) : Z * Z :=
  foldl
    (λ '(max_frames, animation_duration_ms) '(_, t),
       (Z.max max_frames (num_frames_of t),
        if bool_decide (at_duration_ms t ≠ 133) then at_duration_ms t
        else if bool_decide (animation_duration_ms = 133)
             then at_duration_ms t
             else animation_duration_ms))
    (0, 133) tiles.

(** The first loop over the steps: the bottom composite of the step is
    stored (the top composite is built too and dropped). *)
Definition bottom_frame_step (cols : Z) (base_bottom base_top : Image)
    (all_bottom_tiles all_top_tiles : list (Z * anim_tile))
    (acc : list Z * anim_state) (frame_num : Z)
    : result (list Z * anim_state) :=
  let* composite_bottom :=
    composite_frame base_bottom all_bottom_tiles frame_num in
  let* _ := composite_frame base_top all_top_tiles frame_num in
  Ok (store_frame cols acc composite_bottom).

(** The second loop, run when a top tile is animated. *)
Definition top_frame_step (cols : Z) (base_top : Image)
    (all_top_tiles : list (Z * anim_tile))
    (acc : list Z * anim_state) (frame_num : Z)
    : result (list Z * anim_state) :=
  let* composite_top_frame :=
    composite_frame base_top all_top_tiles frame_num in
  Ok (store_frame cols acc composite_top_frame).

(** "Apply BOTTOM layer animation to bottom GIDs", one GID. *)
Definition apply_bottom_animation (used : gset Z) (key : metatile_key)
    (composited_frame_gids : list (Z * Z)) (st : anim_state) (gid : Z)
    : anim_state :=
  if bool_decide (gid ∈ used) then
    {| as_tileset_image := as_tileset_image st;
       as_next_gid := as_next_gid st;
       as_animations := as_animations st ++ [(gid - 1, composited_frame_gids)];
       as_animation_frames_gids :=
         record_frames_gids key composited_frame_gids
           (as_animation_frames_gids st) |}
  else st.

(** "Apply TOP layer animation to top GIDs", one GID. *)
Definition apply_top_animation (used : gset Z)
    (composited_top_frame_gids : list (Z * Z)) (st : anim_state) (gid : Z)
    : anim_state :=
  if bool_decide (gid ∈ used) then
    {| as_tileset_image := as_tileset_image st;
       as_next_gid := as_next_gid st;
       as_animations :=
         as_animations st ++ [(gid - 1, composited_top_frame_gids)];
       as_animation_frames_gids := as_animation_frames_gids st |}
  else st.

(** Tile-strip animations of one metatile (the [else] branch of PHASE 2). *)
Definition strip_animation (set_iter : list Z → list Z) (cols : Z)
    (used : gset Z) (key : metatile_key) (base_bottom base_top : Image)
    (metatile_tiles : list tile_ref) (anim_info_list : list anim_info)
    (st : anim_state) : result anim_state :=
  let* '(all_bottom_tiles, all_top_tiles, bottom_layer_gids, top_layer_gids) :=
    split_layers metatile_tiles anim_info_list in
  match all_bottom_tiles, all_top_tiles with
  | [], [] => Ok st
  | _, _ =>
      let '(max_frames, animation_duration_ms) :=
        frames_and_duration (all_bottom_tiles ++ all_top_tiles) in
      let num_anim_frames := if max_frames >? 0 then max_frames else 8 in
      let* '(composited_frame_map, st) :=
        foldlM
          (bottom_frame_step cols base_bottom base_top
             all_bottom_tiles all_top_tiles)
          ([], st) (range num_anim_frames) in
      let* '(composited_top_frame_map, st) :=
        match all_top_tiles with
        | [] => Ok ([], st)
        | _ =>
            foldlM (top_frame_step cols base_top all_top_tiles)
              ([], st) (range num_anim_frames)
        end in
      let composited_frame_gids :=
        (λ tileid, (tileid, animation_duration_ms)) <$> composited_frame_map in
      let composited_top_frame_gids :=
        (λ tileid, (tileid, animation_duration_ms))
          <$> composited_top_frame_map in
      let st :=
        match composited_frame_gids, all_bottom_tiles with
        | _ :: _, _ :: _ =>
            foldl (apply_bottom_animation used key composited_frame_gids)
              st (set_iter bottom_layer_gids)
        | _, _ => st
        end in
      let st :=
        match composited_top_frame_gids, all_top_tiles with
        | _ :: _, _ :: _ =>
            foldl (apply_top_animation used composited_top_frame_gids)
              st (set_iter top_layer_gids)
        | _, _ => st
        end in
      Ok st
  end.

(** PHASE 2, the body of the loop over [metatile_animations.items()]. *)
Definition animate_metatile (set_iter : list Z → list Z) (cols : Z)
    (used : gset Z) (used_mt : gmap metatile_key (Image * Image))
    (composition : gmap metatile_key (list tile_ref))
    (metatile_all_gids : gmap metatile_key (list Z))
    (st : anim_state) (item : metatile_key * list anim_info)
    : result anim_state :=
  let '(key, anim_info_list) := item in
  match default [] (metatile_all_gids !! key),
        used_mt !! key, composition !! key with
  | [], _, _ => Ok st
  | _, None, _ => Ok st
  | _, _, None => Ok st
  | _, Some (base_bottom, base_top), Some metatile_tiles =>
      match filter (λ info, ai_is_metatile info = true) anim_info_list with
      | info :: _ => Ok (metatile_animation cols used key info st)
      | [] =>
          strip_animation set_iter cols used key base_bottom base_top
            metatile_tiles anim_info_list st
      end
  end.

(** "Deduplicate animations by tile ID": the first entry of each id. *)
Definition deduplicate_animations (animations : list animation_entry)
    : list animation_entry :=
  (foldl (λ '(seen_ids, deduplicated) anim,
            if bool_decide (anim.1 ∈ seen_ids) then (seen_ids, deduplicated)
            else ((seen_ids ∪ {[anim.1]} : gset Z), deduplicated ++ [anim]))
         (∅, []) animations).2.

(** The list [all_anim_defs]: the animations of the primary tileset, then
    those of the secondary one, each with its tileset name and frame data. *)
Definition all_anim_defs (scanner : AnimationScanner)
    (primary secondary : string)
    : list (string * anim_def * string * gmap string frames_info) :=
  let primary_anims := get_animations_for_tileset scanner primary in
  let secondary_anims := get_animations_for_tileset scanner secondary in
  let primary_anim_data := extract_all_animation_tiles scanner primary in
  let secondary_anim_data := extract_all_animation_tiles scanner secondary in
  ((λ '(anim_name, adef), (anim_name, adef, primary, primary_anim_data))
     <$> primary_anims)
  ++ ((λ '(anim_name, adef), (anim_name, adef, secondary, secondary_anim_data))
        <$> secondary_anims).

(** [MapConverter._build_metatile_animations]. The parameters the body never
    reads ([metatile_to_gid], the two metatile lists and
    [metatile_key_to_bottom_gid]) are left out. Returns the animations, the
    [animation_frames_gids] dictionary and the tileset image. *)
Definition _build_metatile_animations (set_iter : list Z → list Z)
    (scanner : AnimationScanner) (primary secondary : string)
    (used_mt : gmap metatile_key (Image * Image)) (used : gset Z)
    (t2g : gmap (Z * string) (list gid_mapping))
    (composition : gmap metatile_key (list tile_ref))
    (tileset_image : Image) (current_tile_idx cols : Z)
    : result (list animation_entry * gmap (Z * string * Z) Z * Image) :=
  match all_anim_defs scanner primary secondary with
  | [] => Ok ([], ∅, tileset_image)
  | _ =>
      let '(metatile_animations, metatile_all_gids) :=
        foldl (collect_animation set_iter used t2g) ([], ∅)
          (all_anim_defs scanner primary secondary) in
      let* st :=
        foldlM
          (animate_metatile set_iter cols used used_mt composition
             metatile_all_gids)
          {| as_tileset_image := tileset_image;
             as_next_gid := current_tile_idx + 1;
             as_animations := [];
             as_animation_frames_gids := ∅ |}
          metatile_animations in
      Ok (deduplicate_animations (as_animations st),
          as_animation_frames_gids st, as_tileset_image st)
  end.

(** [MapConverter._create_tileset_for_map], from "Build unique set of images
    by GID" to the call of [_build_metatile_animations]: the image chosen for
    each used GID (the entries of a GID carry equal bytes, so the order in
    which [metatile_to_gid] is walked does not show), the tileset image with
    the used GIDs in ascending order, and the animations built on it. The
    files and the JSON document written around it are left out. *)
Definition gid_to_image (used_mt : gmap metatile_key (Image * Image))
    (m2g : gmap gid_key Z) (used : gset Z) : result (gmap Z Image) :=
  foldlM
    (λ (acc : gmap Z Image) '((metatile_id, tileset, layer_type_val, is_top), gid),
       if bool_decide (gid ∈ used) && bool_decide (acc !! gid = None) then
         match used_mt !! (metatile_id, tileset, layer_type_val) with
         | Some (bottom_img, top_img) =>
             Ok (<[gid := if is_top : bool then top_img else bottom_img]> acc)
         | None => Raise KeyError
         end
       else Ok acc)
    ∅ (map_to_list m2g).

Definition _create_tileset_for_map (set_iter : list Z → list Z)
    (scanner : AnimationScanner) (td : tileset_data)
    (used_mt : gmap metatile_key (Image * Image)) (m2g : gmap gid_key Z)
    (used : gset Z) (t2g : gmap (Z * string) (list gid_mapping))
    (composition : gmap metatile_key (list tile_ref))
    : result (list animation_entry * gmap (Z * string * Z) Z * Image) :=
  let* g2i := gid_to_image used_mt m2g used in
  let cols := 16 in
  let unique_tile_count := Z.of_nat (size g2i) in
  let rows :=
    if unique_tile_count >? 0 then (unique_tile_count + cols - 1) `div` cols
    else 1 in
  let '(tileset_image, tile_idx) :=
    foldl
      (λ '(tileset_image, tile_idx) gid,
         match g2i !! gid with
         | Some img =>
             let x := (tile_idx `mod` cols) * METATILE_SIZE in
             let y := (tile_idx `div` cols) * METATILE_SIZE in
             (paste tileset_image img x y img, tile_idx + 1)
         | None => (tileset_image, tile_idx)
         end)
      (Image_new (cols * METATILE_SIZE) (rows * METATILE_SIZE) (0, 0, 0, 0), 0)
      (merge_sort Z.le (fst <$> map_to_list g2i)) in
  _build_metatile_animations set_iter scanner
    (primary_tileset td) (secondary_tileset td)
    used_mt used t2g composition tileset_image tile_idx cols.

(** The whole compilation of a map: the grid pass, the border corners, the
    planes, and the animations of the tileset. *)
Definition compile_map (set_iter : list Z → list Z)
    (renderer : MetatileRenderer) (scanner : AnimationScanner)
    (map_entries : list (list Z)) (width height : Z) (td : tileset_data)
    (border_file : option (list byte))
    : result (map_layers * list animation_entry) :=
  let* '(gs, bs, layers) :=
    convert_map_with_metatiles renderer map_entries width height td
      border_file in
  let* '(animations, _, _) :=
    _create_tileset_for_map set_iter scanner td
      (used_metatiles (bs_atlas bs)) (bs_metatile_to_gid bs)
      (used_gids layers) (gs_tile_id_to_gids gs)
      (gs_metatile_composition gs) in
  Ok (layers, animations).

(** ** Reference definitions used in the statements *)

(** The complete little-endian 16-bit records of a byte string, with their
    byte offsets starting at [off]; a trailing odd byte belongs to none. *)
Fixpoint u16_pairs (off : nat) (data : list byte) : list (nat * Z) :=
  match data with
  | b0 :: b1 :: rest =>
      (off, Z.of_N (Byte.to_N b0) + 256 * Z.of_N (Byte.to_N b1))
        :: u16_pairs (off + 2) rest
  | _ => []
  end.

(** The values [entries] of [read_map_bin]. *)
Definition map_entries_of (data : list byte) : list Z := snd <$> u16_pairs 0 data.

(** Row [y] of a grid of the given width cut from [entries]. *)
Definition grid_rows (entries : list Z) (width height : Z) : list (list Z) :=
  (λ y, (λ x, default 0 (entries !! Z.to_nat (y * width + x))) <$> range width)
    <$> range height.

(** The atlas at the start of [_process_metatiles]. *)
Definition atlas_init : atlas_state :=
  {| used_metatiles := ∅; image_to_gid := ∅; next_gid := 1 |}.

(** Internalising a sequence of byte contents in order: the GIDs returned
    and the final state. *)
Fixpoint assign_gids (contents : list (list Z)) (st : atlas_state)
    : list Z * atlas_state :=
  match contents with
  | [] => ([], st)
  | c :: cs =>
      let '(gid, st) := assign_gid c st in
      let '(gids, st) := assign_gids cs st in
      (gid :: gids, st)
  end.

(** The invariant of the deduplication table: every GID lies between 1 and
    the counter, and no GID is shared by two contents. *)
Definition atlas_inv (st : atlas_state) : Prop :=
  1 ≤ next_gid st
  ∧ (∀ k v, image_to_gid st !! k = Some v → 1 ≤ v < next_gid st)
  ∧ (∀ k1 k2 v, image_to_gid st !! k1 = Some v →
                image_to_gid st !! k2 = Some v → k1 = k2).

(** The VRAM-slot rule in the words of the specification: tile ids below
    512 address the primary bank at the same index; the others address the
    secondary bank at [tile_id - 512] when that bank exists and has a tile at
    that index, and the primary bank at [tile_id - 512] otherwise. *)
Definition vram_slot_rule (self : MetatileRenderer)
    (primary_tileset_name secondary_tileset_name : string) (tile_id : Z)
    (img : PImage) (idx : Z) : Prop :=
  (tile_id < 512 →
   load_tileset_image self primary_tileset_name = Some img ∧ idx = tile_id)
  ∧ (512 ≤ tile_id →
     idx = tile_id - 512
     ∧ ((∃ simg, load_tileset_image self secondary_tileset_name = Some simg
                 ∧ tile_id - 512 ≤ max_tile_id simg) →
        load_tileset_image self secondary_tileset_name = Some img)
     ∧ (¬ (∃ simg, load_tileset_image self secondary_tileset_name = Some simg
                   ∧ tile_id - 512 ≤ max_tile_id simg) →
        load_tileset_image self primary_tileset_name = Some img)).

(** The layer distribution in the words of the specification, as the slots
    of the (Ground, Objects, Overhead) planes: Normal puts bottom on Objects
    and top on Overhead, Covered bottom on Ground and top on Objects, Split
    bottom on Ground and top on Overhead; the third plane holds slot 0. *)
Definition layer_distribution (layer_type : MetatileLayerType)
    (bottom top : Z) : Z * Z * Z :=
  match layer_type with
  | NORMAL => (0, bottom, top)
  | COVERED => (bottom, top, 0)
  | SPLIT => (bottom, 0, top)
  end.

(** The slots the three planes hold at list index [idx], in the order
    (Ground = BG3, Objects = BG2, Overhead = BG1). *)
Definition planes_at (ls : map_layers) (idx : nat)
    : option Z * option Z * option Z :=
  (layer_data_bg3 ls !! idx, layer_data_bg2 ls !! idx, layer_data_bg1 ls !! idx).

(** The list index of cell [(y, x)]. *)
Definition cell_index (width : Z) (cell : Z * Z) : nat :=
  Z.to_nat (cell.1 * width + cell.2).

(** What [_build_map_layers] must leave at a cell: the metatile of the cell
    has a layer type, and the planes hold its distribution of the two GIDs
    the table gives for the metatile (0 where it gives none). *)
Definition cell_distributed (map_entries : list (list Z)) (width : Z)
    (m2g : gmap gid_key Z) (td : tileset_data) (ls : map_layers)
    (cell : Z * Z) : Prop :=
  ∃ actual_metatile_id tileset_name tiles attributes layer_type,
    cell_metatile map_entries td cell.1 cell.2
    = Ok (actual_metatile_id, tileset_name, tiles, attributes)
    ∧ MetatileLayerType_call (default 0 (attributes !! actual_metatile_id))
      = Ok layer_type
    ∧ planes_at ls (cell_index width cell)
      = (let '(ground, objects, overhead) :=
           layer_distribution layer_type
             (default 0 (m2g !! (actual_metatile_id, tileset_name,
                                 default 0 (attributes !! actual_metatile_id),
                                 false)))
             (default 0 (m2g !! (actual_metatile_id, tileset_name,
                                 default 0 (attributes !! actual_metatile_id),
                                 true))) in
         (Some ground, Some objects, Some overhead)).

(** The fully transparent 16x16 image. *)
Definition transparent_metatile : Image :=
  Image_new METATILE_SIZE METATILE_SIZE (0, 0, 0, 0).

(** A cell whose metatile exists in its tileset, has layer type Covered (1)
    and has tile id 0 in all eight tile references. *)
Definition covered_empty_cell (map_entries : list (list Z)) (td : tileset_data)
    (cell : Z * Z) : Prop :=
  ∃ actual_metatile_id tileset_name tiles attributes,
    cell_metatile map_entries td cell.1 cell.2
    = Ok (actual_metatile_id, tileset_name, tiles, attributes)
    ∧ attributes !! actual_metatile_id = Some 1
    ∧ validate_metatile_bounds actual_metatile_id tiles = true
    ∧ ∀ t, t ∈ slice tiles
                 (Z.to_nat (actual_metatile_id * NUM_TILES_PER_METATILE))
                 (Z.to_nat (actual_metatile_id * NUM_TILES_PER_METATILE) + 8)
           → t.1.1 = 0.

(** The state of the atlas while only transparent composites have been
    seen: every rendered pair is transparent, and the table is either still
    empty with the counter at 1, or holds the transparent bytes under GID 1
    with the counter at 2. *)
Definition transparent_atlas (st : atlas_state) : Prop :=
  (∀ key imgs, used_metatiles st !! key = Some imgs →
               imgs = (transparent_metatile, transparent_metatile))
  ∧ ((used_metatiles st = ∅ ∧ image_to_gid st = ∅ ∧ next_gid st = 1)
     ∨ (image_to_gid st = {[tobytes transparent_metatile := 1]}
        ∧ next_gid st = 2)).

(** A cell of empty Covered metatile whose transparent pair is recorded and
    whose two GIDs are both 1 in the given tables. *)
Definition cell_compiled (map_entries : list (list Z)) (td : tileset_data)
    (used_mt : gmap metatile_key (Image * Image)) (m2g : gmap gid_key Z)
    (cell : Z * Z) : Prop :=
  ∃ actual_metatile_id tileset_name tiles attributes,
    cell_metatile map_entries td cell.1 cell.2
    = Ok (actual_metatile_id, tileset_name, tiles, attributes)
    ∧ attributes !! actual_metatile_id = Some 1
    ∧ used_mt !! (actual_metatile_id, tileset_name, 1)
      = Some (transparent_metatile, transparent_metatile)
    ∧ m2g !! (actual_metatile_id, tileset_name, 1, false) = Some 1
    ∧ m2g !! (actual_metatile_id, tileset_name, 1, true) = Some 1.

(** Border processing only extends the tables: the record of rendered
    metatiles grows, and the GIDs of the metatiles already rendered stay. *)
Definition border_extends (bs bs' : border_state) : Prop :=
  used_metatiles (bs_atlas bs) ⊆ used_metatiles (bs_atlas bs')
  ∧ ∀ id name lt (b : bool),
      is_Some (used_metatiles (bs_atlas bs) !! (id, name, lt)) →
      bs_metatile_to_gid bs' !! (id, name, lt, b)
      = bs_metatile_to_gid bs !! (id, name, lt, b).

(** The three planes all have [n] cells. *)
Definition layers_length (ls : map_layers) (n : nat) : Prop :=
  length (layer_data_bg3 ls) = n
  ∧ length (layer_data_bg2 ls) = n
  ∧ length (layer_data_bg1 ls) = n.

(** The tile indices [first], [first + 1], ... given to [n] stored frames. *)
Definition consecutive_ids (first : Z) (n : nat) : list Z :=
  (λ i, first + Z.of_nat i) <$> seq 0 n.

(** Two animation states that differ in the tileset image and the counter
    only. *)
Definition same_animations (st st' : anim_state) : Prop :=
  as_animations st' = as_animations st
  ∧ as_animation_frames_gids st' = as_animation_frames_gids st.

(** The frame pairs of the one animation entry, for the first free tile
    index [c] and the duration [d]: pre-rendered 16x16 frames are stored once
    and indexed by the playback order [0, 1, 0, 2]; the composites of a
    tile-strip animation are stored one per playback step. *)
Definition flower_frame_pairs (pre_rendered : bool) (c d : Z) : list (Z * Z) :=
  if pre_rendered then [(c, d); (c + 1, d); (c, d); (c + 2, d)]
  else [(c, d); (c + 1, d); (c + 2, d); (c + 3, d)].

(** ** Sample assets for the scenarios *)

(** A [tiles.png] of two 8x8 tiles: tile 0 is blank, tile 1 has index 0 in
    its left half and index 1 in its right half. The file carries a two-colour
    palette and no transparency information. *)
Definition sample_tiles : PImage :=
  {| pim_width := 16; pim_height := 8;
     pim_rows := replicate 8 (replicate 12 0 ++ replicate 4 1);
     pim_palette := [(255, 255, 255, 255); (0, 0, 0, 255)] |}.

(** A sixteen-colour palette: index 0 white, index 1 red, the rest black. *)
Definition sample_palette : palette :=
  (255, 255, 255, 255) :: (255, 0, 0, 255) :: replicate 14 (0, 0, 0, 255).

(** A renderer that finds [tiles.png] for "General" and "Petalburg", the
    palette 00.pal of "General" only, and no palette of "Petalburg". *)
Definition sample_renderer : MetatileRenderer :=
  {| tileset_files :=
       {["General" := sample_tiles; "Petalburg" := sample_tiles]};
     palette_files :=
       {["General" := Some sample_palette :: replicate 15 None;
         "Petalburg" := replicate 16 None]} |}.

(** A palette whose index 1 is blue. *)
Definition sample_palette_blue : palette :=
  (255, 255, 255, 255) :: (0, 0, 255, 255) :: replicate 14 (0, 0, 0, 255).

(** A renderer for a layout whose secondary tileset name is empty: slot 6 is
    red in "General" and blue under the empty name. *)
Definition sample_renderer_unnamed : MetatileRenderer :=
  {| tileset_files := {["General" := sample_tiles]};
     palette_files :=
       {["General" := replicate 6 None ++ [Some sample_palette]
                      ++ replicate 9 None;
         "" := replicate 6 None ++ [Some sample_palette_blue]
               ++ replicate 9 None]} |}.

(** A [metatile_attributes.bin] of one record, 0x3000: layer-type nibble 3. *)
Definition sample_attributes_bin : list byte := ["000"; "048"]%byte.

(** Tileset data with one primary metatile of eight empty tile references and
    the attributes decoded from [sample_attributes_bin]. *)
Definition sample_tileset_data_nibble_3 : tileset_data :=
  {| primary_tileset := "General";
     secondary_tileset := "Petalburg";
     primary_metatiles_with_attrs := replicate 8 (0, 0, 0);
     secondary_metatiles_with_attrs := [];
     primary_attributes := read_metatile_attributes (Some sample_attributes_bin);
     secondary_attributes := ∅ |}.

(** Tileset data for the scenario of metatile 5: six primary metatiles of
    empty tile references, metatile 5 of layer type Covered. *)
Definition sample_tileset_data_covered : tileset_data :=
  {| primary_tileset := "General";
     secondary_tileset := "Petalburg";
     primary_metatiles_with_attrs := replicate 48 (0, 0, 0);
     secondary_metatiles_with_attrs := [];
     primary_attributes := {[5 := 1]};
     secondary_attributes := ∅ |}.

(** Tileset data with primary metatiles 0, 1 and 2 of layer types Normal,
    Covered and Split, and a GID table giving them the bottom and top GIDs
    (1, 2), (3, 4) and (5, 6). *)
Definition sample_tileset_data_layers : tileset_data :=
  {| primary_tileset := "General";
     secondary_tileset := "Petalburg";
     primary_metatiles_with_attrs := replicate 24 (0, 0, 0);
     secondary_metatiles_with_attrs := [];
     primary_attributes := {[0 := 0; 1 := 1; 2 := 2]};
     secondary_attributes := ∅ |}.

Definition sample_metatile_to_gid : gmap gid_key Z :=
  {[(0, "General"%string, 0, false) := 1; (0, "General"%string, 0, true) := 2;
    (1, "General"%string, 1, false) := 3; (1, "General"%string, 1, true) := 4;
    (2, "General"%string, 2, false) := 5; (2, "General"%string, 2, true) := 6]}.

(** The scenario of the animated tile: tile 1 of "General" is animated by a
    catalog entry "flower" of one tile with playback order [0, 1, 0, 2];
    metatile 0 (layer type Normal) has tile 1 at its first bottom position
    and empty references elsewhere. *)
Definition sample_flower : anim_def :=
  {| base_tile_id := 1; num_tiles := 1; is_secondary := false |}.

(** Frame data of "flower" as a strip of 8x8 tiles, one per frame. *)
Definition sample_flower_strip : frames_info :=
  {| frames := (λ k, Image_new 8 8 (k, 128, 0, 255)) <$> [0; 1; 2; 3];
     duration_ms := 133;
     is_metatile := false;
     frame_sequence := Some [0; 1; 0; 2] |}.

(** Frame data of "flower" as pre-rendered 16x16 frames. *)
Definition sample_flower_metatile : frames_info :=
  {| frames := (λ k, Image_new 16 16 (k, 128, 0, 255)) <$> [0; 1; 2];
     duration_ms := 133;
     is_metatile := true;
     frame_sequence := Some [0; 1; 0; 2] |}.

Definition sample_scanner (finfo : frames_info) : AnimationScanner :=
  {| get_animations_for_tileset :=
       λ name, if decide (name = "General") then [("flower", sample_flower)]
               else [];
     extract_all_animation_tiles :=
       λ name, if decide (name = "General") then {["flower" := finfo]}
               else ∅ |}.

Definition sample_tileset_data_animated : tileset_data :=
  {| primary_tileset := "General";
     secondary_tileset := "Petalburg";
     primary_metatiles_with_attrs := (1, 0, 0) :: replicate 7 (0, 0, 0);
     secondary_metatiles_with_attrs := [];
     primary_attributes := {[0 := 0]};
     secondary_attributes := ∅ |}.

(** The tables of the animated-tile scenario as the animation pass receives
    them: one metatile whose bottom composite has GID 1, and the animated
    tile 1 at its first bottom position. *)
Definition sample_animated_key : metatile_key := (0, "General"%string, 0).

Definition sample_animated_used_metatiles : gmap metatile_key (Image * Image) :=
  {[sample_animated_key
      := (Image_new 16 16 (9, 9, 9, 255), transparent_metatile)]}.

Definition sample_animated_tile_id_to_gids
    : gmap (Z * string) (list gid_mapping) :=
  {[(1, "General"%string) := [(1, sample_animated_key, 0)]]}.

Definition sample_animated_composition : gmap metatile_key (list tile_ref) :=
  {[sample_animated_key := (1, 0, 0) :: replicate 7 (0, 0, 0)]}.

(** The composite a GID key stands for: the bottom or top image recorded
    for its metatile. *)
Definition composite_of (used_mt : gmap metatile_key (Image * Image))
    (k : gid_key) : option Image :=
  (λ imgs : Image * Image, if k.2 then imgs.2 else imgs.1) <$> used_mt !! k.1.

(** Every recorded composite has been internalized. *)
Definition composites_internalized (st : atlas_state) : Prop :=
  ∀ key imgs, used_metatiles st !! key = Some imgs →
              is_Some (image_to_gid st !! tobytes imgs.1)
              ∧ is_Some (image_to_gid st !! tobytes imgs.2).

(** Every GID of a table is the one the deduplication table holds for the
    bytes of its composite. *)
Definition gids_consistent (st : atlas_state) (m2g : gmap gid_key Z) : Prop :=
  ∀ k g, m2g !! k = Some g →
         ∃ img, composite_of (used_metatiles st) k = Some img
                ∧ image_to_gid st !! tobytes img = Some g.

(** The palette rule of the renderer in words: palette indices below 6
    address the palette slots of the primary tileset; the others address
    those of the secondary tileset, unless the layout names no secondary
    tileset, and then they too address the primary tileset's. The bank the
    raster came from plays no part. *)
Definition palette_bank (palette_index : Z)
    (primary_tileset_name secondary_tileset_name : string) : string :=
  if bool_decide (palette_index < 6 ∨ secondary_tileset_name = "")
  then primary_tileset_name else secondary_tileset_name.

(** A renderer that finds [tiles.png] for "General" only and a palette in
    slot 6 of both tilesets: red for index 1 in "General", blue in
    "Petalburg". *)
Definition sample_renderer_two_banks : MetatileRenderer :=
  {| tileset_files := {["General" := sample_tiles]};
     palette_files :=
       {["General" := replicate 6 None ++ [Some sample_palette]
                      ++ replicate 9 None;
         "Petalburg" := replicate 6 None ++ [Some sample_palette_blue]
                        ++ replicate 9 None]} |}.

(** ** Reference definitions for the further properties *)

(** An RGBA image whose size is [w] by [h] and whose pixel rows agree with
    that size. *)
Definition image_size (img : Image) (w h : Z) : Prop :=
  im_width img = w ∧ im_height img = h
  ∧ length (im_rows img) = Z.to_nat h
  ∧ Forall (λ row, length row = Z.to_nat w) (im_rows img).






(** ** animation_scanner.py: cutting a frame file into tiles *)






(** * Properties *)

(** ** Generic facts about loops and ranges *)

Lemma bind_Ok {A B : Type} (c : result A) (k : A → result B) (b : B) :
  bind c k = Ok b ↔ ∃ a, c = Ok a ∧ k a = Ok b.
Proof.
  destruct c as [a|e]; simpl; split.
  - intros H. by exists a.
  - by intros (a' & [= <-] & H).
  - discriminate.
  - by intros (a' & [=] & _).
Qed.

Lemma forM_Ok {A B : Type} (f : A → result B) (g : A → B) (l : list A) :
  (∀ x, x ∈ l → f x = Ok (g x)) → forM f l = Ok (g <$> l).
Proof.
  induction l as [|x l IH]; intros Hf; simpl; [done|].
  rewrite Hf by left. simpl. rewrite IH; [done|].
  intros y Hy. apply Hf. by right.
Qed.

Lemma foldlM_app {A B : Type} (f : A → B → result A) (a : A) (l1 l2 : list B) :
  foldlM f a (l1 ++ l2) = bind (foldlM f a l1) (λ a', foldlM f a' l2).
Proof.
  revert a. induction l1 as [|x l1 IH]; intros a; simpl; [done|].
  destruct (f a x) as [a'|e]; simpl; [apply IH|done].
Qed.

Lemma elem_of_range (n i : Z) : i ∈ range n ↔ 0 ≤ i < n.
Proof.
  unfold range. rewrite list_elem_of_fmap. setoid_rewrite elem_of_seq.
  split.
  - intros (k & -> & Hk). lia.
  - intros Hi. exists (Z.to_nat i). lia.
Qed.

Lemma length_range (n : Z) : length (range n) = Z.to_nat n.
Proof. unfold range. by rewrite length_fmap, length_seq. Qed.

Lemma lookup_range (n : Z) (i : nat) :
  (i < Z.to_nat n)%nat → range n !! i = Some (Z.of_nat i).
Proof.
  intros Hi. unfold range. rewrite list_lookup_fmap, lookup_seq_lt by done.
  done.
Qed.

Lemma py_index_Ok {A : Type} (l : list A) (i : Z) (x : A) :
  0 ≤ i → l !! Z.to_nat i = Some x → py_index l i = Ok x.
Proof.
  intros Hi Hx. unfold py_index.
  apply lookup_lt_Some in Hx as Hlt.
  replace (i <? 0) with false by lia.
  replace ((0 <=? i) && (i <? Z.of_nat (length l))) with true by lia.
  by rewrite Hx.
Qed.

(** ** map_reader.py *)

Lemma range_by_2_SS (n : nat) :
  range_by_2 (S (S n)) = 0%nat :: ((λ i, i + 2)%nat <$> range_by_2 n).
Proof.
  unfold range_by_2. change (Nat.div2 (S (S (S n)))) with (S (Nat.div2 (S n))).
  simpl seq. rewrite fmap_cons. f_equal.
  rewrite <- list_fmap_compose, <- fmap_S_seq, <- list_fmap_compose.
  apply list_fmap_ext. intros _ k _. simpl. lia.
Qed.

Lemma list_pair_ind {A : Type} (P : list A → Prop) :
  P [] → (∀ a, P [a]) → (∀ a b l, P l → P (a :: b :: l)) → ∀ l, P l.
Proof.
  intros Hnil Hone Hstep l.
  cut (P l ∧ ∀ a, P (a :: l)); [by intros [? _]|].
  induction l as [|b l [IH1 IH2]]; split; auto.
Qed.

Lemma read_u16_records_loop (rest pre : list byte) (acc : list (nat * Z)) :
  foldlM (read_u16_step (pre ++ rest)) acc
    ((λ i, i + length pre)%nat <$> range_by_2 (length rest))
  = Ok (acc ++ u16_pairs (length pre) rest).
Proof.
  revert pre acc. induction rest as [|b|b0 b1 rest IH] using list_pair_ind;
    intros pre acc.
  - simpl. by rewrite app_nil_r.
  - cbn [length range_by_2 Nat.div2 seq fmap list_fmap foldlM u16_pairs].
    unfold read_u16_step. rewrite bool_decide_eq_false_2.
    + simpl. by rewrite app_nil_r.
    + rewrite length_app. simpl. lia.
  - cbn [length]. rewrite range_by_2_SS, fmap_cons. cbn [foldlM].
    unfold read_u16_step at 1.
    rewrite bool_decide_eq_true_2 by (rewrite length_app; simpl; lia).
    replace (slice (pre ++ b0 :: b1 :: rest) (0 + length pre)
               (0 + length pre + 2)) with [b0; b1].
    2:{ unfold slice. replace (0 + length pre + 2 - (0 + length pre))%nat
          with 2%nat by lia.
        rewrite drop_app_length'; [done|lia]. }
    cbn [struct_unpack_H bind].
    rewrite <- list_fmap_compose.
    replace (pre ++ b0 :: b1 :: rest) with ((pre ++ [b0; b1]) ++ rest)
      by (by rewrite <- (assoc_L (++))).
    erewrite list_fmap_ext; [rewrite (IH (pre ++ [b0; b1]))|].
    + rewrite <- (assoc_L (++)). cbn [u16_pairs app].
      rewrite length_app. cbn [length]. done.
    + intros _ k _. rewrite length_app. simpl. lia.
Qed.

Lemma read_u16_records_eq (data : list byte) :
  read_u16_records data = Ok (u16_pairs 0 data).
Proof.
  pose proof (read_u16_records_loop data [] []) as H.
  simpl in H. unfold read_u16_records.
  erewrite list_fmap_ext in H; [|intros _ k _; apply Nat.add_0_r].
  by rewrite list_fmap_id in H.
Qed.

Lemma length_u16_pairs (off : nat) (data : list byte) :
  length (u16_pairs off data) = (length data / 2)%nat.
Proof.
  revert off. induction data as [|b|b0 b1 rest IH] using list_pair_ind;
    intros off; [done|done|].
  cbn [u16_pairs length]. rewrite IH.
  change (S (S (length rest))) with (2 + length rest)%nat.
  replace (2 + length rest)%nat with (1 * 2 + length rest)%nat by lia.
  rewrite Nat.div_add_l by lia. lia.
Qed.

Lemma length_map_entries_of (data : list byte) :
  length (map_entries_of data) = (length data / 2)%nat.
Proof. unfold map_entries_of. by rewrite length_fmap, length_u16_pairs. Qed.

(** A trailing odd byte contributes no record. *)
Lemma u16_pairs_odd_byte (off : nat) (data : list byte) (b : byte) :
  Nat.Even (length data) → u16_pairs off (data ++ [b]) = u16_pairs off data.
Proof.
  revert off. induction data as [|b'|b0 b1 rest IH] using list_pair_ind;
    intros off Hev; [done| |].
  - destruct Hev as [k Hk]. simpl in Hk. lia.
  - cbn [app u16_pairs]. rewrite IH; [done|].
    destruct Hev as [k Hk]. simpl in Hk. exists (k - 1)%nat. lia.
Qed.

(** When the record count matches, every cell read is in range. *)
Lemma read_map_bin_rows (data : list byte) (width height : Z) :
  Z.of_nat (length data / 2) = width * height →
  read_map_bin (Some data) width height
  = Ok (grid_rows (map_entries_of data) width height).
Proof.
  intros Hlen. unfold read_map_bin. rewrite read_u16_records_eq.
  cbn [bind]. fold (map_entries_of data).
  rewrite bool_decide_eq_false_2
    by (rewrite length_map_entries_of; intros ?; done).
  unfold grid_rows. apply forM_Ok. intros y Hy%elem_of_range.
  apply forM_Ok. intros x Hx%elem_of_range.
  assert (0 ≤ y * width + x < Z.of_nat (length (map_entries_of data))) as Hidx.
  { rewrite length_map_entries_of. nia. }
  destruct (lookup_lt_is_Some_2 (map_entries_of data) (Z.to_nat (y * width + x)))
    as [v Hv]; [lia|].
  rewrite Hv. simpl. apply py_index_Ok; [lia|done].
Qed.

Lemma read_map_bin_mismatch (data : list byte) (width height : Z) :
  Z.of_nat (length data / 2) ≠ width * height →
  read_map_bin (Some data) width height = Raise ValueError.
Proof.
  intros Hlen. unfold read_map_bin. rewrite read_u16_records_eq.
  cbn [bind]. fold (map_entries_of data).
  by rewrite bool_decide_eq_true_2 by (by rewrite length_map_entries_of).
Qed.

Lemma file_size_div_2 (data : list byte) :
  Z.of_nat (length data) `div` 2 = Z.of_nat (length data / 2).
Proof. by rewrite Nat2Z.inj_div. Qed.

(** C9: decoding the map grid fails, and then with [ValueError], exactly when
    the number of complete 16-bit records differs from [width * height]; the
    caller then re-reads with the halved dimensions when they are positive
    and fit the file, logging two warnings and a notice, and otherwise gives
    up with an error diagnostic. *)
Theorem read_map_bin_format_error (data : list byte) (width height : Z) :
  let records := Z.of_nat (length data / 2) in
  let half_width := width `div` 2 in
  let half_height := height `div` 2 in
  (∀ e, read_map_bin (Some data) width height = Raise e
        ↔ e = ValueError ∧ records ≠ width * height)
  ∧ (records ≠ width * height →
     (half_width > 0 ∧ half_height > 0 ∧ records = half_width * half_height →
      read_map_bin (Some data) half_width half_height
      = Ok (grid_rows (map_entries_of data) half_width half_height)
      ∧ _read_and_validate_map_data (Some data) width height
        = (Ok (Some (grid_rows (map_entries_of data) half_width half_height,
                     half_width, half_height)),
           [LogWarning "dimensions don't match map.bin size";
            LogWarning "suggesting dimensions";
            LogInfo "using file-based dimensions"]))
     ∧ (¬ (half_width > 0 ∧ half_height > 0
           ∧ records = half_width * half_height) →
        _read_and_validate_map_data (Some data) width height
        = (Ok None, [LogError "cannot determine correct dimensions"]))).
Proof.
  intros records half_width half_height. split.
  - intros e. destruct (decide (records = width * height)) as [Heq|Hne].
    + rewrite read_map_bin_rows by exact Heq. split; [done|]. by intros [_ ?].
    + rewrite read_map_bin_mismatch by exact Hne. split.
      * by intros [= <-].
      * by intros [-> _].
  - intros Hne. unfold _read_and_validate_map_data.
    rewrite (read_map_bin_mismatch data width height Hne).
    rewrite file_size_div_2. fold records.
    rewrite bool_decide_eq_true_2 by exact Hne.
    fold half_width half_height. split.
    + intros (Hw & Hh & Hfit).
      rewrite !bool_decide_eq_true_2 by assumption. cbn [andb].
      by rewrite (read_map_bin_rows data half_width half_height Hfit).
    + intros Hno.
      destruct (bool_decide (half_width > 0)) eqn:Hw; [|done].
      destruct (bool_decide (half_height > 0)) eqn:Hh; [|done].
      rewrite bool_decide_eq_false_2; [done|].
      apply bool_decide_eq_true_1 in Hw, Hh. tauto.
Qed.

(** C10: a file of [2 * width * height + 1] bytes decodes to the same rows as
    its first [2 * width * height] bytes; no error is raised and the caller
    logs nothing for the dropped byte. *)
Theorem read_map_bin_trailing_byte
    (data : list byte) (b : byte) (width height : Z) :
  Z.of_nat (length data) = 2 * width * height →
  read_map_bin (Some (data ++ [b])) width height
  = Ok (grid_rows (map_entries_of data) width height)
  ∧ read_map_bin (Some data) width height
    = Ok (grid_rows (map_entries_of data) width height)
  ∧ _read_and_validate_map_data (Some (data ++ [b])) width height
    = (Ok (Some (grid_rows (map_entries_of data) width height, width, height)),
       []).
Proof.
  intros Hlen.
  assert (Nat.Even (length data)) as Hev.
  { exists (Z.to_nat (width * height)). lia. }
  assert (Z.of_nat (length data / 2) = width * height) as Hrec.
  { rewrite <- file_size_div_2, Hlen.
    replace (2 * width * height) with (width * height * 2) by lia.
    by rewrite Z.div_mul. }
  assert (map_entries_of (data ++ [b]) = map_entries_of data) as Hsame.
  { unfold map_entries_of. by rewrite u16_pairs_odd_byte. }
  assert (read_map_bin (Some (data ++ [b])) width height
          = Ok (grid_rows (map_entries_of data) width height)) as Hodd.
  { rewrite <- Hsame. apply read_map_bin_rows.
    rewrite <- length_map_entries_of, Hsame, length_map_entries_of. done. }
  split; [done|]. split; [by apply read_map_bin_rows|].
  unfold _read_and_validate_map_data. by rewrite Hodd.
Qed.

Lemma read_map_bin_trailing_byte_witness :
  read_map_bin (Some ["005"; "000"; "007"]%byte) 1 1 = Ok [[5]]
  ∧ read_map_bin (Some ["005"; "000"]%byte) 1 1 = Ok [[5]]
  ∧ _read_and_validate_map_data (Some ["005"; "000"; "007"]%byte) 1 1
    = (Ok (Some ([[5]], 1, 1)), []).
Proof.
  exact (read_map_bin_trailing_byte ["005"; "000"]%byte "007"%byte 1 1
           eq_refl).
Defined.

(** ** Atlas deduplication *)

Lemma atlas_inv_init : atlas_inv atlas_init.
Proof. split; [done|]. split; intros *; simpl; by rewrite lookup_empty. Qed.

Lemma assign_gid_spec (c : list Z) (st : atlas_state) :
  atlas_inv st →
  atlas_inv (assign_gid c st).2
  ∧ image_to_gid (assign_gid c st).2 !! c = Some (assign_gid c st).1
  ∧ image_to_gid st ⊆ image_to_gid (assign_gid c st).2
  ∧ next_gid st ≤ next_gid (assign_gid c st).2
  ∧ used_metatiles (assign_gid c st).2 = used_metatiles st.
Proof.
  intros (Hpos & Hrange & Hinj). unfold assign_gid.
  destruct (image_to_gid st !! c) as [gid|] eqn:Hc; simpl.
  - split; [by split|]. split; [done|]. split; [done|]. split; [lia|done].
  - split; [|split; [by rewrite lookup_insert_eq|split;
      [by apply insert_subseteq|split; [lia|done]]]].
    split; [simpl; lia|]. split; simpl.
    + intros k v [[<- <-]|[_ Hk]]%lookup_insert_Some; [lia|].
      apply Hrange in Hk. lia.
    + intros k1 k2 v [[<- <-]|[Hne1 Hk1]]%lookup_insert_Some
                     [[<- Hv]|[Hne2 Hk2]]%lookup_insert_Some; try done.
      * apply Hrange in Hk2. lia.
      * apply Hrange in Hk1. lia.
      * eauto.
Qed.

Lemma assign_gids_spec (contents : list (list Z)) (st : atlas_state) :
  atlas_inv st →
  atlas_inv (assign_gids contents st).2
  ∧ image_to_gid st ⊆ image_to_gid (assign_gids contents st).2
  ∧ next_gid st ≤ next_gid (assign_gids contents st).2
  ∧ (∀ i c gid, contents !! i = Some c →
                (assign_gids contents st).1 !! i = Some gid →
                image_to_gid (assign_gids contents st).2 !! c = Some gid).
Proof.
  revert st. induction contents as [|c cs IH]; intros st Hinv.
  - simpl. split; [done|]. split; [done|]. split; [lia|].
    intros i c gid Hi. by rewrite lookup_nil in Hi.
  - cbn [assign_gids].
    destruct (assign_gid_spec c st Hinv) as (Hinv1 & Hc & Hsub1 & Hle1 & _).
    destruct (assign_gid c st) as [gid st1]. cbn [fst snd] in *.
    destruct (IH st1 Hinv1) as (Hinv2 & Hsub2 & Hle2 & Hall).
    destruct (assign_gids cs st1) as [gids st2]. cbn [fst snd] in *.
    split; [done|]. split; [by etrans|]. split; [lia|].
    intros [|i] c' gid'; simpl.
    + intros [= <-] [= <-]. by eapply lookup_weaken.
    + apply Hall.
Qed.

(** C1: within a run that starts from the empty table and the counter 1, the
    same byte content always receives the same GID, two different contents
    never receive the same GID, and every GID is at least 1 and below the
    counter. *)
Theorem assign_gid_idempotent_injective
    (contents : list (list Z)) (i j : nat) (ci cj : list Z) (gi gj : Z) :
  contents !! i = Some ci →
  contents !! j = Some cj →
  (assign_gids contents atlas_init).1 !! i = Some gi →
  (assign_gids contents atlas_init).1 !! j = Some gj →
  (ci = cj ↔ gi = gj)
  ∧ gi ≠ 0
  ∧ 1 ≤ gi < next_gid (assign_gids contents atlas_init).2.
Proof.
  intros Hci Hcj Hgi Hgj.
  destruct (assign_gids_spec contents atlas_init atlas_inv_init)
    as ((_ & Hrange & Hinj) & _ & _ & Hall).
  pose proof (Hall _ _ _ Hci Hgi) as Hi.
  pose proof (Hall _ _ _ Hcj Hgj) as Hj.
  pose proof (Hrange _ _ Hi) as Hr.
  split; [split|split; [lia|done]].
  - intros <-. congruence.
  - intros <-. eauto.
Qed.

Lemma assign_gid_idempotent_injective_witness :
  ([1; 2] = [1; 2] ↔ 1 = 1) ∧ 1 ≠ 0 ∧ 1 ≤ 1 < 3.
Proof.
  exact (assign_gid_idempotent_injective [[1; 2]; [7]; [1; 2]] 0 2
           [1; 2] [1; 2] 1 1 eq_refl eq_refl eq_refl eq_refl).
Defined.

(** ** Metatile renderer *)

Lemma resolve_tile_raster_rule (self : MetatileRenderer)
    (primary secondary name : string) (tile_id idx : Z) (img : PImage) :
  resolve_tile_raster self tile_id primary secondary = Some (name, img, idx) →
  0 ≤ idx ≤ max_tile_id img
  ∧ load_tileset_image self name = Some img
  ∧ vram_slot_rule self primary secondary tile_id img idx.
Proof.
  unfold resolve_tile_raster, vram_slot_rule, NUM_TILES_IN_PRIMARY_VRAM.
  destruct (tile_id <? 512) eqn:Hlt.
  - apply Z.ltb_lt in Hlt.
    destruct (load_tileset_image self primary) as [pimg|] eqn:Hp;
      cbn [andb]; [|done].
    destruct ((tile_id <? 0) || (tile_id >? max_tile_id pimg)) eqn:Hb;
      [done|].
    intros [= <- <- <-]. split; [lia|]. split; [done|]. split; [done|lia].
  - apply Z.ltb_ge in Hlt.
    destruct (load_tileset_image self secondary) as [simg|] eqn:Hs.
    + destruct ((tile_id - 512 <? 0) || (tile_id - 512 >? max_tile_id simg))
        eqn:Hb.
      * cbn [andb]. case_bool_decide as Hne; [|done].
        destruct (load_tileset_image self primary) as [pimg|] eqn:Hp; [|done].
        destruct ((0 <=? tile_id - 512)
                  && (tile_id - 512 <=? max_tile_id pimg)) eqn:Hb2; [|done].
        intros [= <- <- <-]. split; [lia|]. split; [done|].
        split; [lia|]. intros _. split; [done|]. split; [|done].
        intros (simg' & [= <-] & Hle). lia.
      * intros [= <- <- <-]. split; [lia|]. split; [done|].
        split; [lia|]. intros _. split; [done|]. split; [done|].
        intros Hno. exfalso. apply Hno. exists simg. split; [done|lia].
    + cbn [andb]. case_bool_decide as Hne; [|done].
      destruct (load_tileset_image self primary) as [pimg|] eqn:Hp; [|done].
      destruct ((tile_id - 512 <? 0) || (tile_id - 512 >? max_tile_id pimg))
        eqn:Hb; [done|].
      intros [= <- <- <-]. split; [lia|]. split; [done|].
      split; [lia|]. intros _. split; [done|]. split; [|done].
      by intros (simg' & [=] & _).
Qed.

(** C2: the tile pasted for a reference is cut from the bank and index the
    VRAM-slot rule names - the primary bank at [tile_id] below 512, else the
    secondary bank at [tile_id - 512] when it exists and has that tile, else
    the primary bank at [tile_id - 512] - then coloured and flipped. *)
Theorem render_tile_raster_source (self : MetatileRenderer)
    (primary secondary : string) (tile_id flip_flags palette_index : Z)
    (tile : Image) :
  render_tile self primary secondary (tile_id, flip_flags, palette_index)
  = Some tile →
  ∃ img idx raw,
    vram_slot_rule self primary secondary tile_id img idx
    ∧ 0 ≤ idx ≤ max_tile_id img
    ∧ extract_tile img idx = Ok raw
    ∧ tile = apply_flips flip_flags
               (colour_tile self palette_index primary secondary raw).
Proof.
  unfold render_tile. destruct (tile_id =? 0); [done|].
  destruct (resolve_tile_raster self tile_id primary secondary)
    as [[[name img] idx]|] eqn:Hres; [|done].
  destruct (extract_tile img idx) as [raw|] eqn:Hraw; [|done].
  intros [= <-]. exists img, idx, raw.
  apply resolve_tile_raster_rule in Hres as (Hidx & _ & Hrule). done.
Qed.

Lemma render_tile_raster_source_witness :
  ∃ img idx raw,
    vram_slot_rule sample_renderer "General" "Petalburg" 513 img idx
    ∧ 0 ≤ idx ≤ max_tile_id img
    ∧ extract_tile img idx = Ok raw
    ∧ apply_flips 1 (colour_tile sample_renderer 0 "General" "Petalburg"
                       (crop sample_tiles 8 0 16 8))
      = apply_flips 1
          (colour_tile sample_renderer 0 "General" "Petalburg" raw).
Proof.
  apply (render_tile_raster_source sample_renderer "General" "Petalburg"
           513 1 0). vm_compute. reflexivity.
Defined.

(** The tileset whose palettes are consulted is the primary one when the
    palette index is below 6 or the secondary tileset name is empty, and the
    secondary one otherwise. *)
Lemma colour_tile_palette_bank (self : MetatileRenderer)
    (primary secondary : string) (palette_index : Z) (raw : PImage) :
  colour_tile self palette_index primary secondary raw
  = colour_with
      (load_tileset_palettes_cached self
         (if bool_decide (palette_index < 6 ∨ secondary = "")
          then primary else secondary))
      palette_index raw.
Proof.
  unfold colour_tile, palette_source_tileset. do 2 f_equal.
  destruct (palette_index >=? 6) eqn:Hp; cbn [andb].
  - apply Z.geb_le in Hp. do 2 case_bool_decide; try done.
    + destruct H0 as [?|?]; [lia|done].
    + exfalso. apply H0. by right.
  - rewrite bool_decide_eq_true_2; [done|]. left. lia.
Qed.

(** C3 (as amended): every tile that is rendered is its raster, whichever
    bank that was cut from, coloured with the palette in slot [palette_index]
    of the bank the palette rule names - the primary tileset for an index
    below 6 or when the secondary tileset name is empty, the secondary
    tileset otherwise - and then flipped; when that slot holds no palette (or
    the index is negative) the tile keeps the colours of its own file. *)
Theorem render_tile_palette_bank (self : MetatileRenderer)
    (primary secondary : string) (tile_id flip_flags palette_index : Z)
    (tile : Image) :
  render_tile self primary secondary (tile_id, flip_flags, palette_index)
  = Some tile →
  ∃ name img idx raw,
    resolve_tile_raster self tile_id primary secondary = Some (name, img, idx)
    ∧ extract_tile img idx = Ok raw
    ∧ (∀ pal,
         0 ≤ palette_index →
         load_tileset_palettes_cached self
           (palette_bank palette_index primary secondary)
           !! Z.to_nat palette_index = Some (Some pal) →
         pal ≠ [] →
         tile = apply_flips flip_flags (apply_palette_to_tile raw pal))
    ∧ (palette_index < 0
       ∨ (∀ pal,
            load_tileset_palettes_cached self
              (palette_bank palette_index primary secondary)
              !! Z.to_nat palette_index = Some (Some pal) →
            pal = []) →
       tile = apply_flips flip_flags (convert_RGBA raw)).
Proof.
  unfold render_tile. destruct (tile_id =? 0); [done|].
  destruct (resolve_tile_raster self tile_id primary secondary)
    as [[[name img] idx]|] eqn:Hres; [|done].
  destruct (extract_tile img idx) as [raw|] eqn:Hraw; [|done].
  intros [= <-]. exists name, img, idx, raw. do 2 (split; [done|]).
  rewrite colour_tile_palette_bank.
  fold (palette_bank palette_index primary secondary).
  set (slots := load_tileset_palettes_cached self
                  (palette_bank palette_index primary secondary)).
  unfold colour_with. split.
  - intros pal Hp Hslot Hne.
    apply lookup_lt_Some in Hslot as Hlt.
    replace ((0 <=? palette_index)
             && (palette_index <? Z.of_nat (length slots))) with true by lia.
    rewrite Hslot. by destruct pal.
  - intros [Hneg|Hnone].
    + by replace ((0 <=? palette_index)
                  && (palette_index <? Z.of_nat (length slots)))
        with false by lia.
    + destruct ((0 <=? palette_index)
                && (palette_index <? Z.of_nat (length slots))); [|done].
      destruct (slots !! Z.to_nat palette_index) as [[[|c pal]|]|] eqn:Hslot;
        try done.
      by specialize (Hnone _ eq_refl).
Qed.

Lemma render_tile_palette_bank_witness :
  load_tileset_palettes_cached sample_renderer_two_banks
    (palette_bank 6 "General" "Petalburg") !! Z.to_nat 6
  = Some (Some sample_palette_blue)
  ∧ render_tile sample_renderer_two_banks "General" "Petalburg" (1, 0, 6)
    = Some (apply_flips 0
              (apply_palette_to_tile (crop sample_tiles 8 0 16 8)
                 sample_palette_blue))
  ∧ ∃ name img idx raw,
      resolve_tile_raster sample_renderer_two_banks 1 "General" "Petalburg"
      = Some (name, img, idx)
      ∧ extract_tile img idx = Ok raw
      ∧ (∀ pal,
           0 ≤ 6 →
           load_tileset_palettes_cached sample_renderer_two_banks
             (palette_bank 6 "General" "Petalburg") !! Z.to_nat 6
           = Some (Some pal) →
           pal ≠ [] →
           apply_flips 0
             (apply_palette_to_tile (crop sample_tiles 8 0 16 8)
                sample_palette_blue)
           = apply_flips 0 (apply_palette_to_tile raw pal))
      ∧ (6 < 0
         ∨ (∀ pal,
              load_tileset_palettes_cached sample_renderer_two_banks
                (palette_bank 6 "General" "Petalburg") !! Z.to_nat 6
              = Some (Some pal) →
              pal = []) →
         apply_flips 0
           (apply_palette_to_tile (crop sample_tiles 8 0 16 8)
              sample_palette_blue)
         = apply_flips 0 (convert_RGBA raw)).
Proof.
  split; [reflexivity|]. split; [vm_compute; reflexivity|].
  apply (render_tile_palette_bank sample_renderer_two_banks
           "General" "Petalburg" 1 0 6
           (apply_flips 0
              (apply_palette_to_tile (crop sample_tiles 8 0 16 8)
                 sample_palette_blue))).
  vm_compute. reflexivity.
Defined.

(** C3, counterexample to the claim as stated: with an empty secondary tileset
    name, palette index 6 is looked up in the primary tileset's palettes, and
    the tile comes out red where the palettes under the secondary name would
    make it blue; so does the pixel of the composite [_render_tile_grid]
    returns. *)
Lemma palette_index_6_empty_secondary_name :
  palette_source_tileset 6 "General" "" = "General"
  ∧ colour_tile sample_renderer_unnamed 6 "General" ""
      (crop sample_tiles 8 0 16 8)
    = colour_with (load_tileset_palettes_cached sample_renderer_unnamed "General")
        6 (crop sample_tiles 8 0 16 8)
  ∧ pixel_at (0, 0, 0, 0)
      (im_rows (colour_tile sample_renderer_unnamed 6 "General" ""
                  (crop sample_tiles 8 0 16 8))) 7 0
    = (255, 0, 0, 255)
  ∧ pixel_at (0, 0, 0, 0)
      (im_rows (colour_with
                  (load_tileset_palettes_cached sample_renderer_unnamed "")
                  6 (crop sample_tiles 8 0 16 8))) 7 0
    = (0, 0, 255, 255)
  ∧ (λ grid, pixel_at (0, 0, 0, 0) (im_rows grid) 7 0)
      <$> _render_tile_grid sample_renderer_unnamed
            [(1, 0, 6); (0, 0, 0); (0, 0, 0); (0, 0, 0)] "General" ""
    = Some (255, 0, 0, 255).
Proof. vm_compute. done. Qed.

(** Wherever a palette is applied, a pixel of palette index 0 comes out as
    (0, 0, 0, 0): on the normal path and on the fallback for a short
    palette. *)
Lemma apply_palette_index_0_transparent (tile : PImage) (pal : palette)
    (x y : Z) (d : Z * Z * Z * Z) :
  pixel_at 1 (pim_rows tile) x y = 0 →
  pixel_at d (im_rows (apply_palette_to_tile tile pal)) x y = (0, 0, 0, 0).
Proof.
  unfold pixel_at. destruct ((x <? 0) || (y <? 0)) eqn:Hxy; [done|].
  destruct (pim_rows tile !! Z.to_nat y) as [row|] eqn:Hrow; [|done].
  cbn [mbind option_bind].
  destruct (row !! Z.to_nat x) as [i|] eqn:Hi; [|done].
  cbn [default from_option id]. intros ->.
  unfold apply_palette_to_tile. case_bool_decide.
  - unfold _make_color_0_transparent, convert_RGBA. cbn [im_rows].
    rewrite list_lookup_imap, list_lookup_fmap, Hrow. cbn [fmap option_fmap
      option_map mbind option_bind].
    rewrite list_lookup_imap, list_lookup_fmap, Hi. cbn [fmap option_fmap
      option_map default from_option id].
    unfold pixel_at. rewrite !Z2Nat.id by lia.
    rewrite Hxy, Hrow. cbn [mbind option_bind]. by rewrite Hi.
  - cbn [im_rows]. rewrite list_lookup_fmap, Hrow.
    cbn [fmap option_fmap option_map mbind option_bind].
    by rewrite list_lookup_fmap, Hi.
Qed.

(** C5, the code at the failing input: tile 513 is drawn with palette index 6,
    for which the secondary tileset has no palette, so the tile is converted
    with the palette of the file. The source pixel (0, 0) of the tile has
    palette index 0 and comes out opaque white in the composite. *)
Lemma render_tile_grid_no_palette_index_0_opaque :
  pixel_at 1 (pim_rows (crop sample_tiles 8 0 16 8)) 0 0 = 0
  ∧ (λ grid, pixel_at (0, 0, 0, 0) (im_rows grid) 0 0)
      <$> _render_tile_grid sample_renderer
            [(513, 0, 6); (0, 0, 0); (0, 0, 0); (0, 0, 0)]
            "General" "Petalburg"
    = Some (255, 255, 255, 255).
Proof. vm_compute. done. Qed.

(** The same tile drawn with palette index 0, which "General" has: the pixel
    is fully transparent. *)
Lemma render_tile_grid_palette_index_0_transparent :
  (λ grid, pixel_at (1, 1, 1, 1) (im_rows grid) 0 0)
    <$> _render_tile_grid sample_renderer
          [(513, 0, 0); (0, 0, 0); (0, 0, 0); (0, 0, 0)]
          "General" "Petalburg"
  = Some (0, 0, 0, 0).
Proof. vm_compute. done. Qed.

(** ** Layer types *)

Lemma MetatileLayerType_call_nibble (value : Z) :
  0 ≤ value ≤ 15 →
  (value ≤ 2 → ∃ layer_type, MetatileLayerType_call value = Ok layer_type)
  ∧ (3 ≤ value → MetatileLayerType_call value = Raise ValueError).
Proof.
  intros Hv. unfold MetatileLayerType_call. split; intros Hv'.
  - destruct (value =? 0) eqn:H0; [by eexists|].
    destruct (value =? 1) eqn:H1; [by eexists|].
    destruct (value =? 2) eqn:H2; [by eexists|]. lia.
  - by replace (value =? 0) with false by lia;
       replace (value =? 1) with false by lia;
       replace (value =? 2) with false by lia.
Qed.

(** A layer-type nibble from 3 to 15 makes [process_single_metatile] raise
    before anything is rendered. *)
Lemma process_single_metatile_bad_layer_type (renderer : MetatileRenderer)
    (actual_metatile_id value : Z) (tileset_name primary secondary : string)
    (metatiles_with_attrs : list tile_ref) (attributes : gmap Z Z)
    (st : atlas_state) :
  attributes !! actual_metatile_id = Some value →
  3 ≤ value ≤ 15 →
  process_single_metatile renderer actual_metatile_id tileset_name
    metatiles_with_attrs attributes primary secondary st
  = Raise ValueError.
Proof.
  intros Hattr Hv. unfold process_single_metatile. rewrite Hattr.
  cbn [default from_option id].
  destruct (MetatileLayerType_call_nibble value) as [_ Hraise]; [lia|].
  by rewrite Hraise by lia.
Qed.

(** C8, the code at the failing input: the attribute record 0x3000 decodes to
    layer type 3, and compiling a 1x1 map of that metatile raises
    [ValueError] out of the grid pass. *)
Lemma convert_map_layer_type_3_raises :
  read_metatile_attributes (Some sample_attributes_bin) !! 0 = Some 3
  ∧ _process_metatiles sample_renderer [[0]] 1 1 sample_tileset_data_nibble_3
    = Raise ValueError
  ∧ convert_map_with_metatiles sample_renderer [[0]] 1 1
      sample_tileset_data_nibble_3 None
    = Raise ValueError.
Proof. vm_compute. done. Qed.

(** ** Layer distribution *)

Lemma elem_of_cells (width height y x : Z) :
  (y, x) ∈ cells width height ↔ 0 ≤ y < height ∧ 0 ≤ x < width.
Proof.
  unfold cells. rewrite list_elem_of_bind. split.
  - intros (y' & Hx & Hy%elem_of_range).
    apply list_elem_of_fmap in Hx as (x' & [= -> ->] & Hx%elem_of_range).
    done.
  - intros [Hy Hx]. exists y. split; [|by apply elem_of_range].
    apply list_elem_of_fmap. exists x. split; [done|by apply elem_of_range].
Qed.

Lemma NoDup_range (n : Z) : NoDup (range n).
Proof.
  unfold range. apply NoDup_fmap_2; [|apply NoDup_seq].
  intros a b. lia.
Qed.

Lemma NoDup_cells (width height : Z) : NoDup (cells width height).
Proof.
  unfold cells. apply NoDup_bind; [| |apply NoDup_range].
  - intros y1 y2 [y x] _ _ H1 H2.
    apply list_elem_of_fmap in H1 as (x1 & [= -> ->] & _).
    by apply list_elem_of_fmap in H2 as (x2 & [= -> _] & _).
  - intros y _. apply NoDup_fmap_2; [|apply NoDup_range].
    by intros x1 x2 [= ->].
Qed.

Lemma cell_index_inj (width : Z) (c1 c2 : Z * Z) :
  0 ≤ c1.1 → 0 ≤ c1.2 < width → 0 ≤ c2.1 → 0 ≤ c2.2 < width →
  cell_index width c1 = cell_index width c2 → c1 = c2.
Proof.
  destruct c1 as [y1 x1], c2 as [y2 x2]. unfold cell_index. simpl.
  intros Hy1 Hx1 Hy2 Hx2 Heq.
  assert (y1 * width + x1 = y2 * width + x2) as Heq' by nia.
  assert (y1 = y2) by nia. f_equal; [done|nia].
Qed.

Lemma NoDup_cell_indices (width height : Z) :
  NoDup (cell_index width <$> cells width height).
Proof.
  apply NoDup_fmap_2_strong; [|apply NoDup_cells].
  intros [y1 x1] [y2 x2] H1%elem_of_cells H2%elem_of_cells.
  apply cell_index_inj; simpl; lia.
Qed.

Lemma py_setitem_Ok {A : Type} (l l' : list A) (i : Z) (v : A) :
  0 ≤ i → py_setitem l i v = Ok l' →
  (Z.to_nat i < length l)%nat ∧ l' = <[Z.to_nat i := v]> l.
Proof.
  intros Hi. unfold py_setitem. replace (i <? 0) with false by lia.
  destruct ((0 <=? i) && (i <? Z.of_nat (length l))) eqn:Hb; [|done].
  intros [= <-]. split; [lia|done].
Qed.

Lemma py_setitem_in_range {A : Type} (l : list A) (i : Z) (v : A) :
  0 ≤ i < Z.of_nat (length l) → py_setitem l i v = Ok (<[Z.to_nat i := v]> l).
Proof.
  intros Hi. unfold py_setitem. replace (i <? 0) with false by lia.
  by replace ((0 <=? i) && (i <? Z.of_nat (length l))) with true by lia.
Qed.

Ltac setitem_cases :=
  repeat match goal with
  | H : bind (py_setitem _ _ _) _ = Ok _ |- _ =>
      apply bind_Ok in H as (? & [? ->]%py_setitem_Ok & H); [|lia]
  | H : Ok _ = Ok _ |- _ => injection H as <-
  end.

Lemma build_cell_spec (map_entries : list (list Z)) (width : Z)
    (m2g : gmap gid_key Z) (td : tileset_data) (ls ls' : map_layers)
    (cell : Z * Z) :
  0 ≤ cell.1 * width + cell.2 →
  build_cell map_entries width m2g td ls cell = Ok ls' →
  planes_at ls (cell_index width cell) = (Some 0, Some 0, Some 0) →
  cell_distributed map_entries width m2g td ls' cell
  ∧ (∀ j, j ≠ cell_index width cell → planes_at ls' j = planes_at ls j).
Proof.
  destruct cell as [y x]. unfold build_cell, cell_distributed, cell_index.
  cbn [fst snd]. intros Hidx Hrun Hzero.
  apply bind_Ok in Hrun as ([[[id name] tiles] attrs] & Hcell & Hrun).
  apply bind_Ok in Hrun as (layer_type & Hlt & Hrun).
  unfold planes_at in Hzero. injection Hzero as H3 H2 H1.
  split.
  - exists id, name, tiles, attrs, layer_type. split; [done|]. split; [done|].
    unfold planes_at.
    destruct layer_type; setitem_cases; cbn [layer_distribution
      layer_data_bg3 layer_data_bg2 layer_data_bg1];
      rewrite ?list_lookup_insert_eq by done; by rewrite ?H1, ?H2, ?H3.
  - intros j Hj. unfold planes_at.
    destruct layer_type; setitem_cases; cbn [layer_data_bg3 layer_data_bg2
      layer_data_bg1]; by rewrite ?list_lookup_insert_ne by done.
Qed.

Lemma build_cells_spec (map_entries : list (list Z)) (width : Z)
    (m2g : gmap gid_key Z) (td : tileset_data) (cs : list (Z * Z))
    (ls ls' : map_layers) :
  (∀ c, c ∈ cs → 0 ≤ c.1 * width + c.2) →
  NoDup (cell_index width <$> cs) →
  (∀ c, c ∈ cs → planes_at ls (cell_index width c) = (Some 0, Some 0, Some 0)) →
  foldlM (build_cell map_entries width m2g td) ls cs = Ok ls' →
  (∀ c, c ∈ cs → cell_distributed map_entries width m2g td ls' c)
  ∧ (∀ j, j ∉ cell_index width <$> cs → planes_at ls' j = planes_at ls j).
Proof.
  revert ls. induction cs as [|c cs IH]; intros ls Hpos Hnd Hzero Hrun.
  - injection Hrun as <-. split; [|done]. by intros c Hc%elem_of_nil.
  - cbn [foldlM] in Hrun. apply bind_Ok in Hrun as (ls1 & Hc & Hrun).
    rewrite fmap_cons in Hnd. apply NoDup_cons in Hnd as [Hfresh Hnd].
    destruct (build_cell_spec _ _ _ _ _ _ _ (Hpos c ltac:(left)) Hc
                (Hzero c ltac:(left))) as [Hdist Hother].
    destruct (IH ls1) as [Hall Hrest]; [|done| |done|].
    + intros c' Hc'. apply Hpos. by right.
    + intros c' Hc'. rewrite Hother; [apply Hzero; by right|].
      intros Heq. apply Hfresh. rewrite <- Heq.
      by apply list_elem_of_fmap_2.
    + split.
      * intros c' [->|Hc']%elem_of_cons; [|by apply Hall].
        destruct Hdist as (id & name & tiles & attrs & lt & H1 & H2 & H3).
        exists id, name, tiles, attrs, lt. split; [done|]. split; [done|].
        by rewrite Hrest.
      * intros j Hj. rewrite fmap_cons in Hj.
        apply not_elem_of_cons in Hj as [Hne Hj].
        rewrite Hrest by done. by apply Hother.
Qed.

Lemma planes_at_zeros (n idx : nat) (used : gset Z) :
  (idx < n)%nat →
  planes_at {| layer_data_bg3 := replicate n 0; layer_data_bg2 := replicate n 0;
               layer_data_bg1 := replicate n 0; used_gids := used |} idx
  = (Some 0, Some 0, Some 0).
Proof.
  intros Hidx. unfold planes_at. cbn. by rewrite lookup_replicate_2.
Qed.

(** C4: after [_build_map_layers], at every cell of the grid the planes hold
    the layer distribution of the cell's metatile: Normal has the bottom GID
    on Objects and the top GID on Overhead, Covered bottom on Ground and top
    on Objects, Split bottom on Ground and top on Overhead, and the remaining
    plane holds 0. *)
Theorem build_map_layers_distribution (map_entries : list (list Z))
    (width height : Z) (m2g : gmap gid_key Z) (td : tileset_data)
    (border_gids : list (string * Z)) (layers : map_layers) (y x : Z) :
  _build_map_layers map_entries width height m2g td border_gids = Ok layers →
  0 ≤ y < height →
  0 ≤ x < width →
  cell_distributed map_entries width m2g td layers (y, x).
Proof.
  unfold _build_map_layers. intros Hrun Hy Hx.
  apply build_cells_spec in Hrun as [Hall _].
  - apply Hall. by apply elem_of_cells.
  - intros [y' x'] [? ?]%elem_of_cells. simpl. nia.
  - apply NoDup_cell_indices.
  - intros [y' x'] [? ?]%elem_of_cells. apply planes_at_zeros.
    unfold cell_index. simpl. nia.
Qed.

Lemma build_map_layers_distribution_witness :
  ∃ layers,
    _build_map_layers [[0; 1; 2]] 3 1 sample_metatile_to_gid
      sample_tileset_data_layers [] = Ok layers
    ∧ cell_distributed [[0; 1; 2]] 3 sample_metatile_to_gid
        sample_tileset_data_layers layers (0, 2).
Proof.
  eexists. split; [vm_compute; reflexivity|].
  apply (build_map_layers_distribution [[0; 1; 2]] 3 1 sample_metatile_to_gid
           sample_tileset_data_layers [] _ 0 2);
    [vm_compute; reflexivity|lia|lia].
Defined.

(** A row of a Normal, a Covered and a Split metatile: the planes. *)
Example build_map_layers_three_types :
  (λ ls, (layer_data_bg3 ls, layer_data_bg2 ls, layer_data_bg1 ls))
    <$> (match _build_map_layers [[0; 1; 2]] 3 1 sample_metatile_to_gid
                 sample_tileset_data_layers [] with
         | Ok ls => Some ls
         | Raise _ => None
         end)
  = Some ([0; 3; 5], [1; 4; 0], [2; 0; 6]).
Proof. vm_compute. done. Qed.

(** The tile-level distribution of [metatile.py] follows the same table:
    the plane that receives neither half comes out empty. *)
Lemma convert_metatile_to_tile_layers_distribution (metatile_id : Z)
    (metatile_data : list tile_ref) (layer_type x y : Z) :
  let tiles := unpack_metatile_data_with_attrs metatile_id metatile_data in
  let bottom := create_tile_dict (x * 2) (y * 2) (slice tiles 0 4) in
  let top := create_tile_dict (x * 2) (y * 2) (slice tiles 4 8) in
  convert_metatile_to_tile_layers_with_attrs metatile_id metatile_data
    layer_type x y
  = if layer_type =? 1 then (bottom, top, ∅)
    else if layer_type =? 2 then (bottom, ∅, top)
    else (∅, bottom, top).
Proof.
  intros tiles bottom top.
  unfold convert_metatile_to_tile_layers_with_attrs, tile_layers_data.
  fold tiles.
  destruct (layer_type =? 0) eqn:H0.
  - apply Z.eqb_eq in H0 as ->. done.
  - destruct (layer_type =? 1); [done|]. by destruct (layer_type =? 2).
Qed.

(** ** Maps of empty Covered metatiles *)

Lemma render_tile_empty (self : MetatileRenderer) (primary secondary : string)
    (t : tile_ref) :
  t.1.1 = 0 → render_tile self primary secondary t = None.
Proof. destruct t as [[tile_id flip] pal]. simpl. by intros ->. Qed.

Lemma foldl_id {A B : Type} (g : A → B → A) (a : A) (l : list B) :
  (∀ a' x, x ∈ l → g a' x = a') → foldl g a l = a.
Proof.
  revert a. induction l as [|x l IH]; intros a Hg; [done|].
  simpl. rewrite Hg by left. apply IH. intros a' y Hy. apply Hg. by right.
Qed.

Lemma elem_of_slice {A : Type} (l : list A) (a b : nat) (x : A) :
  x ∈ slice l a b → x ∈ l.
Proof.
  unfold slice. intros (i & Hi & _)%elem_of_take.
  rewrite lookup_drop in Hi. by eapply list_elem_of_lookup_2.
Qed.

Lemma _render_tile_grid_empty (self : MetatileRenderer) (tiles : list tile_ref)
    (primary secondary : string) :
  length tiles = 4%nat →
  (∀ t, t ∈ tiles → t.1.1 = 0) →
  _render_tile_grid self tiles primary secondary = Some transparent_metatile.
Proof.
  intros Hlen Hall. unfold _render_tile_grid.
  rewrite bool_decide_eq_false_2 by (intros Hne; apply Hne, Hlen). f_equal.
  apply foldl_id. intros grid [idx t] Hin.
  apply elem_of_lookup_imap in Hin as (i & t' & [= -> ->] & Ht).
  rewrite render_tile_empty; [done|].
  apply Hall. by eapply list_elem_of_lookup_2.
Qed.

Lemma render_metatile_empty (self : MetatileRenderer) (tiles : list tile_ref)
    (primary secondary : string) (layer_type : MetatileLayerType) :
  length tiles = 8%nat →
  (∀ t, t ∈ tiles → t.1.1 = 0) →
  render_metatile self tiles primary secondary layer_type
  = (Some transparent_metatile, Some transparent_metatile).
Proof.
  intros Hlen Hall. unfold render_metatile.
  rewrite bool_decide_eq_false_2
    by (intros Hne; apply Hne; rewrite Hlen; done).
  rewrite !_render_tile_grid_empty.
  - by destruct layer_type.
  - unfold slice. rewrite length_take, length_drop. lia.
  - intros t Ht. by eapply Hall, elem_of_slice.
  - unfold slice. rewrite length_take, length_drop. lia.
  - intros t Ht. by eapply Hall, elem_of_slice.
Qed.

Lemma validate_metatile_bounds_slice (actual_metatile_id : Z)
    (tiles : list tile_ref) :
  validate_metatile_bounds actual_metatile_id tiles = true →
  0 ≤ actual_metatile_id
  ∧ length (slice tiles
              (Z.to_nat (actual_metatile_id * NUM_TILES_PER_METATILE))
              (Z.to_nat (actual_metatile_id * NUM_TILES_PER_METATILE) + 8))
    = 8%nat.
Proof.
  unfold validate_metatile_bounds, NUM_TILES_PER_METATILE.
  destruct (actual_metatile_id <? 0) eqn:Hneg; [done|].
  destruct ((actual_metatile_id * 8 <? 0)
            || (actual_metatile_id * 8 + 8 >? Z.of_nat (length tiles))
            || (Z.of_nat (length tiles) <? 8)) eqn:Hb; [done|].
  intros _. split; [lia|].
  unfold slice. rewrite length_take, length_drop. lia.
Qed.

Lemma assign_gid_transparent (st : atlas_state) :
  (image_to_gid st = ∅ ∧ next_gid st = 1)
  ∨ (image_to_gid st = {[tobytes transparent_metatile := 1]}
     ∧ next_gid st = 2) →
  (assign_gid (tobytes transparent_metatile) st).1 = 1
  ∧ image_to_gid (assign_gid (tobytes transparent_metatile) st).2
    = {[tobytes transparent_metatile := 1]}
  ∧ next_gid (assign_gid (tobytes transparent_metatile) st).2 = 2
  ∧ used_metatiles (assign_gid (tobytes transparent_metatile) st).2
    = used_metatiles st.
Proof.
  unfold assign_gid. intros [[Hm Hn]|[Hm Hn]]; rewrite Hm.
  - rewrite lookup_empty. cbn. rewrite Hn, insert_empty. done.
  - rewrite lookup_singleton_eq. cbn. done.
Qed.

Lemma process_single_metatile_covered_empty (renderer : MetatileRenderer)
    (actual_metatile_id : Z) (tileset_name primary secondary : string)
    (tiles : list tile_ref) (attributes : gmap Z Z) (st : atlas_state) :
  attributes !! actual_metatile_id = Some 1 →
  validate_metatile_bounds actual_metatile_id tiles = true →
  (∀ t, t ∈ slice tiles
               (Z.to_nat (actual_metatile_id * NUM_TILES_PER_METATILE))
               (Z.to_nat (actual_metatile_id * NUM_TILES_PER_METATILE) + 8)
        → t.1.1 = 0) →
  transparent_atlas st →
  ∃ res st',
    process_single_metatile renderer actual_metatile_id tileset_name tiles
      attributes primary secondary st = Ok (res, st')
    ∧ metatile_to_gid res = gid_pair (actual_metatile_id, tileset_name, 1) 1 1
    ∧ transparent_atlas st'
    ∧ image_to_gid st' = {[tobytes transparent_metatile := 1]}
    ∧ used_metatiles st' !! (actual_metatile_id, tileset_name, 1)
      = Some (transparent_metatile, transparent_metatile)
    ∧ used_metatiles st ⊆ used_metatiles st'.
Proof.
  intros Hattr Hvalid Hzero [Himgs Htable].
  destruct (validate_metatile_bounds_slice _ _ Hvalid) as [Hid Hlen].
  unfold process_single_metatile. rewrite Hattr. cbn [default from_option id].
  change (MetatileLayerType_call 1) with (Ok COVERED). cbn [bind].
  rewrite Hvalid. cbn [negb].
  rewrite (bool_decide_eq_false_2 (Z.of_nat _ ≠ _))
    by (intros Hne; apply Hne; rewrite Hlen; done).
  cbn [andb]. fold transparent_metatile.
  destruct (used_metatiles st !! (actual_metatile_id, tileset_name, 1))
    as [[bottom_img top_img]|] eqn:Hused.
  - apply Himgs in Hused as Heq. injection Heq as -> ->.
    destruct Htable as [(Hempty & _ & _)|[Hm Hn]].
    { rewrite Hempty, lookup_empty in Hused. done. }
    rewrite Hm, lookup_singleton_eq.
    eexists _, st. split; [done|]. cbn.
    split; [done|]. split; [split; [done|by right]|]. done.
  - rewrite render_metatile_empty by done. cbn [default from_option id].
    set (st1 := set_used_metatile _ _ st).
    assert ((image_to_gid st1 = ∅ ∧ next_gid st1 = 1)
            ∨ (image_to_gid st1 = {[tobytes transparent_metatile := 1]}
               ∧ next_gid st1 = 2)) as Ht1.
    { destruct Htable as [(_ & ? & ?)|[? ?]]; [by left|by right]. }
    destruct (assign_gid_transparent st1 Ht1) as (Hg1 & Hm1 & Hn1 & Hu1).
    destruct (assign_gid (tobytes transparent_metatile) st1) as [gid1 st2].
    cbn [fst snd] in *. subst gid1.
    destruct (assign_gid_transparent st2 (or_intror (conj Hm1 Hn1)))
      as (Hg2 & Hm2 & Hn2 & Hu2).
    destruct (assign_gid (tobytes transparent_metatile) st2) as [gid2 st3].
    cbn [fst snd] in *. subst gid2.
    eexists _, st3. split; [done|]. cbn [metatile_to_gid].
    split; [done|].
    assert (used_metatiles st3
            = <[(actual_metatile_id, tileset_name, 1)
                  := (transparent_metatile, transparent_metatile)]>
                (used_metatiles st)) as Hu3 by (by rewrite Hu2, Hu1).
    split; [split; [|by right]|split; [done|split]].
    + intros key imgs. rewrite Hu3.
      intros [[_ <-]|[_ Hk]]%lookup_insert_Some; [done|by eapply Himgs].
    + by rewrite Hu3, lookup_insert_eq.
    + rewrite Hu3. by apply insert_subseteq.
Qed.

Lemma gid_pair_lookup (key : metatile_key) (bottom_gid top_gid : Z)
    (k : gid_key) (v : Z) :
  gid_pair key bottom_gid top_gid !! k = Some v →
  (k = (key, true) ∧ v = top_gid) ∨ (k = (key, false) ∧ v = bottom_gid).
Proof.
  destruct key as [[id name] lt]. unfold gid_pair.
  intros [[<- <-]|[_ [<- <-]%lookup_singleton_Some]]%lookup_insert_Some;
    [by left|by right].
Qed.

Lemma gid_pair_lookup_bottom (key : metatile_key) (bottom_gid top_gid : Z) :
  gid_pair key bottom_gid top_gid !! (key, false) = Some bottom_gid.
Proof.
  destruct key as [[id name] lt]. unfold gid_pair.
  rewrite lookup_insert_ne by done. apply lookup_singleton_eq.
Qed.

Lemma gid_pair_lookup_top (key : metatile_key) (bottom_gid top_gid : Z) :
  gid_pair key bottom_gid top_gid !! (key, true) = Some top_gid.
Proof.
  destruct key as [[id name] lt]. unfold gid_pair. apply lookup_insert_eq.
Qed.

Lemma process_cell_covered_empty (renderer : MetatileRenderer)
    (map_entries : list (list Z)) (td : tileset_data) (gs : grid_state)
    (cell : Z * Z) :
  covered_empty_cell map_entries td cell →
  transparent_atlas (gs_atlas gs) →
  (∀ k v, gs_metatile_to_gid gs !! k = Some v → v = 1) →
  ∃ gs',
    process_cell renderer map_entries td gs cell = Ok gs'
    ∧ transparent_atlas (gs_atlas gs')
    ∧ image_to_gid (gs_atlas gs') = {[tobytes transparent_metatile := 1]}
    ∧ (∀ k v, gs_metatile_to_gid gs' !! k = Some v → v = 1)
    ∧ used_metatiles (gs_atlas gs) ⊆ used_metatiles (gs_atlas gs')
    ∧ gs_metatile_to_gid gs ⊆ gs_metatile_to_gid gs'
    ∧ cell_compiled map_entries td (used_metatiles (gs_atlas gs'))
        (gs_metatile_to_gid gs') cell.
Proof.
  destruct cell as [y x].
  intros (id & name & tiles & attrs & Hcell & Hattr & Hvalid & Hzero) Hatlas Hone.
  destruct (process_single_metatile_covered_empty renderer id name
              (primary_tileset td) (secondary_tileset td) tiles attrs
              (gs_atlas gs) Hattr Hvalid Hzero Hatlas)
    as (res & st' & Hrun & Hpair & Hatlas' & Htable & Hused & Hsub).
  unfold process_cell. cbn [fst snd] in Hcell. rewrite Hcell. cbn [bind].
  rewrite Hrun. cbn [bind]. eexists. split; [done|]. cbn.
  assert (∀ k v, (metatile_to_gid res ∪ gs_metatile_to_gid gs) !! k = Some v
                 → v = 1) as Hone'.
  { intros k v [Hk|[_ Hk]]%lookup_union_Some_raw; [|by eapply Hone].
    rewrite Hpair in Hk. by apply gid_pair_lookup in Hk as [[_ ->]|[_ ->]]. }
  split; [done|]. split; [done|]. split; [done|]. split; [done|].
  split.
  - apply map_subseteq_spec. intros k v Hk.
    apply lookup_union_Some_raw.
    destruct (metatile_to_gid res !! k) as [v'|] eqn:Hres; [|by right].
    left. f_equal. rewrite (Hone _ _ Hk).
    rewrite Hpair in Hres.
    by apply gid_pair_lookup in Hres as [[_ ->]|[_ ->]].
  - exists id, name, tiles, attrs. split; [done|]. split; [done|].
    split; [done|].
    split; apply lookup_union_Some_raw; left; rewrite Hpair.
    + apply (gid_pair_lookup_bottom (id, name, 1)).
    + apply (gid_pair_lookup_top (id, name, 1)).
Qed.

Lemma cell_compiled_mono (map_entries : list (list Z)) (td : tileset_data)
    (used1 used2 : gmap metatile_key (Image * Image))
    (m1 m2 : gmap gid_key Z) (cell : Z * Z) :
  used1 ⊆ used2 → m1 ⊆ m2 →
  cell_compiled map_entries td used1 m1 cell →
  cell_compiled map_entries td used2 m2 cell.
Proof.
  intros Hu Hm (id & name & tiles & attrs & H1 & H2 & H3 & H4 & H5).
  exists id, name, tiles, attrs.
  repeat split; try done; by eapply lookup_weaken.
Qed.

Lemma process_cells_covered_empty (renderer : MetatileRenderer)
    (map_entries : list (list Z)) (td : tileset_data) (cs : list (Z * Z))
    (gs : grid_state) :
  (∀ c, c ∈ cs → covered_empty_cell map_entries td c) →
  transparent_atlas (gs_atlas gs) →
  (∀ k v, gs_metatile_to_gid gs !! k = Some v → v = 1) →
  ∃ gs',
    foldlM (process_cell renderer map_entries td) gs cs = Ok gs'
    ∧ transparent_atlas (gs_atlas gs')
    ∧ (cs ≠ [] →
       image_to_gid (gs_atlas gs') = {[tobytes transparent_metatile := 1]})
    ∧ (∀ k v, gs_metatile_to_gid gs' !! k = Some v → v = 1)
    ∧ used_metatiles (gs_atlas gs) ⊆ used_metatiles (gs_atlas gs')
    ∧ gs_metatile_to_gid gs ⊆ gs_metatile_to_gid gs'
    ∧ ∀ c, c ∈ cs →
           cell_compiled map_entries td (used_metatiles (gs_atlas gs'))
             (gs_metatile_to_gid gs') c.
Proof.
  revert gs. induction cs as [|c cs IH]; intros gs Hcells Hatlas Hone.
  - exists gs. do 6 (split; [done|]). by intros c Hc%elem_of_nil.
  - destruct (process_cell_covered_empty renderer map_entries td gs c)
      as (gs1 & Hrun1 & Hatlas1 & Htable1 & Hone1 & Hu1 & Hm1 & Hc1);
      [apply Hcells; by left|done|done|].
    destruct (IH gs1) as (gs' & Hrun & Hatlas' & Htable' & Hone' & Hu & Hm & Hall);
      [intros c' Hc'; apply Hcells; by right|done|done|].
    exists gs'. cbn [foldlM]. rewrite Hrun1. cbn [bind].
    split; [done|]. split; [done|]. split.
    { intros _. destruct cs as [|c2 cs]; [by injection Hrun as <-|].
      by apply Htable'. }
    split; [done|]. split; [by etrans|]. split; [by etrans|].
    intros c' [->|Hc']%elem_of_cons; [|by apply Hall].
    by eapply cell_compiled_mono.
Qed.

(** ** Border corners leave the GIDs of rendered metatiles alone *)

Lemma border_extends_refl (bs : border_state) : border_extends bs bs.
Proof. by split. Qed.

Lemma border_extends_trans (bs1 bs2 bs3 : border_state) :
  border_extends bs1 bs2 → border_extends bs2 bs3 → border_extends bs1 bs3.
Proof.
  intros [Hu1 Hm1] [Hu2 Hm2]. split; [by etrans|].
  intros id name lt b [imgs Hk]. rewrite Hm2, Hm1; [done|by eexists|].
  exists imgs. by eapply lookup_weaken.
Qed.

Lemma assign_gid_used_metatiles (c : list Z) (st : atlas_state) :
  used_metatiles (assign_gid c st).2 = used_metatiles st.
Proof. unfold assign_gid. by destruct (image_to_gid st !! c). Qed.

Lemma process_border_corner_extends (renderer : MetatileRenderer)
    (border_data : list byte) (td : tileset_data) (bs bs' : border_state)
    (corner : nat * string) :
  process_border_corner renderer border_data td bs corner = Ok bs' →
  border_extends bs bs'.
Proof.
  destruct corner as [corner_idx corner_name]. unfold process_border_corner.
  case_bool_decide; [|intros [= <-]; apply border_extends_refl].
  intros (border_entry & _ & Hrun)%bind_Ok.
  destruct (determine_tileset_for_metatile _ _ _) as [bname bid].
  destruct (if bool_decide (bname = primary_tileset td) then _ else _)
    as [btiles battrs].
  apply bind_Ok in Hrun as (blt & _ & Hrun).
  set (key := (bid, bname, default 0 (battrs !! bid))) in *.
  destruct (bool_decide (used_metatiles (bs_atlas bs) !! key = None)
            && _ && _) eqn:Hcond.
  - apply andb_prop in Hcond as [Hcond _].
    apply andb_prop in Hcond as [Hnone%bool_decide_eq_true_1 _].
    destruct (render_metatile _ _ _ _ _) as [bottom top].
    match type of Hrun with
    | context [assign_gid ?c ?s] =>
        pose proof (assign_gid_used_metatiles c s) as Hu1;
        destruct (assign_gid c s) as [g1 st1]
    end.
    match type of Hrun with
    | context [assign_gid ?c ?s] =>
        pose proof (assign_gid_used_metatiles c s) as Hu2;
        destruct (assign_gid c s) as [g2 st2]
    end.
    cbn [fst snd] in *. injection Hrun as <-. split; cbn.
    + rewrite Hu2, Hu1. cbn. by apply insert_subseteq.
    + intros id name lt b [v Hk].
      assert ((id, name, lt) ≠ key) as Hne by congruence.
      rewrite !lookup_insert_ne; [done|congruence|congruence].
  - injection Hrun as <-. by split.
Qed.

Lemma fold_try_extends {B : Type} (f : border_state → B → result border_state)
    (bs : border_state) (l : list B) :
  (∀ bs1 x bs2, f bs1 x = Ok bs2 → border_extends bs1 bs2) →
  border_extends bs (fold_try f bs l).1.
Proof.
  intros Hf. revert bs. induction l as [|x l IH]; intros bs; simpl.
  - apply border_extends_refl.
  - destruct (f bs x) as [bs1|] eqn:Hx; [|apply border_extends_refl].
    eapply border_extends_trans; [by eapply Hf|apply IH].
Qed.

Lemma _process_border_metatiles_extends (renderer : MetatileRenderer)
    (border_file : option (list byte)) (td : tileset_data)
    (st : atlas_state) (m2g : gmap gid_key Z) :
  border_extends
    {| bs_atlas := st; bs_metatile_to_gid := m2g; bs_border_gids := [] |}
    (_process_border_metatiles renderer border_file td st m2g).1.
Proof.
  unfold _process_border_metatiles.
  destruct border_file as [border_data|]; [|apply border_extends_refl].
  case_bool_decide; [|apply border_extends_refl].
  pose proof (fold_try_extends
                (process_border_corner renderer border_data td)
                {| bs_atlas := st; bs_metatile_to_gid := m2g;
                   bs_border_gids := [] |}
                (imap (λ i c, (i, c)) border_corners)
                (λ bs1 x bs2,
                   process_border_corner_extends renderer border_data td
                     bs1 bs2 x)) as H'.
  by destruct (fold_try _ _ _).
Qed.

(** ** The layer pass returns *)

Lemma build_cell_Ok (map_entries : list (list Z)) (width : Z)
    (m2g : gmap gid_key Z) (td : tileset_data) (ls : map_layers)
    (cell : Z * Z) (n : nat)
    (r : Z * string * list tile_ref * gmap Z Z)
    (layer_type : MetatileLayerType) :
  layers_length ls n →
  0 ≤ cell.1 * width + cell.2 < Z.of_nat n →
  cell_metatile map_entries td cell.1 cell.2 = Ok r →
  MetatileLayerType_call (default 0 (r.2 !! r.1.1.1)) = Ok layer_type →
  ∃ ls', build_cell map_entries width m2g td ls cell = Ok ls'
         ∧ layers_length ls' n.
Proof.
  destruct cell as [y x], r as [[[id name] tiles] attrs]. cbn [fst snd].
  intros (H3 & H2 & H1) Hidx Hcell Hlt. unfold build_cell.
  rewrite Hcell. cbn [bind]. rewrite Hlt. cbn [bind].
  destruct layer_type;
    rewrite !py_setitem_in_range by lia; cbn [bind];
    eexists; (split; [done|]); unfold layers_length; cbn;
    by rewrite ?length_insert.
Qed.

Lemma build_cells_Ok (map_entries : list (list Z)) (width : Z)
    (m2g : gmap gid_key Z) (td : tileset_data) (cs : list (Z * Z))
    (ls : map_layers) (n : nat) :
  layers_length ls n →
  (∀ c, c ∈ cs →
        0 ≤ c.1 * width + c.2 < Z.of_nat n
        ∧ ∃ r layer_type,
            cell_metatile map_entries td c.1 c.2 = Ok r
            ∧ MetatileLayerType_call (default 0 (r.2 !! r.1.1.1))
              = Ok layer_type) →
  ∃ ls', foldlM (build_cell map_entries width m2g td) ls cs = Ok ls'
         ∧ layers_length ls' n.
Proof.
  revert ls. induction cs as [|c cs IH]; intros ls Hlen Hcs.
  - by exists ls.
  - destruct (Hcs c) as (Hidx & r & lt & Hcell & Hlt); [by left|].
    destruct (build_cell_Ok map_entries width m2g td ls c n r lt)
      as (ls1 & Hrun1 & Hlen1); [done..|].
    destruct (IH ls1) as (ls' & Hrun & Hlen'); [done| |].
    { intros c' Hc'. apply Hcs. by right. }
    exists ls'. cbn [foldlM]. rewrite Hrun1. by cbn [bind].
Qed.

Lemma cell_index_cover (width height : Z) (i : nat) :
  0 ≤ width → 0 ≤ height → (i < Z.to_nat (width * height))%nat →
  ∃ c, c ∈ cells width height ∧ cell_index width c = i.
Proof.
  intros Hw Hh Hi.
  assert (0 < width) as Hw' by nia.
  exists (Z.of_nat i `div` width, Z.of_nat i `mod` width). split.
  - apply elem_of_cells. split.
    + split; [apply Z.div_pos; lia|].
      apply Z.div_lt_upper_bound; [lia|]. nia.
    + by apply Z.mod_pos_bound.
  - unfold cell_index. cbn [fst snd].
    rewrite (Z.mul_comm _ width), <- Z.div_mod by lia. lia.
Qed.

Lemma layers_uniform (width height : Z) (ls : map_layers) (g o v : Z) :
  0 ≤ width → 0 ≤ height →
  layers_length ls (Z.to_nat (width * height)) →
  (∀ c, c ∈ cells width height →
        planes_at ls (cell_index width c) = (Some g, Some o, Some v)) →
  layer_data_bg3 ls = replicate (Z.to_nat (width * height)) g
  ∧ layer_data_bg2 ls = replicate (Z.to_nat (width * height)) o
  ∧ layer_data_bg1 ls = replicate (Z.to_nat (width * height)) v.
Proof.
  intros Hw Hh (H3 & H2 & H1) Hall.
  assert (∀ i, (i < Z.to_nat (width * height))%nat →
               planes_at ls i = (Some g, Some o, Some v)) as Hi.
  { intros i Hlt. destruct (cell_index_cover width height i)
      as (c & Hc & <-); [done..|]. by apply Hall. }
  repeat split; apply list_eq; intros i;
    destruct (decide (i < Z.to_nat (width * height))%nat) as [Hlt|Hge];
    try (specialize (Hi i Hlt); unfold planes_at in Hi;
         injection Hi as Hi3 Hi2 Hi1;
         by rewrite lookup_replicate_2 by done);
    rewrite !lookup_ge_None_2; try done; rewrite ?length_replicate; lia.
Qed.

(** C6 (as amended): for a map whose cells all hold a metatile of layer type
    Covered with tile id 0 in all eight references, compilation succeeds;
    the bottom and top composites of every cell are the fully transparent
    image and both receive GID 1 (one slot, since their bytes are equal);
    the Ground and Objects planes hold 1 at every cell and the Overhead
    plane holds 0 at every cell. *)
Theorem convert_map_covered_empty (renderer : MetatileRenderer)
    (map_entries : list (list Z)) (width height : Z) (td : tileset_data)
    (border_file : option (list byte)) :
  0 ≤ width →
  0 ≤ height →
  (∀ y x, 0 ≤ y < height → 0 ≤ x < width →
          covered_empty_cell map_entries td (y, x)) →
  ∃ gs bs layers,
    convert_map_with_metatiles renderer map_entries width height td border_file
    = Ok (gs, bs, layers)
    ∧ (∀ y x, 0 ≤ y < height → 0 ≤ x < width →
              cell_compiled map_entries td (used_metatiles (gs_atlas gs))
                (bs_metatile_to_gid bs) (y, x))
    ∧ (0 < width * height →
       image_to_gid (gs_atlas gs) = {[tobytes transparent_metatile := 1]})
    ∧ layer_data_bg3 layers = replicate (Z.to_nat (width * height)) 1
    ∧ layer_data_bg2 layers = replicate (Z.to_nat (width * height)) 1
    ∧ layer_data_bg1 layers = replicate (Z.to_nat (width * height)) 0.
Proof.
  intros Hw Hh Hcells.
  destruct (process_cells_covered_empty renderer map_entries td
              (cells width height) grid_state_init)
    as (gs & Hgrid & Hatlas & Htable & Hone & _ & _ & Hdone).
  { intros [y x] [? ?]%elem_of_cells. by apply Hcells. }
  { split; [intros key imgs; cbn; by rewrite lookup_empty|by left]. }
  { intros k v. cbn. by rewrite lookup_empty. }
  unfold convert_map_with_metatiles, _process_metatiles.
  rewrite Hgrid. cbn [bind].
  pose proof (_process_border_metatiles_extends renderer border_file td
                (gs_atlas gs) (gs_metatile_to_gid gs)) as [_ Hkeep].
  destruct (_process_border_metatiles renderer border_file td
              (gs_atlas gs) (gs_metatile_to_gid gs)) as [bs blog].
  cbn [fst bs_atlas bs_metatile_to_gid] in Hkeep.
  assert (∀ c, c ∈ cells width height →
               cell_compiled map_entries td (used_metatiles (gs_atlas gs))
                 (bs_metatile_to_gid bs) c) as Hdone'.
  { intros c (id & name & tiles & attrs & H1 & H2 & H3 & H4 & H5)%Hdone.
    exists id, name, tiles, attrs. split; [done|]. split; [done|].
    split; [done|]. by rewrite !Hkeep by by eexists. }
  unfold _build_map_layers.
  set (n := Z.to_nat (width * height)).
  set (ls0 := {| layer_data_bg3 := replicate n 0;
                 layer_data_bg2 := replicate n 0;
                 layer_data_bg1 := replicate n 0;
                 used_gids := _ |}).
  assert (layers_length ls0 n) as Hlen0
    by (unfold layers_length; cbn; by rewrite !length_replicate).
  destruct (build_cells_Ok map_entries width (bs_metatile_to_gid bs) td
              (cells width height) ls0 n Hlen0) as (layers & Hlayers & Hlen).
  { intros [y x] Hc. pose proof Hc as [? ?]%elem_of_cells.
    split; [cbn; subst n; nia|].
    apply Hdone' in Hc as (id & name & tiles & attrs & H1 & H2 & _).
    exists (id, name, tiles, attrs), COVERED. split; [done|].
    cbn [fst snd]. by rewrite H2. }
  rewrite Hlayers. cbn [bind]. exists gs, bs, layers. split; [done|].
  split; [intros y x Hy Hx; by apply Hdone', elem_of_cells|].
  split.
  { intros Hpos. apply Htable. intros Hnil.
    assert ((0, 0) ∈ cells width height) as Hin
      by (apply elem_of_cells; nia).
    rewrite Hnil in Hin. by apply elem_of_nil in Hin. }
  apply layers_uniform; [done..|].
  intros c Hc.
  apply build_cells_spec in Hlayers as [Hdist _].
  - destruct (Hdist c Hc)
      as (mid & name & tiles & attrs & lt & Hcell & Hlt & Hplanes).
    destruct (Hdone' c Hc)
      as (mid' & name' & tiles' & attrs' & Hcell' & Hattr & _ & Hb & Ht).
    rewrite Hcell in Hcell'. injection Hcell' as <- <- <- <-.
    rewrite Hattr in Hlt, Hplanes. cbn in Hlt. injection Hlt as <-.
    cbn [default from_option id] in Hplanes.
    by rewrite Hb, Ht in Hplanes.
  - intros [y x] [? ?]%elem_of_cells. cbn. nia.
  - apply NoDup_cell_indices.
  - intros [y x] [? ?]%elem_of_cells. apply planes_at_zeros.
    unfold cell_index. cbn. subst n. nia.
Qed.

Lemma sample_covered_cells (y x : Z) :
  0 ≤ y < 2 → 0 ≤ x < 2 →
  covered_empty_cell [[5; 5]; [5; 5]] sample_tileset_data_covered (y, x).
Proof.
  intros Hy Hx.
  exists 5, "General"%string, (replicate 48 (0, 0, 0)), {[5 := 1]}.
  assert (y = 0 ∨ y = 1) as [-> | ->] by lia;
    (assert (x = 0 ∨ x = 1) as [-> | ->] by lia);
    (split; [done|]); (split; [done|]); (split; [done|]);
    intros t Ht; vm_compute in Ht;
    repeat (apply elem_of_cons in Ht as [-> | Ht]; [done|]);
    by apply elem_of_nil in Ht.
Qed.

Lemma convert_map_covered_empty_witness :
  ∃ gs bs layers,
    convert_map_with_metatiles sample_renderer [[5; 5]; [5; 5]] 2 2
      sample_tileset_data_covered None
    = Ok (gs, bs, layers)
    ∧ (∀ y x, 0 ≤ y < 2 → 0 ≤ x < 2 →
              cell_compiled [[5; 5]; [5; 5]] sample_tileset_data_covered
                (used_metatiles (gs_atlas gs)) (bs_metatile_to_gid bs) (y, x))
    ∧ (0 < 2 * 2 →
       image_to_gid (gs_atlas gs) = {[tobytes transparent_metatile := 1]})
    ∧ layer_data_bg3 layers = replicate (Z.to_nat (2 * 2)) 1
    ∧ layer_data_bg2 layers = replicate (Z.to_nat (2 * 2)) 1
    ∧ layer_data_bg1 layers = replicate (Z.to_nat (2 * 2)) 0.
Proof.
  apply (convert_map_covered_empty sample_renderer [[5; 5]; [5; 5]] 2 2
           sample_tileset_data_covered None); [lia|lia|].
  apply sample_covered_cells.
Defined.

(** C6, counterexample to the claim as stated: on the 2x2 map of metatile 5
    the bottom and the top composite have equal bytes and receive the same
    GID 1, not two distinct ones. *)
Lemma covered_empty_same_slot :
  ∃ gs bs layers,
    convert_map_with_metatiles sample_renderer [[5; 5]; [5; 5]] 2 2
      sample_tileset_data_covered None
    = Ok (gs, bs, layers)
    ∧ used_metatiles (gs_atlas gs) !! (5, "General"%string, 1)
      = Some (transparent_metatile, transparent_metatile)
    ∧ bs_metatile_to_gid bs !! (5, "General"%string, 1, false) = Some 1
    ∧ bs_metatile_to_gid bs !! (5, "General"%string, 1, true) = Some 1
    ∧ layer_data_bg3 layers = [1; 1; 1; 1]
    ∧ layer_data_bg2 layers = [1; 1; 1; 1]
    ∧ layer_data_bg1 layers = [0; 0; 0; 0].
Proof.
  eexists _, _, _. split; [vm_compute; reflexivity|]. vm_compute. done.
Qed.

(** ** Animations *)

Lemma collect_animation_no_hits (set_iter : list Z → list Z) (used : gset Z)
    (t2g : gmap (Z * string) (list gid_mapping))
    (acc : list (metatile_key * list anim_info) * gmap metatile_key (list Z))
    (anim_name base_tileset : string) (adef : anim_def)
    (anim_data : gmap string frames_info) :
  animation_hits set_iter t2g adef base_tileset = [] →
  collect_animation set_iter used t2g acc
    (anim_name, adef, base_tileset, anim_data) = acc.
Proof. intros Hno. unfold collect_animation. by rewrite Hno. Qed.

Lemma record_hit_first (used : gset Z) (anim_name : string) (adef : anim_def)
    (finfo : frames_info) (g pos : Z) (key : metatile_key) :
  g ∈ used →
  record_hit used anim_name adef finfo ([], ∅) (g, key, pos)
  = ([(key, [anim_info_of anim_name adef finfo g pos])], {[key := [g]]}).
Proof.
  intros Hg. unfold record_hit.
  rewrite bool_decide_eq_false_2 by (intros Hn; by apply Hn).
  rewrite lookup_empty. cbn [default from_option dict_get filter list_filter
    head fmap option_fmap option_map].
  rewrite bool_decide_eq_false_2 by apply not_elem_of_nil.
  cbn [fmap list_fmap]. rewrite bool_decide_eq_false_2 by apply not_elem_of_nil.
  cbn [app dict_set]. by rewrite insert_empty.
Qed.

Lemma record_hit_again (used : gset Z) (anim_name : string) (adef : anim_def)
    (finfo : frames_info) (g pos : Z) (key : metatile_key) :
  g ∈ used →
  record_hit used anim_name adef finfo
    ([(key, [anim_info_of anim_name adef finfo g pos])], {[key := [g]]})
    (g, key, pos)
  = ([(key, [anim_info_of anim_name adef finfo g pos])], {[key := [g]]}).
Proof.
  intros Hg. unfold record_hit, dict_get.
  rewrite bool_decide_eq_false_2 by (intros Hn; by apply Hn).
  rewrite lookup_singleton_eq.
  cbn [filter list_filter fst]. rewrite decide_True by done.
  cbn [head fmap option_fmap option_map snd default from_option id list_fmap
    anim_info_of ai_name ai_tile_position].
  rewrite !bool_decide_eq_true_2 by (by apply list_elem_of_singleton).
  cbn [dict_set]. rewrite decide_True by done.
  by rewrite insert_singleton_eq.
Qed.

Lemma foldl_fixed {A B : Type} (f : A → B → A) (a : A) (l : list B) :
  (∀ x, x ∈ l → f a x = a) → foldl f a l = a.
Proof.
  induction l as [|x l IH]; intros Hf; [done|].
  cbn [foldl]. rewrite Hf by left. apply IH. intros y Hy. apply Hf. by right.
Qed.

Lemma record_hits_single (used : gset Z) (anim_name : string) (adef : anim_def)
    (finfo : frames_info) (g pos : Z) (key : metatile_key)
    (hits : list gid_mapping) :
  g ∈ used →
  hits ≠ [] →
  (∀ hit, hit ∈ hits → hit = (g, key, pos)) →
  foldl (record_hit used anim_name adef finfo) ([], ∅) hits
  = ([(key, [anim_info_of anim_name adef finfo g pos])], {[key := [g]]}).
Proof.
  intros Hg Hne Hall. destruct hits as [|hit hits]; [done|].
  cbn [foldl]. rewrite (Hall hit) by left. rewrite record_hit_first by done.
  apply foldl_fixed. intros hit' Hin.
  rewrite (Hall hit') by (by right). by apply record_hit_again.
Qed.

Lemma collect_animations_single (set_iter : list Z → list Z) (used : gset Z)
    (t2g : gmap (Z * string) (list gid_mapping))
    (pre post : list (string * anim_def * string * gmap string frames_info))
    (anim_name base_tileset : string) (adef : anim_def)
    (anim_data : gmap string frames_info) (finfo : frames_info)
    (g pos : Z) (key : metatile_key) :
  (∀ e, e ∈ pre ++ post → animation_hits set_iter t2g e.1.1.2 e.1.2 = []) →
  animation_hits set_iter t2g adef base_tileset ≠ [] →
  (∀ hit, hit ∈ animation_hits set_iter t2g adef base_tileset →
          hit = (g, key, pos)) →
  g ∈ used →
  anim_data !! anim_name = Some finfo →
  frames finfo ≠ [] →
  foldl (collect_animation set_iter used t2g) ([], ∅)
    (pre ++ (anim_name, adef, base_tileset, anim_data) :: post)
  = ([(key, [anim_info_of anim_name adef finfo g pos])], {[key := [g]]}).
Proof.
  intros Hothers Hne Hall Hg Hdata Hframes.
  rewrite foldl_app. rewrite (foldl_fixed _ _ pre).
  2:{ intros [[[n' d'] b'] a'] Hin. apply collect_animation_no_hits.
      apply (Hothers (n', d', b', a')). apply elem_of_app. by left. }
  cbn [foldl].
  replace (collect_animation set_iter used t2g ([], ∅)
             (anim_name, adef, base_tileset, anim_data))
    with ([(key, [anim_info_of anim_name adef finfo g pos])],
          ({[key := [g]]} : gmap metatile_key (list Z))).
  - apply foldl_fixed. intros [[[n' d'] b'] a'] Hin.
    apply collect_animation_no_hits.
    apply (Hothers (n', d', b', a')). apply elem_of_app. by right.
  - unfold collect_animation. rewrite Hdata.
    destruct (animation_hits set_iter t2g adef base_tileset) as [|h hs] eqn:Hh;
      [done|].
    destruct (frames finfo) as [|f fs] eqn:Hf; [done|].
    symmetry. apply record_hits_single; [done|done|].
    intros hit Hin. by apply Hall.
Qed.

Lemma consecutive_ids_cons (first : Z) (n : nat) :
  consecutive_ids first (S n) = first :: consecutive_ids (first + 1) n.
Proof.
  unfold consecutive_ids. cbn [seq fmap list_fmap].
  rewrite Z.add_0_r. f_equal. rewrite <- fmap_S_seq, <- list_fmap_compose.
  apply list_fmap_ext. intros _ i _. cbn. lia.
Qed.

Lemma store_frame_spec (cols : Z) (m : list Z) (st : anim_state) (img : Image) :
  ∃ st', store_frame cols (m, st) img = (m ++ [as_next_gid st - 1], st')
         ∧ as_next_gid st' = as_next_gid st + 1
         ∧ same_animations st st'.
Proof. unfold store_frame, add_frame. eexists. by split. Qed.

Lemma store_frames_spec (cols : Z) (imgs : list Image) (m : list Z)
    (st : anim_state) :
  ∃ st', foldl (store_frame cols) (m, st) imgs
         = (m ++ consecutive_ids (as_next_gid st - 1) (length imgs), st')
         ∧ as_next_gid st' = as_next_gid st + Z.of_nat (length imgs)
         ∧ same_animations st st'.
Proof.
  revert m st. induction imgs as [|img imgs IH]; intros m st.
  - exists st. cbn. rewrite app_nil_r. split; [done|]. split; [lia|by split].
  - destruct (store_frame_spec cols m st img) as (st1 & Hs & Hn & Ha1 & Hf1).
    destruct (IH (m ++ [as_next_gid st - 1]) st1)
      as (st' & Hrun & Hn' & Ha' & Hf').
    exists st'. cbn [foldl length]. rewrite Hs, Hrun, Hn, consecutive_ids_cons.
    rewrite <- (assoc_L (++)). cbn [app].
    replace (as_next_gid st + 1 - 1) with (as_next_gid st - 1 + 1) by lia.
    split; [done|]. split; [lia|]. split; congruence.
Qed.

Lemma actual_frame_Ok (t : anim_tile) (frame_num : Z) :
  ∃ frame, actual_frame t frame_num = Ok frame.
Proof.
  unfold actual_frame. destruct (at_frame_seq t) as [[|i order]|].
  - destruct (_ && _); [destruct (_ >? 0)|]; by eexists.
  - set (l := i :: order).
    assert (0 < Z.of_nat (length l)) as Hlen by (cbn; lia).
    pose proof (Z.mod_pos_bound frame_num _ Hlen) as Hmod.
    destruct (lookup_lt_is_Some_2 l
                (Z.to_nat (frame_num `mod` Z.of_nat (length l))))
      as [frame Hframe]; [lia|].
    exists frame. apply py_index_Ok; [lia|done].
  - destruct (_ && _); [destruct (_ >? 0)|]; by eexists.
Qed.

Lemma composite_frame_Ok (base : Image) (tiles : list (Z * anim_tile))
    (frame_num : Z) :
  ∃ img, composite_frame base tiles frame_num = Ok img.
Proof.
  unfold composite_frame. revert base.
  induction tiles as [|[pos t] tiles IH]; intros base; [by eexists|].
  cbn [foldlM]. destruct (actual_frame_Ok t frame_num) as [frame ->].
  cbn [bind]. destruct (_ && _); [destruct (at_frames t !! _)|]; apply IH.
Qed.

Lemma bottom_frames_spec (cols : Z) (base_bottom base_top : Image)
    (all_bottom_tiles all_top_tiles : list (Z * anim_tile))
    (frame_nums : list Z) (m : list Z) (st : anim_state) :
  ∃ st',
    foldlM (bottom_frame_step cols base_bottom base_top
              all_bottom_tiles all_top_tiles) (m, st) frame_nums
    = Ok (m ++ consecutive_ids (as_next_gid st - 1) (length frame_nums), st')
    ∧ as_next_gid st' = as_next_gid st + Z.of_nat (length frame_nums)
    ∧ same_animations st st'.
Proof.
  revert m st. induction frame_nums as [|k ks IH]; intros m st.
  - exists st. cbn. rewrite app_nil_r. split; [done|]. split; [lia|by split].
  - destruct (composite_frame_Ok base_bottom all_bottom_tiles k) as [cb Hcb].
    destruct (composite_frame_Ok base_top all_top_tiles k) as [ct Hct].
    destruct (store_frame_spec cols m st cb) as (st1 & Hs & Hn & Ha1 & Hf1).
    destruct (IH (m ++ [as_next_gid st - 1]) st1)
      as (st' & Hrun & Hn' & Ha' & Hf').
    exists st'. cbn [foldlM length]. unfold bottom_frame_step at 1.
    rewrite Hcb, Hct. cbn [bind]. rewrite Hs, Hrun, Hn, consecutive_ids_cons.
    rewrite <- (assoc_L (++)). cbn [app].
    replace (as_next_gid st + 1 - 1) with (as_next_gid st - 1 + 1) by lia.
    split; [done|]. split; [lia|]. split; congruence.
Qed.

Lemma split_layers_single (tiles : list tile_ref) (info : anim_info)
    (tile_id flip_flags pal : Z) :
  0 ≤ ai_tile_position info < 4 →
  tiles !! Z.to_nat (ai_tile_position info) = Some (tile_id, flip_flags, pal) →
  in_animated_tile_range info tile_id = true →
  split_layers tiles [info]
  = Ok ([(ai_tile_position info, anim_tile_of tile_id flip_flags info)], [],
        [ai_layer_gid info], []).
Proof.
  intros Hpos Htile Hrange. unfold split_layers. cbn [foldlM].
  rewrite (py_index_Ok tiles _ _ (proj1 Hpos) Htile). cbn [bind].
  rewrite Hrange. cbn [negb].
  by replace (ai_tile_position info <? 4) with true by lia.
Qed.

Lemma frames_and_duration_single (pos : Z) (t : anim_tile) :
  at_frame_seq t = Some [0; 1; 0; 2] →
  frames_and_duration [(pos, t)] = (4, at_duration_ms t).
Proof.
  intros Hseq. unfold frames_and_duration, num_frames_of. cbn [foldl].
  rewrite Hseq. f_equal. by repeat case_bool_decide.
Qed.

Lemma strip_animation_single (set_iter : list Z → list Z) (cols : Z)
    (used : gset Z) (key : metatile_key) (base_bottom base_top : Image)
    (tiles : list tile_ref) (info : anim_info)
    (tile_id flip_flags pal : Z) (st : anim_state) :
  set_iter [ai_layer_gid info] = [ai_layer_gid info] →
  0 ≤ ai_tile_position info < 4 →
  ai_layer_gid info ∈ used →
  tiles !! Z.to_nat (ai_tile_position info) = Some (tile_id, flip_flags, pal) →
  in_animated_tile_range info tile_id = true →
  ai_frame_sequence info = Some [0; 1; 0; 2] →
  ∃ st',
    strip_animation set_iter cols used key base_bottom base_top tiles
      [info] st = Ok st'
    ∧ as_animations st'
      = as_animations st
        ++ [(ai_layer_gid info - 1,
             (λ tileid, (tileid, ai_duration_ms info))
               <$> consecutive_ids (as_next_gid st - 1) 4)].
Proof.
  intros Hiter Hpos Hg Htile Hrange Hseq. unfold strip_animation.
  rewrite (split_layers_single tiles info tile_id flip_flags pal) by done.
  cbn [bind app]. rewrite frames_and_duration_single by done.
  change (4 >? 0) with true. cbn match.
  destruct (bottom_frames_spec cols base_bottom base_top
              [(ai_tile_position info, anim_tile_of tile_id flip_flags info)]
              [] (range 4) [] st) as (st1 & Hrun & _ & Ha & _).
  rewrite Hrun. cbn [bind app length range]. rewrite Hiter.
  cbn [foldl]. unfold apply_bottom_animation.
  rewrite bool_decide_eq_true_2 by done.
  eexists. split; [reflexivity|]. cbn [as_animations anim_tile_of
    at_duration_ms]. by rewrite Ha.
Qed.

Lemma lookup_consecutive_ids (first : Z) (n i : nat) :
  (i < n)%nat → consecutive_ids first n !! i = Some (first + Z.of_nat i).
Proof.
  intros Hi. unfold consecutive_ids.
  by rewrite list_lookup_fmap, lookup_seq_lt.
Qed.

Lemma metatile_animation_single (cols : Z) (used : gset Z) (key : metatile_key)
    (info : anim_info) (st : anim_state) :
  ai_layer_gid info ∈ used →
  ai_frame_sequence info = Some [0; 1; 0; 2] →
  (3 ≤ length (ai_frames info))%nat →
  as_animations (metatile_animation cols used key info st)
  = as_animations st
    ++ [(ai_layer_gid info - 1,
         flower_frame_pairs true (as_next_gid st - 1) (ai_duration_ms info))].
Proof.
  intros Hg Hseq Hlen. unfold metatile_animation.
  destruct (store_frames_spec cols (ai_frames info) [] st)
    as (st1 & Hrun & _ & Ha & _).
  rewrite Hrun, Hseq. cbn [app mbind list_bind].
  change (0 <=? 0) with true. change (0 <=? 1) with true.
  change (0 <=? 2) with true. cbn match.
  rewrite !lookup_consecutive_ids by (cbn; lia).
  cbn [app Z.to_nat Z.of_nat]. rewrite Z.add_0_r.
  rewrite bool_decide_eq_true_2 by done.
  rewrite bool_decide_eq_true_2 by done.
  cbn [andb as_animations]. by rewrite Ha.
Qed.

Lemma deduplicate_animations_single (anim : animation_entry) :
  deduplicate_animations [anim] = [anim].
Proof.
  unfold deduplicate_animations. cbn [foldl].
  by rewrite bool_decide_eq_false_2 by apply not_elem_of_empty.
Qed.

Lemma set_iter_singleton (set_iter : list Z → list Z) (g : Z) :
  (∀ l, set_iter l ≡ₚ remove_dups l) → set_iter [g] = [g].
Proof.
  intros Hperm. specialize (Hperm [g]).
  change (remove_dups [g]) with [g] in Hperm.
  by apply Permutation_singleton_r in Hperm.
Qed.

(** C7 (as amended): when exactly one catalog animation touches the map, at
    one position of the bottom half of one metatile, and its playback order
    is [0, 1, 0, 2], there is exactly one animation entry; it is keyed by the
    tile id of the bottom composite (its GID minus 1) and has exactly four
    (tile id, duration) pairs. No frame goes through the deduplicator: the
    frames are numbered consecutively from the first free tile index.
    Pre-rendered 16x16 frames are stored once each and indexed by the
    playback order, so positions 0 and 2 share one id; the composites of a
    tile-strip animation are stored once per playback step, so positions 0
    and 2 carry different ids. *)
Theorem build_metatile_animations_one_animated_tile
    (set_iter : list Z → list Z) (scanner : AnimationScanner)
    (primary secondary : string)
    (used_mt : gmap metatile_key (Image * Image)) (used : gset Z)
    (t2g : gmap (Z * string) (list gid_mapping))
    (composition : gmap metatile_key (list tile_ref))
    (tileset_image : Image) (current_tile_idx cols : Z)
    (pre post : list (string * anim_def * string * gmap string frames_info))
    (anim_name base_tileset : string) (adef : anim_def)
    (anim_data : gmap string frames_info) (finfo : frames_info)
    (bottom_gid pos tile_id flip_flags pal : Z) (key : metatile_key)
    (base_bottom base_top : Image) (tiles : list tile_ref) :
  (∀ l, set_iter l ≡ₚ remove_dups l) →
  all_anim_defs scanner primary secondary
  = pre ++ (anim_name, adef, base_tileset, anim_data) :: post →
  (∀ e, e ∈ pre ++ post → animation_hits set_iter t2g e.1.1.2 e.1.2 = []) →
  animation_hits set_iter t2g adef base_tileset ≠ [] →
  (∀ hit, hit ∈ animation_hits set_iter t2g adef base_tileset →
          hit = (bottom_gid, key, pos)) →
  0 ≤ pos < 4 →
  bottom_gid ∈ used →
  anim_data !! anim_name = Some finfo →
  frame_sequence finfo = Some [0; 1; 0; 2] →
  (if is_metatile finfo then (3 ≤ length (frames finfo))%nat
   else frames finfo ≠ []) →
  used_mt !! key = Some (base_bottom, base_top) →
  composition !! key = Some tiles →
  tiles !! Z.to_nat pos = Some (tile_id, flip_flags, pal) →
  actual_base_tile_id adef ≤ tile_id
    < actual_base_tile_id adef + num_tiles adef →
  ∃ frames_gids image,
    _build_metatile_animations set_iter scanner primary secondary used_mt used
      t2g composition tileset_image current_tile_idx cols
    = Ok ([(bottom_gid - 1,
            flower_frame_pairs (is_metatile finfo) current_tile_idx
              (duration_ms finfo))],
          frames_gids, image).
Proof.
  intros Hperm Hdefs Hothers Hhits Hall Hpos Hg Hdata Hseq Hframes Hused Hcomp
    Htile Hrange.
  unfold _build_metatile_animations. rewrite Hdefs.
  destruct (pre ++ (anim_name, adef, base_tileset, anim_data) :: post)
    as [|e es] eqn:Hlist; [by destruct pre|].
  rewrite <- Hlist.
  rewrite (collect_animations_single set_iter used t2g pre post anim_name
             base_tileset adef anim_data finfo bottom_gid pos key);
    try done.
  2:{ destruct (is_metatile finfo); [|done].
      intros Hnil. rewrite Hnil in Hframes. cbn in Hframes. lia. }
  cbn [foldlM]. unfold animate_metatile.
  rewrite lookup_singleton_eq, Hused, Hcomp. cbn [default from_option id].
  set (info := anim_info_of anim_name adef finfo bottom_gid pos).
  set (st0 := {| as_tileset_image := tileset_image;
                 as_next_gid := current_tile_idx + 1;
                 as_animations := [];
                 as_animation_frames_gids := ∅ |}).
  cbn [filter list_filter]. unfold decide, decide_rel. cbn [ai_is_metatile info
    anim_info_of].
  destruct (is_metatile finfo) eqn:Hmeta.
  - cbn [bool_eq_dec bool_rec bool_rect]. cbn [bind].
    do 2 eexists. f_equal. f_equal. f_equal.
    rewrite (metatile_animation_single cols used key info st0) by done.
    cbn [as_animations st0 app as_next_gid info anim_info_of ai_layer_gid
      ai_duration_ms]. rewrite Z.add_simpl_r.
    apply deduplicate_animations_single.
  - cbn [bool_eq_dec bool_rec bool_rect].
    destruct (strip_animation_single set_iter cols used key base_bottom
                base_top tiles info tile_id flip_flags pal st0)
      as (st' & Hrun & Hanims); try done.
    + by apply set_iter_singleton.
    + unfold in_animated_tile_range. cbn. lia.
    + rewrite Hrun. cbn [bind]. do 2 eexists. f_equal. f_equal. f_equal.
      rewrite Hanims.
      cbn [as_animations st0 app as_next_gid info anim_info_of ai_layer_gid
        ai_duration_ms]. rewrite Z.add_simpl_r.
      rewrite deduplicate_animations_single. unfold flower_frame_pairs.
      do 2 f_equal. unfold consecutive_ids. cbn.
      by rewrite Z.add_0_r.
Qed.

Lemma build_metatile_animations_one_animated_tile_witness :
  ∃ frames_gids image,
    _build_metatile_animations remove_dups (sample_scanner sample_flower_strip)
      "General" "Petalburg" sample_animated_used_metatiles {[1]}
      sample_animated_tile_id_to_gids sample_animated_composition
      (Image_new 256 16 (0, 0, 0, 0)) 1 16
    = Ok ([(1 - 1, flower_frame_pairs false 1 133)], frames_gids, image).
Proof.
  apply (build_metatile_animations_one_animated_tile remove_dups
           (sample_scanner sample_flower_strip) "General" "Petalburg"
           sample_animated_used_metatiles {[1]}
           sample_animated_tile_id_to_gids sample_animated_composition
           (Image_new 256 16 (0, 0, 0, 0)) 1 16 [] []
           "flower" "General" sample_flower {["flower" := sample_flower_strip]}
           sample_flower_strip 1 0 1 0 0 sample_animated_key
           (Image_new 16 16 (9, 9, 9, 255)) transparent_metatile
           ((1, 0, 0) :: replicate 7 (0, 0, 0))).
  - reflexivity.
  - reflexivity.
  - intros e He. by apply elem_of_nil in He.
  - vm_compute. discriminate.
  - intros hit Hhit. vm_compute in Hhit.
    by apply list_elem_of_singleton in Hhit.
  - lia.
  - by apply elem_of_singleton.
  - reflexivity.
  - reflexivity.
  - vm_compute. discriminate.
  - reflexivity.
  - reflexivity.
  - reflexivity.
  - cbn. lia.
Defined.

(** C7, counterexample to the claim as stated: a 1x1 map of a metatile whose
    bottom half holds the one animated tile of a tile-strip animation with
    playback order [0, 1, 0, 2]. The bottom composite has GID 1 and lies on
    the Objects plane; the one animation entry is keyed by tile id 0 (GID 1)
    and has four frames, with the tile ids 2, 3, 4 and 5: the frames at
    playback positions 0 and 2 carry different ids. *)
Lemma strip_animation_frames_not_shared :
  ∃ layers,
    compile_map (λ l, l) sample_renderer (sample_scanner sample_flower_strip)
      [[0]] 1 1 sample_tileset_data_animated None
    = Ok (layers, [(0, [(2, 133); (3, 133); (4, 133); (5, 133)])])
    ∧ layer_data_bg2 layers = [1]
    ∧ layer_data_bg1 layers = [2]
    ∧ layer_data_bg3 layers = [0].
Proof. eexists. split; [vm_compute; reflexivity|]. vm_compute. done. Qed.

(** The same map with the animation given as pre-rendered 16x16 frames: the
    three frames are stored once each and positions 0 and 2 share tile id 2. *)
Lemma metatile_animation_frames_shared :
  ∃ layers,
    compile_map (λ l, l) sample_renderer
      (sample_scanner sample_flower_metatile)
      [[0]] 1 1 sample_tileset_data_animated None
    = Ok (layers, [(0, [(2, 133); (3, 133); (2, 133); (4, 133)])])
    ∧ layer_data_bg2 layers = [1].
Proof. eexists. split; [vm_compute; reflexivity|]. vm_compute. done. Qed.

(** ** Deduplication over a whole grid pass *)

Lemma atlas_inv_set_used_metatile (key : metatile_key) (imgs : Image * Image)
    (st : atlas_state) :
  atlas_inv st → atlas_inv (set_used_metatile key imgs st).
Proof. done. Qed.

Lemma gids_consistent_mono (st st' : atlas_state) (m2g : gmap gid_key Z) :
  used_metatiles st ⊆ used_metatiles st' →
  image_to_gid st ⊆ image_to_gid st' →
  gids_consistent st m2g → gids_consistent st' m2g.
Proof.
  intros Hu Ht Hc k g Hk. destruct (Hc k g Hk) as (img & Himg & Hg).
  exists img. split; [|by eapply lookup_weaken].
  unfold composite_of in *.
  destruct (used_metatiles st !! k.1) as [imgs|] eqn:Hk1; [|done].
  by rewrite (lookup_weaken _ _ _ _ Hk1 Hu).
Qed.

Lemma gids_consistent_pair (st : atlas_state) (key : metatile_key)
    (bottom_img top_img : Image) (bottom_gid top_gid : Z) :
  used_metatiles st !! key = Some (bottom_img, top_img) →
  image_to_gid st !! tobytes bottom_img = Some bottom_gid →
  image_to_gid st !! tobytes top_img = Some top_gid →
  gids_consistent st (gid_pair key bottom_gid top_gid).
Proof.
  intros Hused Hb Ht k g [[-> ->]|[-> ->]]%gid_pair_lookup;
    unfold composite_of; cbn [fst snd]; rewrite Hused; cbn; by eexists.
Qed.

(** Recording a freshly rendered pair and internalizing its two images. *)
Lemma record_and_assign (key : metatile_key) (bottom_img top_img : Image)
    (st : atlas_state) :
  atlas_inv st →
  composites_internalized st →
  used_metatiles st !! key = None →
  let st1 := set_used_metatile key (bottom_img, top_img) st in
  let r1 := assign_gid (tobytes bottom_img) st1 in
  let r2 := assign_gid (tobytes top_img) r1.2 in
  atlas_inv r2.2
  ∧ composites_internalized r2.2
  ∧ used_metatiles st ⊆ used_metatiles r2.2
  ∧ image_to_gid st ⊆ image_to_gid r2.2
  ∧ gids_consistent r2.2 (gid_pair key r1.1 r2.1).
Proof.
  intros Hinv Hint Hnone st1 r1 r2.
  destruct (assign_gid_spec (tobytes bottom_img) st1) as
    (Hinv1 & Hb & Hsub1 & _ & Hu1); [done|].
  destruct (assign_gid_spec (tobytes top_img) r1.2 Hinv1) as
    (Hinv2 & Ht & Hsub2 & _ & Hu2).
  fold r1 in Hinv1, Hb, Hsub1, Hu1. fold r2 in Hinv2, Ht, Hsub2, Hu2.
  assert (used_metatiles r2.2
          = <[key := (bottom_img, top_img)]> (used_metatiles st)) as Hu
    by (by rewrite Hu2, Hu1).
  assert (image_to_gid st ⊆ image_to_gid r2.2) as Hsub
    by (by etrans; [apply Hsub1|]).
  split; [done|]. split; [|split; [|split; [done|]]].
  - intros key' imgs. rewrite Hu.
    intros [[<- <-]|[_ Hk]]%lookup_insert_Some; cbn [fst snd].
    + split; eexists; [by eapply lookup_weaken|done].
    + destruct (Hint _ _ Hk) as [[v1 H1] [v2 H2]].
      split; eexists; by eapply lookup_weaken.
  - rewrite Hu. by apply insert_subseteq.
  - apply (gids_consistent_pair _ key bottom_img top_img).
    + by rewrite Hu, lookup_insert_eq.
    + by eapply lookup_weaken.
    + done.
Qed.

Lemma empty_metatile_dedup (key : metatile_key) (st : atlas_state) :
  atlas_inv st →
  composites_internalized st →
  used_metatiles st !! key = None →
  atlas_inv (empty_metatile key st).2
  ∧ composites_internalized (empty_metatile key st).2
  ∧ used_metatiles st ⊆ used_metatiles (empty_metatile key st).2
  ∧ image_to_gid st ⊆ image_to_gid (empty_metatile key st).2
  ∧ gids_consistent (empty_metatile key st).2
      (metatile_to_gid (empty_metatile key st).1).
Proof.
  intros Hinv Hint Hnone. unfold empty_metatile.
  set (E := Image_new METATILE_SIZE METATILE_SIZE (0, 0, 0, 0)).
  set (st1 := set_used_metatile key (E, E) st).
  destruct (assign_gid_spec (tobytes E) st1) as
    (Hinv1 & Hb & Hsub1 & _ & Hu1); [done|].
  destruct (assign_gid (tobytes E) st1) as [g st2]. cbn [fst snd] in *.
  assert (used_metatiles st2 = <[key := (E, E)]> (used_metatiles st)) as Hu
    by done.
  split; [done|]. split; [|split; [|split; [done|]]].
  - intros key' imgs. rewrite Hu.
    intros [[<- <-]|[_ Hk]]%lookup_insert_Some; cbn [fst snd].
    + split; by eexists.
    + destruct (Hint _ _ Hk) as [[v1 H1] [v2 H2]].
      split; eexists; by eapply lookup_weaken.
  - rewrite Hu. by apply insert_subseteq.
  - apply (gids_consistent_pair _ key E E); [|done..].
    by rewrite Hu, lookup_insert_eq.
Qed.

Lemma process_single_metatile_dedup (renderer : MetatileRenderer)
    (actual_metatile_id : Z) (tileset_name primary secondary : string)
    (tiles : list tile_ref) (attributes : gmap Z Z)
    (st st' : atlas_state) (res : metatile_result) :
  process_single_metatile renderer actual_metatile_id tileset_name tiles
    attributes primary secondary st = Ok (res, st') →
  atlas_inv st →
  composites_internalized st →
  atlas_inv st'
  ∧ composites_internalized st'
  ∧ used_metatiles st ⊆ used_metatiles st'
  ∧ image_to_gid st ⊆ image_to_gid st'
  ∧ gids_consistent st' (metatile_to_gid res).
Proof.
  intros Hrun Hinv Hint. unfold process_single_metatile in Hrun.
  apply bind_Ok in Hrun as (layer_type & _ & Hrun).
  set (key := (actual_metatile_id, tileset_name,
               default 0 (attributes !! actual_metatile_id))) in *.
  assert (∀ bottom_img top_img,
            used_metatiles st !! key = Some (bottom_img, top_img) →
            ∃ gb gt, image_to_gid st !! tobytes bottom_img = Some gb
                     ∧ image_to_gid st !! tobytes top_img = Some gt) as Hfound.
  { intros b t Hk. destruct (Hint _ _ Hk) as [[gb Hb] [gt Ht]].
    by exists gb, gt. }
  assert (∀ r : metatile_result * atlas_state,
            r = empty_metatile key st →
            used_metatiles st !! key = None →
            atlas_inv r.2 ∧ composites_internalized r.2
            ∧ used_metatiles st ⊆ used_metatiles r.2
            ∧ image_to_gid st ⊆ image_to_gid r.2
            ∧ gids_consistent r.2 (metatile_to_gid r.1)) as Hempty.
  { intros r -> Hnone. by apply empty_metatile_dedup. }
  destruct (negb (validate_metatile_bounds actual_metatile_id tiles)).
  - destruct (used_metatiles st !! key) as [[bottom_img top_img]|] eqn:Hused.
    + destruct (Hfound _ _ eq_refl) as (gb & gt & Hb & Ht).
      rewrite Hb, Ht in Hrun. cbn [default from_option id] in Hrun.
      injection Hrun as <- <-. cbn [metatile_to_gid].
      do 4 (split; [done|]).
      exact (gids_consistent_pair st key bottom_img top_img gb gt Hused Hb Ht).
    + injection Hrun as Hrun. by apply (Hempty (res, st')).
  - destruct (bool_decide (Z.of_nat _ ≠ NUM_TILES_PER_METATILE)
              && bool_decide (used_metatiles st !! key = None)) eqn:Hcond.
    { apply andb_prop in Hcond as [_ Hnone%bool_decide_eq_true_1].
      injection Hrun as Hrun. by apply (Hempty (res, st')). }
    clear Hcond.
    destruct (used_metatiles st !! key) as [[bottom_img top_img]|] eqn:Hused.
    + destruct (Hfound _ _ eq_refl) as (gb & gt & Hb & Ht).
      rewrite Hb, Ht in Hrun. injection Hrun as <- <-. cbn [metatile_to_gid].
      do 4 (split; [done|]).
      exact (gids_consistent_pair st key bottom_img top_img gb gt Hused Hb Ht).
    + destruct (render_metatile _ _ _ _ _) as [obottom otop].
      match type of Hrun with
      | context [assign_gid (tobytes ?b) (set_used_metatile _ (_, ?t) _)] =>
          pose proof (record_and_assign key b t st Hinv Hint Hused) as Hrec;
          cbv zeta in Hrec;
          destruct (assign_gid (tobytes b) (set_used_metatile key (b, t) st))
            as [g1 st2];
          cbn [fst snd] in Hrec, Hrun;
          destruct (assign_gid (tobytes t) st2) as [g2 st3]
      end.
      cbn [fst snd] in Hrec. by injection Hrun as <- <-.
Qed.

Lemma process_cell_dedup (renderer : MetatileRenderer)
    (map_entries : list (list Z)) (td : tileset_data) (gs gs' : grid_state)
    (cell : Z * Z) :
  process_cell renderer map_entries td gs cell = Ok gs' →
  atlas_inv (gs_atlas gs) →
  composites_internalized (gs_atlas gs) →
  gids_consistent (gs_atlas gs) (gs_metatile_to_gid gs) →
  atlas_inv (gs_atlas gs')
  ∧ composites_internalized (gs_atlas gs')
  ∧ gids_consistent (gs_atlas gs') (gs_metatile_to_gid gs').
Proof.
  destruct cell as [y x]. unfold process_cell. intros Hrun Hinv Hint Hcons.
  apply bind_Ok in Hrun as ([[[mid name] tiles] attrs] & _ & Hrun).
  apply bind_Ok in Hrun as ([res st] & Hsingle & Hrun).
  injection Hrun as <-. cbn [gs_atlas gs_metatile_to_gid].
  destruct (process_single_metatile_dedup _ _ _ _ _ _ _ _ _ _ Hsingle Hinv Hint)
    as (Hinv' & Hint' & Hu & Ht & Hres).
  split; [done|]. split; [done|].
  intros k g [Hk|[_ Hk]]%lookup_union_Some_raw; [by apply Hres|].
  by eapply gids_consistent_mono.
Qed.

Lemma process_cells_dedup (renderer : MetatileRenderer)
    (map_entries : list (list Z)) (td : tileset_data) (cs : list (Z * Z))
    (gs gs' : grid_state) :
  foldlM (process_cell renderer map_entries td) gs cs = Ok gs' →
  atlas_inv (gs_atlas gs) →
  composites_internalized (gs_atlas gs) →
  gids_consistent (gs_atlas gs) (gs_metatile_to_gid gs) →
  atlas_inv (gs_atlas gs')
  ∧ composites_internalized (gs_atlas gs')
  ∧ gids_consistent (gs_atlas gs') (gs_metatile_to_gid gs').
Proof.
  revert gs. induction cs as [|c cs IH]; intros gs Hrun Hinv Hint Hcons.
  - by injection Hrun as <-.
  - cbn [foldlM] in Hrun. apply bind_Ok in Hrun as (gs1 & Hc & Hrun).
    destruct (process_cell_dedup _ _ _ _ _ _ Hc Hinv Hint Hcons)
      as (Hinv1 & Hint1 & Hcons1).
    by apply (IH gs1).
Qed.

(** Over a whole grid pass: two entries of [metatile_to_gid] hold the same
    GID exactly when their composites have the same bytes, whichever
    metatile and half produced them, and no GID is below 1. *)
Lemma process_metatiles_deduplicates (renderer : MetatileRenderer)
    (map_entries : list (list Z)) (width height : Z) (td : tileset_data)
    (gs : grid_state) (k1 k2 : gid_key) (g1 g2 : Z) (img1 img2 : Image) :
  _process_metatiles renderer map_entries width height td = Ok gs →
  gs_metatile_to_gid gs !! k1 = Some g1 →
  gs_metatile_to_gid gs !! k2 = Some g2 →
  composite_of (used_metatiles (gs_atlas gs)) k1 = Some img1 →
  composite_of (used_metatiles (gs_atlas gs)) k2 = Some img2 →
  (tobytes img1 = tobytes img2 ↔ g1 = g2) ∧ 1 ≤ g1.
Proof.
  intros Hrun Hk1 Hk2 Hc1 Hc2.
  apply process_cells_dedup in Hrun as ((_ & Hrange & Hinj) & _ & Hcons).
  - destruct (Hcons k1 g1 Hk1) as (img1' & Hc1' & Hg1).
    destruct (Hcons k2 g2 Hk2) as (img2' & Hc2' & Hg2).
    rewrite Hc1 in Hc1'. injection Hc1' as <-.
    rewrite Hc2 in Hc2'. injection Hc2' as <-.
    split; [split|].
    + intros Heq. rewrite Heq in Hg1. congruence.
    + intros <-. eauto.
    + by apply Hrange in Hg1 as [? _].
  - apply atlas_inv_init.
  - intros key imgs. cbn. by rewrite lookup_empty.
  - intros k g. cbn. by rewrite lookup_empty.
Qed.

(** * Further properties *)

(** ** map_reader.py: the decoded fields *)


Lemma byte_to_Z_bounded (b : byte) : 0 ≤ Z.of_N (Byte.to_N b) < 256.
Proof. pose proof (Byte.to_N_bounded b). lia. Qed.

Lemma lookup_u16_pairs (off : nat) (data : list byte) (k : nat) :
  u16_pairs off data !! k
  = match data !! (2 * k)%nat, data !! (2 * k + 1)%nat with
    | Some b0, Some b1 =>
        Some ((off + 2 * k)%nat,
              Z.of_N (Byte.to_N b0) + 256 * Z.of_N (Byte.to_N b1))
    | _, _ => None
    end.
Proof.
  revert off k. induction data as [|b|b0 b1 rest IH] using list_pair_ind;
    intros off k.
  - by destruct k.
  - destruct k as [|k]; [done|].
    replace (2 * S k)%nat with (S (S (2 * k))) by lia. done.
  - destruct k as [|k].
    + cbn. do 2 f_equal. lia.
    + cbn [u16_pairs]. rewrite lookup_cons. rewrite IH.
      replace (2 * S k)%nat with (S (S (2 * k))) by lia.
      replace (S (S (2 * k)) + 1)%nat with (S (S (2 * k + 1))) by lia.
      cbn [lookup list_lookup].
      destruct (rest !! (2 * k)%nat), (rest !! (2 * k + 1)%nat); try done.
      do 2 f_equal. lia.
Qed.

Lemma lookup_map_entries_of (data : list byte) (k : nat) :
  map_entries_of data !! k
  = match data !! (2 * k)%nat, data !! (2 * k + 1)%nat with
    | Some b0, Some b1 =>
        Some (Z.of_N (Byte.to_N b0) + 256 * Z.of_N (Byte.to_N b1))
    | _, _ => None
    end.
Proof.
  unfold map_entries_of. rewrite list_lookup_fmap, lookup_u16_pairs.
  by destruct (data !! (2 * k)%nat), (data !! (2 * k + 1)%nat).
Qed.

Lemma map_entries_of_bounded (data : list byte) (k : nat) (e : Z) :
  map_entries_of data !! k = Some e → 0 ≤ e < 65536.
Proof.
  rewrite lookup_map_entries_of.
  destruct (data !! (2 * k)%nat) as [b0|]; [|done].
  destruct (data !! (2 * k + 1)%nat) as [b1|]; [|done].
  intros [= <-].
  pose proof (byte_to_Z_bounded b0). pose proof (byte_to_Z_bounded b1). lia.
Qed.

Lemma land_ones_mod (a n : Z) : 0 ≤ n → Z.land a (2 ^ n - 1) = a `mod` 2 ^ n.
Proof.
  intros Hn. replace (2 ^ n - 1) with (Z.ones n) by (rewrite Z.ones_equiv; lia).
  by apply Z.land_ones.
Qed.

Lemma attributes_fold (data : list byte) (m : nat) (acc : gmap Z Z) (k : Z) :
  foldl (λ (attributes : gmap Z Z) '(i, attr),
           <[Z.of_nat (i / 2) := Z.land (Z.shiftr attr 12) 0x0F]> attributes)
        acc (u16_pairs (2 * m) data) !! k
  = match (if bool_decide (Z.of_nat m ≤ k)
           then data !! (2 * Z.to_nat (k - Z.of_nat m) + 1)%nat else None) with
    | Some b1 => Some (Z.of_N (Byte.to_N b1) `div` 16)
    | None => acc !! k
    end.
Proof.
  revert m acc. induction data as [|b|b0 b1 rest IH] using list_pair_ind;
    intros m acc.
  - cbn. by case_bool_decide.
  - cbn [u16_pairs foldl]. case_bool_decide; [|done].
    replace (2 * Z.to_nat (k - Z.of_nat m) + 1)%nat
      with (S (2 * Z.to_nat (k - Z.of_nat m))) by lia.
    done.
  - cbn [u16_pairs foldl].
    replace (2 * m + 2)%nat with (2 * S m)%nat by lia. rewrite IH.
    replace (2 * m / 2)%nat with m by (rewrite Nat.mul_comm, Nat.div_mul; lia).
    destruct (decide (k = Z.of_nat m)) as [->|Hne].
    + rewrite bool_decide_eq_false_2 by lia.
      rewrite bool_decide_eq_true_2 by lia.
      rewrite lookup_insert_eq. replace (Z.of_nat m - Z.of_nat m) with 0 by lia.
      cbn [Z.to_nat Nat.mul Nat.add lookup list_lookup]. f_equal.
      pose proof (byte_to_Z_bounded b0). pose proof (byte_to_Z_bounded b1).
      rewrite Z.shiftr_div_pow2 by lia.
      change 15 with (2 ^ 4 - 1). rewrite land_ones_mod by lia.
      change (2 ^ 12) with (256 * 16). change (2 ^ 4) with 16.
      rewrite <- Z.div_div by lia.
      replace (Z.of_N (Byte.to_N b0) + 256 * Z.of_N (Byte.to_N b1))
        with (Z.of_N (Byte.to_N b0) + Z.of_N (Byte.to_N b1) * 256) by lia.
      rewrite Z.div_add by lia. rewrite (Z.div_small (Z.of_N (Byte.to_N b0))) by lia.
      rewrite Z.add_0_l. apply Z.mod_small.
      split; [apply Z.div_pos; lia|]. apply Z.div_lt_upper_bound; lia.
    + rewrite lookup_insert_ne by done.
      destruct (decide (Z.of_nat m ≤ k)) as [Hle|Hlt].
      * rewrite !bool_decide_eq_true_2 by lia.
        replace (2 * Z.to_nat (k - Z.of_nat m) + 1)%nat
          with (S (S (2 * Z.to_nat (k - Z.of_nat (S m)) + 1))) by lia.
        done.
      * by rewrite !bool_decide_eq_false_2 by lia.
Qed.

(** X1: the layer type [read_metatile_attributes] records for metatile [k]
    is the high nibble of byte [2k + 1] of [metatile_attributes.bin], whatever
    the low byte holds; a metatile the file has no complete record for gets
    no entry, so every recorded layer type lies in 0..15; a missing file
    gives the empty dictionary. *)
Theorem read_metatile_attributes_high_nibble (data : list byte) :
  (∀ k : nat,
     read_metatile_attributes (Some data) !! Z.of_nat k
     = (λ b1, Z.of_N (Byte.to_N b1) `div` 16) <$> data !! (2 * k + 1)%nat)
  ∧ (∀ k : Z, k < 0 → read_metatile_attributes (Some data) !! k = None)
  ∧ (∀ k v : Z, read_metatile_attributes (Some data) !! k = Some v → 0 ≤ v ≤ 15)
  ∧ read_metatile_attributes None = ∅.
Proof.
  assert (∀ k : Z,
            read_metatile_attributes (Some data) !! k
            = if bool_decide (0 ≤ k)
              then (λ b1, Z.of_N (Byte.to_N b1) `div` 16)
                     <$> data !! (2 * Z.to_nat k + 1)%nat
              else None) as Hall.
  { intros k. unfold read_metatile_attributes. rewrite read_u16_records_eq.
    pose proof (attributes_fold data 0 ∅ k) as H.
    change (2 * 0)%nat with 0%nat in H. cbn [bind].
    rewrite H. clear H. change (Z.of_nat 0) with 0. rewrite Z.sub_0_r.
    case_bool_decide; [|by rewrite lookup_empty].
    destruct (data !! _); [done|]. by rewrite lookup_empty. }
  split; [|split; [|split]].
  - intros k. rewrite Hall, bool_decide_eq_true_2 by lia. by rewrite Nat2Z.id.
  - intros k Hk. by rewrite Hall, bool_decide_eq_false_2 by lia.
  - intros k v. rewrite Hall. case_bool_decide; [|done].
    destruct (data !! _) as [b1|]; [|done]. intros [= <-].
    pose proof (byte_to_Z_bounded b1).
    split; [apply Z.div_pos; lia|].
    cut (Z.of_N (Byte.to_N b1) `div` 16 < 16); [lia|].
    apply Z.div_lt_upper_bound; lia.
  - done.
Qed.

(** X2: [read_metatiles_with_attributes] returns one triple per complete
    16-bit record of [metatiles.bin]; its fields are in range (tile id below
    1024, flip flags below 4, palette index below 16) and put together again
    they give the record back: [tile_id + 1024 * flip + 4096 * palette]. A
    missing file gives the empty list. *)
Theorem read_metatiles_with_attributes_decode (data : list byte) :
  length (read_metatiles_with_attributes (Some data)) = (length data / 2)%nat
  ∧ (∀ (k : nat) (tile_id flip_flags palette_index : Z),
       read_metatiles_with_attributes (Some data) !! k
       = Some (tile_id, flip_flags, palette_index) →
       0 ≤ tile_id < 1024 ∧ 0 ≤ flip_flags < 4 ∧ 0 ≤ palette_index < 16
       ∧ map_entries_of data !! k
         = Some (tile_id + 1024 * flip_flags + 4096 * palette_index))
  ∧ read_metatiles_with_attributes None = [].
Proof.
  unfold read_metatiles_with_attributes. rewrite read_u16_records_eq.
  split; [by rewrite length_fmap, length_u16_pairs|]. split; [|done].
  intros k tile_id flip_flags palette_index.
  rewrite list_lookup_fmap.
  destruct (u16_pairs 0 data !! k) as [[i e]|] eqn:Hk; [|done].
  assert (map_entries_of data !! k = Some e) as He.
  { unfold map_entries_of. by rewrite list_lookup_fmap, Hk. }
  pose proof (map_entries_of_bounded _ _ _ He) as Hb.
  cbn. intros [= <- <- <-]. rewrite He.
  rewrite !Z.shiftr_div_pow2 by lia.
  change 1023 with (2 ^ 10 - 1). change 3 with (2 ^ 2 - 1).
  change 15 with (2 ^ 4 - 1). rewrite !land_ones_mod by lia.
  change (2 ^ 10) with 1024. change (2 ^ 12) with 4096.
  change (2 ^ 2) with 4. change (2 ^ 4) with 16.
  assert (e `div` 4096 < 16) by (apply Z.div_lt_upper_bound; lia).
  assert (0 ≤ e `div` 4096) by (apply Z.div_pos; lia).
  rewrite (Z.mod_small (e `div` 4096)) by lia.
  pose proof (Z.mod_pos_bound e 1024). pose proof (Z.mod_pos_bound (e `div` 1024) 4).
  split; [lia|]. split; [lia|]. split; [lia|]. f_equal.
  replace 4096 with (1024 * 4) by lia. rewrite <- Z.div_div by lia.
  pose proof (Z.div_mod e 1024). pose proof (Z.div_mod (e `div` 1024) 4). lia.
Qed.

Lemma grid_row_take_drop (entries : list Z) (width y : Z) :
  0 ≤ width → 0 ≤ y → (y + 1) * width ≤ Z.of_nat (length entries) →
  (λ x, default 0 (entries !! Z.to_nat (y * width + x))) <$> range width
  = take (Z.to_nat width) (drop (Z.to_nat (y * width)) entries).
Proof.
  intros Hw Hy Hlen. apply list_eq. intros i.
  destruct (decide (i < Z.to_nat width)%nat) as [Hi|Hi].
  - rewrite list_lookup_fmap, lookup_range by done.
    rewrite lookup_take_lt, lookup_drop by done. simpl.
    replace (Z.to_nat (y * width + Z.of_nat i))
      with (Z.to_nat (y * width) + i)%nat by nia.
    destruct (lookup_lt_is_Some_2 entries (Z.to_nat (y * width) + i))
      as [v Hv]; [nia|].
    by rewrite Hv.
  - rewrite lookup_take_ge by lia.
    apply lookup_ge_None_2. rewrite length_fmap, length_range. lia.
Qed.

Lemma concat_grid_rows_prefix (entries : list Z) (width : Z) (n : nat) :
  0 ≤ width → Z.of_nat n * width ≤ Z.of_nat (length entries) →
  concat ((λ y, (λ x, default 0 (entries !! Z.to_nat (y * width + x)))
                  <$> range width) <$> (Z.of_nat <$> seq 0 n))
  = take (n * Z.to_nat width) entries.
Proof.
  intros Hw. induction n as [|n IH]; intros Hlen; [done|].
  rewrite seq_S, !fmap_app, concat_app. cbn [fmap list_fmap concat Nat.add].
  rewrite app_nil_r, IH by nia.
  rewrite grid_row_take_drop by nia.
  replace (Z.to_nat (Z.of_nat n * width)) with (n * Z.to_nat width)%nat by nia.
  rewrite take_take_drop. f_equal. lia.
Qed.

Lemma concat_grid_rows (entries : list Z) (width height : Z) :
  0 ≤ width → Z.of_nat (length entries) = width * height →
  concat (grid_rows entries width height) = entries.
Proof.
  intros Hw Hlen. unfold grid_rows, range.
  rewrite concat_grid_rows_prefix by nia.
  apply take_ge. nia.
Qed.

(** X3: a grid [read_map_bin] returns for a non-negative width has
    [height] rows of [width] entries, and its rows laid end to end are the
    16-bit records of the file in file order. *)
Theorem read_map_bin_round_trip (data : list byte) (width height : Z)
    (rows : list (list Z)) :
  0 ≤ width →
  read_map_bin (Some data) width height = Ok rows →
  length rows = Z.to_nat height
  ∧ Forall (λ row, length row = Z.to_nat width) rows
  ∧ concat rows = map_entries_of data.
Proof.
  intros Hw Hrun.
  destruct (decide (Z.of_nat (length data / 2) = width * height)) as [Heq|Hne].
  2:{ by rewrite read_map_bin_mismatch in Hrun. }
  rewrite read_map_bin_rows in Hrun by done. injection Hrun as <-.
  split; [|split].
  - unfold grid_rows. by rewrite length_fmap, length_range.
  - unfold grid_rows. apply Forall_fmap, Forall_forall. intros y _. cbn.
    by rewrite length_fmap, length_range.
  - apply concat_grid_rows; [done|]. by rewrite length_map_entries_of.
Qed.

Lemma read_map_bin_round_trip_witness :
  read_map_bin (Some ["005"; "000"; "007"; "001"]%byte) 2 1 = Ok [[5; 263]]
  ∧ concat [[5; 263]] = map_entries_of ["005"; "000"; "007"; "001"]%byte.
Proof.
  split; [reflexivity|].
  apply (read_map_bin_round_trip ["005"; "000"; "007"; "001"]%byte 2 1
           [[5; 263]]); [lia|reflexivity].
Defined.

(** X4: [_read_and_validate_map_data] never raises: a missing file is
    reported through the log and answered with [None], and the [raise] of the
    [ValueError] handler is never reached. When it returns a grid, the
    dimensions returned are the layout's or their halves, and they multiply to
    the number of records in the file. *)
Theorem _read_and_validate_map_data_never_raises
    (file : option (list byte)) (width height : Z) :
  let r := _read_and_validate_map_data file width height in
  (∃ v, r.1 = Ok v)
  ∧ (file = None → r = (Ok None, [LogError "error reading map.bin"]))
  ∧ (∀ data rows w h,
       file = Some data → r.1 = Ok (Some (rows, w, h)) →
       w * h = Z.of_nat (length data / 2)
       ∧ rows = grid_rows (map_entries_of data) w h
       ∧ ((w = width ∧ h = height)
          ∨ (w = width `div` 2 ∧ h = height `div` 2))).
Proof.
  cbv zeta. destruct file as [data|].
  2:{ split; [by eexists|]. split; [done|]. by intros. }
  unfold _read_and_validate_map_data.
  destruct (decide (Z.of_nat (length data / 2) = width * height)) as [Heq|Hne].
  - rewrite read_map_bin_rows by done. cbn [fst].
    split; [by eexists|]. split; [done|].
    intros ? rows w h [= <-] [= <- <- <-]. eauto.
  - rewrite read_map_bin_mismatch by done. rewrite file_size_div_2.
    rewrite bool_decide_eq_true_2 by done.
    destruct (bool_decide (width `div` 2 > 0) && bool_decide (height `div` 2 > 0)
              && bool_decide (Z.of_nat (length data / 2)
                              = width `div` 2 * (height `div` 2))) eqn:Hfit.
    + apply andb_prop in Hfit as [_ Hfit%bool_decide_eq_true_1].
      rewrite read_map_bin_rows by done. cbn [fst].
      split; [by eauto|]. split; [done|].
      intros ? rows w h [= <-] [= <- <- <-]. eauto.
    + cbn [fst]. split; [by eexists|]. split; [done|]. by intros ? ? ? ? _ [=].
Qed.

(** ** metatile.py: the tile dictionaries *)

Lemma create_tile_dict_step_lookup (bx bY : Z) (tiles : list tile_ref)
    (acc : gmap (Z * Z) (Z * Z)) (idx : nat) (ty tx : Z) (p : Z * Z)
    (v : Z * Z) :
  (match tiles !! idx with
   | Some (tile_id, _, palette_idx) =>
       if tile_id =? 0 then acc
       else <[(bx + tx, bY + ty) := (tile_id, palette_idx)]> acc
   | None => acc
   end) !! p = Some v
  ↔ (p = (bx + tx, bY + ty)
     ∧ ∃ flip, tiles !! idx = Some (v.1, flip, v.2) ∧ v.1 ≠ 0)
    ∨ ((p ≠ (bx + tx, bY + ty)
        ∨ ¬ ∃ t, tiles !! idx = Some t ∧ t.1.1 ≠ 0)
       ∧ acc !! p = Some v).
Proof.
  destruct v as [tid pal].
  destruct (tiles !! idx) as [[[tile_id flip] palette_idx]|] eqn:Ht; cbn [fst snd].
  - destruct (Z.eqb_spec tile_id 0) as [->|Hne].
    + split; [|by intros [(_ & ? & [= <- _ _] & ?)|[_ ?]]].
      intros H. right. split; [|done]. right. by intros (t & [= <-] & ?).
    + rewrite lookup_insert_Some. split.
      * intros [[<- [= <- <-]]|[Hp Hacc]]; [left|right]; eauto.
      * intros [(-> & ? & [= <- _ <-] & _)|[[Hp|Hno] Hacc]]; [by left|eauto|].
        destruct Hno. by eexists.
  - split; [|by intros [(_ & ? & [=] & _)|[_ ?]]].
    intros H. right. split; [|done]. right. by intros (t & [=] & _).
Qed.

(** X5: the dictionary [create_tile_dict] builds holds, at the four
    positions of the 2x2 block that starts at [(base_tile_x, base_tile_y)],
    the tile id and palette index of the tile listed for that position (row
    by row), and nothing else: an empty tile (id 0) or a position the list is
    too short for gets no entry, and the flip flags are dropped. *)
Theorem create_tile_dict_lookup (base_tile_x base_tile_y : Z)
    (tiles_data : list tile_ref) (tile_x tile_y tile_id palette_idx : Z) :
  create_tile_dict base_tile_x base_tile_y tiles_data !! (tile_x, tile_y)
  = Some (tile_id, palette_idx)
  ↔ ∃ tx ty flip_flags,
      0 ≤ tx ≤ 1 ∧ 0 ≤ ty ≤ 1
      ∧ tile_x = base_tile_x + tx ∧ tile_y = base_tile_y + ty
      ∧ tiles_data !! Z.to_nat (2 * ty + tx)
        = Some (tile_id, flip_flags, palette_idx)
      ∧ tile_id ≠ 0.
Proof.
  unfold create_tile_dict. cbn [imap foldl compose].
  rewrite !create_tile_dict_step_lookup. cbn [fst snd].
  rewrite lookup_empty. split.
  - intros [(Hp & flip & Ht & Hne)|[_ [(Hp & flip & Ht & Hne)|[_
      [(Hp & flip & Ht & Hne)|[_ [(Hp & flip & Ht & Hne)|[_ ?]]]]]]]];
      [| | | |done]; injection Hp as -> ->.
    + exists 1, 1, flip. do 2 (split; [lia|]). do 2 (split; [done|]). by split.
    + exists 0, 1, flip. do 2 (split; [lia|]). do 2 (split; [done|]). by split.
    + exists 1, 0, flip. do 2 (split; [lia|]). do 2 (split; [done|]). by split.
    + exists 0, 0, flip. do 2 (split; [lia|]). do 2 (split; [done|]). by split.
  - intros (tx & ty & flip & Htx & Hty & -> & -> & Ht & Hne).
    assert (∀ a b c d : Z, (a, b) ≠ (c, d) ↔ a ≠ c ∨ b ≠ d) as Hpair.
    { intros. split; [|by intros [?|?] [= ? ?]].
      intros H. destruct (decide (a = c)) as [->|]; [|by left].
      right. by intros ->. }
    assert ((tx = 0 ∨ tx = 1) ∧ (ty = 0 ∨ ty = 1)) as [[-> | ->] [-> | ->]]
      by lia; cbn in Ht.
    + do 3 (right; split; [left; apply Hpair; lia|]). left. eauto.
    + do 1 (right; split; [left; apply Hpair; lia|]). left. eauto.
    + do 2 (right; split; [left; apply Hpair; lia|]). left. eauto.
    + left. eauto.
Qed.

Lemma create_tile_dict_empty_tiles (base_tile_x base_tile_y : Z) (n : nat) :
  create_tile_dict base_tile_x base_tile_y (replicate n (0, 0, 0)) = ∅.
Proof.
  apply map_eq. intros [tile_x tile_y]. rewrite lookup_empty.
  apply eq_None_not_Some. intros [[tile_id palette_idx] H].
  apply create_tile_dict_lookup in H
    as (tx & ty & flip & _ & _ & _ & _ & Ht & Hne).
  apply lookup_replicate in Ht as [[= -> _ _] _]. done.
Qed.

(** X6: for a metatile id that is negative or past the end of the metatile
    data, [convert_metatile_to_tile_layers_with_attrs] returns three empty
    dictionaries, whatever the layer type. *)
Theorem convert_metatile_out_of_range (metatile_id : Z)
    (metatile_data : list tile_ref) (layer_type x y : Z) :
  metatile_id < 0 ∨ Z.of_nat (length metatile_data) ≤ metatile_id * 8 →
  convert_metatile_to_tile_layers_with_attrs metatile_id metatile_data
    layer_type x y = (∅, ∅, ∅).
Proof.
  intros Hout. unfold convert_metatile_to_tile_layers_with_attrs.
  unfold unpack_metatile_data_with_attrs, NUM_TILES_PER_METATILE.
  replace ((metatile_id <? 0)
           || (metatile_id * 8 >=? Z.of_nat (length metatile_data)))
    with true by lia.
  change (slice (replicate 8 (0, 0, 0)) 0 4)
    with (replicate 4 (0, 0, 0) : list (Z * Z * Z)).
  change (slice (replicate 8 (0, 0, 0)) 4 8)
    with (replicate 4 (0, 0, 0) : list (Z * Z * Z)).
  unfold tile_layers_data.
  pose proof (create_tile_dict_empty_tiles (x * 2) (y * 2) 4) as H4.
  pose proof (create_tile_dict_empty_tiles (x * 2) (y * 2) 0) as H0.
  cbn [replicate] in H0.
  repeat case_match; simplify_eq; by rewrite ?H4, ?H0.
Qed.

Lemma convert_metatile_out_of_range_witness :
  convert_metatile_to_tile_layers_with_attrs 3
    (replicate 16 (7, 0, 2)) 1 4 5 = (∅, ∅, ∅).
Proof.
  apply (convert_metatile_out_of_range 3 (replicate 16 (7, 0, 2)) 1 4 5).
  right. cbn. lia.
Defined.

(** ** metatile_processor.py and metatile_renderer.py: bounds *)

(** X7: [validate_metatile_bounds] accepts exactly the ids [i >= 0] whose
    eight tile references all exist ([8 * i + 8 <= len]); its other two tests
    never decide. After it accepts, the slice [process_single_metatile] takes
    holds those eight references, so the "Validate we got expected number of
    tiles" block that follows is not reached. *)
Theorem validate_metatile_bounds_iff (actual_metatile_id : Z)
    (metatiles_with_attrs : list tile_ref) :
  (validate_metatile_bounds actual_metatile_id metatiles_with_attrs = true
   ↔ 0 ≤ actual_metatile_id
     ∧ 8 * actual_metatile_id + 8 ≤ Z.of_nat (length metatiles_with_attrs))
  ∧ (validate_metatile_bounds actual_metatile_id metatiles_with_attrs = true →
     ∀ k : nat, (k < 8)%nat →
       slice metatiles_with_attrs
         (Z.to_nat (actual_metatile_id * NUM_TILES_PER_METATILE))
         (Z.to_nat (actual_metatile_id * NUM_TILES_PER_METATILE) + 8) !! k
       = metatiles_with_attrs !! (8 * Z.to_nat actual_metatile_id + k)%nat
       ∧ is_Some (metatiles_with_attrs
                    !! (8 * Z.to_nat actual_metatile_id + k)%nat)).
Proof.
  assert (validate_metatile_bounds actual_metatile_id metatiles_with_attrs = true
          ↔ 0 ≤ actual_metatile_id
            ∧ 8 * actual_metatile_id + 8
              ≤ Z.of_nat (length metatiles_with_attrs)) as Hiff.
  { unfold validate_metatile_bounds, NUM_TILES_PER_METATILE.
    destruct (actual_metatile_id <? 0) eqn:Hneg; [split; [done|lia]|].
    destruct ((actual_metatile_id * 8 <? 0)
              || (actual_metatile_id * 8 + 8
                  >? Z.of_nat (length metatiles_with_attrs))
              || (Z.of_nat (length metatiles_with_attrs) <? 8)) eqn:Hb;
      (split; [done || lia|]); intros; (done || lia). }
  split; [done|]. intros [Hid Hlen]%Hiff k Hk.
  unfold slice, NUM_TILES_PER_METATILE.
  rewrite lookup_take_lt, lookup_drop by lia.
  replace (Z.to_nat (actual_metatile_id * 8) + k)%nat
    with (8 * Z.to_nat actual_metatile_id + k)%nat by lia.
  split; [done|]. apply lookup_lt_is_Some_2. lia.
Qed.

Lemma validate_metatile_bounds_iff_witness :
  validate_metatile_bounds 1 (replicate 16 (7, 0, 2)) = true
  ∧ slice (replicate 16 (7, 0, 2)) 8 16 !! 3%nat = Some (7, 0, 2).
Proof.
  split; [reflexivity|].
  pose proof (proj2 (validate_metatile_bounds_iff 1 (replicate 16 (7, 0, 2)))
                eq_refl 3%nat ltac:(lia)) as [H _].
  exact H.
Defined.

(** X8: a tile the raster lookup of [_render_tile_grid] settles on is
    always extracted: [extract_tile] never divides by zero there, so the
    [except] around it is not reached, and for an image of non-negative size
    the 8x8 box cropped lies inside the image. *)
Theorem resolve_tile_raster_extract_in_bounds (self : MetatileRenderer)
    (primary secondary name : string) (tile_id idx : Z) (img : PImage) :
  resolve_tile_raster self tile_id primary secondary = Some (name, img, idx) →
  let tiles_per_row := pim_width img `div` TILE_SIZE in
  let tile_x := (idx `mod` tiles_per_row) * TILE_SIZE in
  let tile_y := (idx `div` tiles_per_row) * TILE_SIZE in
  extract_tile img idx
  = Ok (crop img tile_x tile_y (tile_x + TILE_SIZE) (tile_y + TILE_SIZE))
  ∧ (0 ≤ pim_width img → 0 ≤ pim_height img →
     0 ≤ tile_x ∧ tile_x + TILE_SIZE ≤ pim_width img
     ∧ 0 ≤ tile_y ∧ tile_y + TILE_SIZE ≤ pim_height img).
Proof.
  intros [Hidx _]%resolve_tile_raster_rule. cbv zeta.
  unfold max_tile_id, extract_tile, TILE_SIZE in *.
  set (tpr := pim_width img `div` 8) in *.
  set (tpc := pim_height img `div` 8) in *.
  assert (tpr ≠ 0) as Hne by nia.
  split.
  - destruct (Z.eqb_spec tpr 0); [done|]. done.
  - intros Hw Hh.
    assert (0 ≤ tpr) by (apply Z.div_pos; lia).
    assert (8 * tpr ≤ pim_width img) by (apply Z.mul_div_le; lia).
    assert (8 * tpc ≤ pim_height img) by (apply Z.mul_div_le; lia).
    pose proof (Z.mod_pos_bound idx tpr ltac:(lia)).
    assert (0 ≤ idx `div` tpr) by (apply Z.div_pos; lia).
    assert (idx `div` tpr < tpc) by (apply Z.div_lt_upper_bound; nia).
    nia.
Qed.

Lemma resolve_tile_raster_extract_in_bounds_witness :
  extract_tile sample_tiles 1 = Ok (crop sample_tiles 8 0 16 8)
  ∧ (0 ≤ 16 → 0 ≤ 8 → 0 ≤ 8 ∧ 8 + 8 ≤ 16 ∧ 0 ≤ 0 ∧ 0 + 8 ≤ 8).
Proof.
  exact (resolve_tile_raster_extract_in_bounds sample_renderer
           "General" "Petalburg" "Petalburg" 513 1 sample_tiles eq_refl).
Defined.

(** ** metatile_renderer.py: what a rendered half looks like *)

Lemma image_size_new (w h : Z) (color : Z * Z * Z * Z) :
  image_size (Image_new w h color) w h.
Proof.
  unfold image_size, Image_new. cbn. rewrite length_replicate.
  do 3 (split; [done|]). apply Forall_replicate. by rewrite length_replicate.
Qed.

Lemma image_size_paste (dst src mask : Image) (x y w h : Z) :
  image_size dst w h → image_size (paste dst src x y mask) w h.
Proof.
  intros (Hw & Hh & Hrows & Hall). unfold image_size, paste. cbn.
  rewrite length_imap. do 3 (split; [done|]).
  apply Forall_lookup. intros r row Hr.
  apply list_lookup_imap_Some in Hr as (row' & Hr & ->).
  rewrite length_imap. by eapply (Forall_lookup_1 _ _ _ _ Hall).
Qed.

Lemma length_tobytes (img : Image) (w h : Z) :
  image_size img w h →
  length (tobytes img) = (4 * (Z.to_nat w * Z.to_nat h))%nat.
Proof.
  intros (_ & _ & Hrows & Hall). unfold tobytes.
  assert (length (concat (im_rows img)) = (Z.to_nat w * Z.to_nat h)%nat) as Hc.
  { rewrite <- Hrows. clear Hrows.
    induction Hall as [|row rows Hrow _ IH]; [cbn; lia|].
    cbn [concat]. rewrite length_app, IH, Hrow. cbn. lia. }
  rewrite <- Hc. generalize (concat (im_rows img)). intros l.
  induction l as [|[[[r g] b] a] l IH]; [done|].
  cbn. rewrite IH. lia.
Qed.

Lemma _render_tile_grid_size (self : MetatileRenderer) (tiles : list tile_ref)
    (primary secondary : string) :
  length tiles = 4%nat →
  ∃ img, _render_tile_grid self tiles primary secondary = Some img
         ∧ image_size img METATILE_SIZE METATILE_SIZE.
Proof.
  intros Hlen. unfold _render_tile_grid.
  rewrite bool_decide_eq_false_2 by (intros Hne; apply Hne, Hlen).
  eexists. split; [done|].
  generalize (imap (λ idx t, (idx, t)) tiles). intros l.
  generalize (image_size_new METATILE_SIZE METATILE_SIZE (0, 0, 0, 0)).
  generalize (Image_new METATILE_SIZE METATILE_SIZE (0, 0, 0, 0)).
  induction l as [|[idx t] l IH]; intros grid Hgrid; [done|].
  cbn [foldl]. apply IH.
  destruct (render_tile self primary secondary t) as [tile|]; [|done].
  destruct (default (0, 0) (positions !! idx)) as [x y].
  by apply image_size_paste.
Qed.

(** X9: [render_metatile] returns two images exactly when it is given
    eight tile references, and then both are 16x16 RGBA images of 1024 bytes,
    whatever the tiles, tilesets and layer type; otherwise it returns
    [(None, None)]. *)
Theorem render_metatile_size (self : MetatileRenderer)
    (metatile_tiles : list tile_ref) (primary secondary : string)
    (layer_type : MetatileLayerType) :
  (length metatile_tiles = 8%nat →
   ∃ bottom top,
     render_metatile self metatile_tiles primary secondary layer_type
     = (Some bottom, Some top)
     ∧ image_size bottom 16 16 ∧ image_size top 16 16
     ∧ length (tobytes bottom) = 1024%nat
     ∧ length (tobytes top) = 1024%nat)
  ∧ (length metatile_tiles ≠ 8%nat →
     render_metatile self metatile_tiles primary secondary layer_type
     = (None, None)).
Proof.
  unfold render_metatile, NUM_TILES_PER_METATILE. split.
  - intros Hlen. rewrite bool_decide_eq_false_2 by lia.
    destruct (_render_tile_grid_size self (slice metatile_tiles 0 4)
                primary secondary) as (bottom & -> & Hb).
    { unfold slice. rewrite length_take, length_drop. lia. }
    destruct (_render_tile_grid_size self (slice metatile_tiles 4 8)
                primary secondary) as (top & -> & Ht).
    { unfold slice. rewrite length_take, length_drop. lia. }
    exists bottom, top. split; [by destruct layer_type|].
    split; [done|]. split; [done|].
    split; [apply (length_tobytes _ _ _ Hb)|apply (length_tobytes _ _ _ Ht)].
  - intros Hlen. rewrite bool_decide_eq_true_2; [done|]. lia.
Qed.

Lemma resolve_tile_raster_missing (self : MetatileRenderer)
    (primary secondary : string) (tile_id : Z) :
  load_tileset_image self primary = None →
  load_tileset_image self secondary = None →
  resolve_tile_raster self tile_id primary secondary = None.
Proof.
  intros Hp Hs. unfold resolve_tile_raster.
  destruct (tile_id <? NUM_TILES_IN_PRIMARY_VRAM); rewrite ?Hp, ?Hs;
    cbn [andb]; [done|].
  case_bool_decide; by rewrite ?Hp.
Qed.

(** X10: when neither tileset has a [tiles.png], every metatile of eight
    references renders as two fully transparent 16x16 images; nothing is
    raised. *)
Theorem render_metatile_missing_tilesets (self : MetatileRenderer)
    (metatile_tiles : list tile_ref) (primary secondary : string)
    (layer_type : MetatileLayerType) :
  load_tileset_image self primary = None →
  load_tileset_image self secondary = None →
  length metatile_tiles = 8%nat →
  render_metatile self metatile_tiles primary secondary layer_type
  = (Some transparent_metatile, Some transparent_metatile).
Proof.
  intros Hp Hs Hlen.
  assert (∀ tiles, length tiles = 4%nat →
            _render_tile_grid self tiles primary secondary
            = Some transparent_metatile) as Hgrid.
  { intros tiles Htiles. unfold _render_tile_grid.
    rewrite bool_decide_eq_false_2 by (intros Hne; apply Hne, Htiles). f_equal.
    apply foldl_id. intros grid [idx [[tile_id flip] pal]] _.
    unfold render_tile. destruct (tile_id =? 0); [done|].
    by rewrite resolve_tile_raster_missing. }
  unfold render_metatile, NUM_TILES_PER_METATILE.
  rewrite bool_decide_eq_false_2 by lia.
  rewrite !Hgrid by (unfold slice; rewrite length_take, length_drop; lia).
  by destruct layer_type.
Qed.

Lemma render_metatile_missing_tilesets_witness :
  render_metatile sample_renderer (replicate 8 (513, 1, 6)) "Kanto" "Johto"
    SPLIT
  = (Some transparent_metatile, Some transparent_metatile).
Proof.
  exact (render_metatile_missing_tilesets sample_renderer
           (replicate 8 (513, 1, 6)) "Kanto" "Johto" SPLIT
           eq_refl eq_refl eq_refl).
Defined.

(** ** converter.py: the numbering of the atlas *)










(** ** converter.py: the layer pass and the used GIDs *)









(** ** converter.py: the layer pass after the grid pass *)



(** ** converter.py: one animation entry per tile id *)




(** ** converter.py: the numbering after the border pass *)

















(** ** converter.py: the order of the tileset image *)





(** ** converter.py: storing an animation frame in the tileset image *)








(** ** animation_scanner.py: the tiles of a frame *)





